(** * WiFiLogger2 node server: the poll/mapping logic of [WiFiLogger2.py]

    A shallow embedding of the controller of the MeteoHub node server and
    of its node classes, together with the properties of the mapping,
    discovery and configuration paths.

    Conventions of the embedding.
    - Python [float] is IEEE binary64 and is modelled by Rocq's primitive
      [float]; [+ - * /] are the primitive operations, so every value on
      the poll path is computed bit for bit.
    - Python [int] is [Z].
    - [dict]s keyed by strings are [gmap string _]; the dicts whose
      iteration order is observable (the enabled-measurement tables) are
      insertion-ordered association lists.
    - Exceptions are the left summand of [result]; calls into the host
      framework ([polyinterface]), the logger, [syslog], [print] and the
      HTTP client are recorded as events of a trace.
    - A [str] is the byte string of its UTF-8 encoding.
    - The derived calculations of [TemperatureNode] use [math.log] and
      [math.pow]; these two library functions are parameters. *)

From Stdlib Require Import ZArith Floats Lia String Ascii List Bool.
From stdpp Require Import base option list functions gmap strings.
Import ListNotations.

Local Open Scope string_scope.
Local Open Scope Z_scope.

Set Warnings "-register-all,-inexact-float".

(** ** Python values *)

(** What [json.loads] can return, and what the plugin passes around. *)
Inductive pyvalue : Type :=
| PNone
| PBool (b : bool)
| PInt (z : Z)
| PFloat (f : float)
| PStr (s : string)
| PList (l : list pyvalue)
| PDict (m : gmap string pyvalue).

(** The exceptions the modelled code can meet. *)
Inductive pyexn : Type :=
| KeyError (key : string)
| TypeError
| ValueError
| OverflowError
| ZeroDivisionError
| OtherError (what : string).

Definition result (A : Type) : Type := pyexn + A.

Definition ok {A} (a : A) : result A := inr a.
Definition raise {A} (e : pyexn) : result A := inl e.

Definition rbind {A B} (r : result A) (k : A -> result B) : result B :=
  match r with
  | inl e => inl e
  | inr a => k a
  end.

Declare Scope result_scope.
Delimit Scope result_scope with result.
Notation "x <-- r ;; k" := (rbind r (fun x => k))
  (at level 100, r at next level, right associativity) : result_scope.

(** ** Binary64 helpers: exact values and correct rounding *)

Module B64.

(** The nearest binary64 (ties to even) of the non-negative rational
    [n / d], with sign [sx].  The quotient is taken with enough bits for
    the rounding position of every binary64, and the remainder decides
    the rounding direction. *)
Definition of_ratio (sx : bool) (n : Z) (d : positive) : spec_float :=
  let s := Z.max 1074 (Z.log2 (Zpos d) - Z.log2 n + 54) in
  let '(q, r) := Z.div_eucl (n * 2 ^ s) (Zpos d) in
  let l := if r =? 0 then loc_Exact
           else loc_Inexact (Z.compare (2 * r) (Zpos d)) in
  binary_round_aux prec emax sx q (- s) l.

(** The integer nearest to the non-negative rational [n / d], exact ties
    going to the even neighbour. *)
Definition round_half_even (n : Z) (d : positive) : Z :=
  let '(q, r) := Z.div_eucl n (Zpos d) in
  match Z.compare (2 * r) (Zpos d) with
  | Lt => q
  | Gt => q + 1
  | Eq => if Z.even q then q else q + 1
  end.

Definition is_infinite (x : spec_float) : bool :=
  match x with
  | S754_infinity _ => true
  | _ => false
  end.

End B64.

(** [float(z)] for an [int]: correctly rounded, [OverflowError] when the
    integer is beyond the binary64 range. *)
Definition float_of_int (z : Z) : result float :=
  let x := B64.of_ratio (z <? 0) (Z.abs z) 1 in
  if B64.is_infinite x then raise OverflowError else ok (SF2Prim x).

(** [round(x, ndigits)] for a float [x] and [ndigits >= 0]: the exact value
    of [x] is rounded to the nearest multiple of [10^-ndigits], ties to
    even, and the nearest binary64 of that decimal is returned.  Zeros,
    infinities and NaN are returned as they are. *)
Definition round_float (x : float) (ndigits : N) : float :=
  match Prim2SF x with
  | S754_finite s m e =>
      let p := 10 ^ Z.of_N ndigits in
      let n := if 0 <=? e then Zpos m * 2 ^ e * p
               else B64.round_half_even (Zpos m * p) (Z.to_pos (2 ^ (- e))) in
      SF2Prim (B64.of_ratio s n (Z.to_pos p))
  | _ => x
  end.

(** *** [float(s)] for a [str]

    A [str] is held as its UTF-8 encoding.  [float] first rewrites the
    text to ASCII: a character below code point 127 stays, a Unicode
    white space becomes a space, a Unicode decimal digit becomes the ASCII
    digit of its value, and anything else becomes [?], which no float
    literal contains.  Leading and trailing ASCII whitespace (space and
    the characters 9 to 13) is then dropped; what remains is an optional
    sign followed by [inf], [infinity] or [nan] in any letter case, or by
    a decimal literal: digits with an optional fraction and an optional
    exponent, where a single underscore may separate two digits.  The
    decimal is rounded correctly.

    The white spaces and decimal digits beyond ASCII are those of Unicode
    14.0.0, the character database of CPython 3.11; every run of decimal
    digits is given by its zero. *)
Module FloatStr.

Definition code (c : ascii) : Z := Z.of_N (N_of_ascii c).

Definition space_points : list Z :=
  [133; 160; 5760; 8192; 8193; 8194; 8195; 8196; 8197; 8198; 8199; 8200;
   8201; 8202; 8232; 8233; 8239; 8287; 12288].

Definition decimal_zeros : list Z :=
  [1632; 1776; 1984; 2406; 2534; 2662; 2790; 2918; 3046; 3174; 3302;
   3430; 3558; 3664; 3792; 3872; 4160; 4240; 6112; 6160; 6470; 6608;
   6784; 6800; 6992; 7088; 7232; 7248; 42528; 43216; 43264; 43472;
   43504; 43600; 44016; 65296; 66720; 68912; 69734; 69872; 69942; 70096;
   70384; 70736; 70864; 71248; 71360; 71472; 71904; 72016; 72784; 73040;
   73120; 92768; 92864; 93008; 120782; 120792; 120802; 120812; 120822;
   123200; 123632; 125264; 130032].

(** The value of a decimal digit beyond ASCII. *)
Definition decimal_value (cp : Z) : option Z :=
  match List.filter (fun z => (z <=? cp) && (cp <? z + 10)) decimal_zeros with
  | z :: _ => Some (cp - z)
  | [] => None
  end.

Definition continuation (b : Z) : bool := (128 <=? b) && (b <? 192).

(** The code points of a UTF-8 byte sequence; a byte that starts no
    well-formed character is given as [-1]. *)
Fixpoint decode (l : list Z) : list Z :=
  match l with
  | [] => []
  | b :: l1 =>
      if b <? 128 then b :: decode l1
      else
        match l1 with
        | [] => [-1]
        | c1 :: l2 =>
            if (194 <=? b) && (b <? 224) && continuation c1 then
              ((b - 192) * 64 + (c1 - 128)) :: decode l2
            else
              match l2 with
              | [] => -1 :: decode l1
              | c2 :: l3 =>
                  let cp3 := (b - 224) * 4096 + (c1 - 128) * 64 + (c2 - 128) in
                  if (224 <=? b) && (b <? 240) && continuation c1
                     && continuation c2 && (2048 <=? cp3) then
                    cp3 :: decode l3
                  else
                    match l3 with
                    | [] => -1 :: decode l1
                    | c3 :: l4 =>
                        let cp4 := (b - 240) * 262144 + (c1 - 128) * 4096
                                   + (c2 - 128) * 64 + (c3 - 128) in
                        if (240 <=? b) && (b <? 245) && continuation c1
                           && continuation c2 && continuation c3
                           && (65536 <=? cp4) && (cp4 <? 1114112) then
                          cp4 :: decode l4
                        else -1 :: decode l1
                    end
              end
        end
  end.

(** The ASCII character a code point is rewritten to. *)
Definition to_ascii (cp : Z) : ascii :=
  if (0 <=? cp) && (cp <? 127) then ascii_of_N (Z.to_N cp)
  else if existsb (Z.eqb cp) space_points then " "%char
  else
    match decimal_value cp with
    | Some d => ascii_of_N (Z.to_N (48 + d))
    | None => "?"%char
    end.

Definition transform (s : string) : list ascii :=
  map to_ascii (decode (map code (list_ascii_of_string s))).

Definition is_space (c : ascii) : bool :=
  let n := code c in
  (n =? 32) || ((9 <=? n) && (n <=? 13)).

Definition is_digit (c : ascii) : bool :=
  let n := code c in (48 <=? n) && (n <=? 57).

Definition digit (c : ascii) : Z := code c - 48.

Definition lower (c : ascii) : ascii :=
  let n := code c in
  if (65 <=? n) && (n <=? 90) then ascii_of_N (Z.to_N (n + 32)) else c.

Fixpoint lstrip (l : list ascii) : list ascii :=
  match l with
  | c :: l' => if is_space c then lstrip l' else l
  | [] => []
  end.

Definition strip (l : list ascii) : list ascii :=
  rev (lstrip (rev (lstrip l))).

(** Reads digits, each possibly preceded by one underscore; returns the
    number read, how many digits it had, and the unread rest. *)
Fixpoint digits_loop (acc cnt : Z) (l : list ascii) : Z * Z * list ascii :=
  match l with
  | c :: l' =>
      if is_digit c then digits_loop (10 * acc + digit c) (cnt + 1) l'
      else if Ascii.eqb c "_" then
        match l' with
        | d :: l'' =>
            if is_digit d then digits_loop (10 * acc + digit d) (cnt + 1) l''
            else (acc, cnt, l)
        | [] => (acc, cnt, l)
        end
      else (acc, cnt, l)
  | [] => (acc, cnt, [])
  end.

(** A digit part starts with a digit. *)
Definition digitpart (l : list ascii) : Z * Z * list ascii :=
  match l with
  | c :: _ => if is_digit c then digits_loop 0 0 l else (0, 0, l)
  | [] => (0, 0, [])
  end.

Definition sign (l : list ascii) : bool * list ascii :=
  match l with
  | c :: l' =>
      if Ascii.eqb c "-" then (true, l')
      else if Ascii.eqb c "+" then (false, l')
      else (false, l)
  | [] => (false, [])
  end.

Definition exponent (l : list ascii) : option Z :=
  match l with
  | [] => Some 0
  | c :: l' =>
      if Ascii.eqb (lower c) "e" then
        let '(neg, l'') := sign l' in
        match digitpart l'' with
        | (x, n, []) => if 0 <? n then Some (if neg then - x else x) else None
        | _ => None
        end
      else None
  end.

(** The magnitude [m * 10^e] as a binary64. *)
Definition decimal (neg : bool) (m e : Z) : spec_float :=
  if 0 <=? e then B64.of_ratio neg (m * 10 ^ e) 1
  else B64.of_ratio neg m (Z.to_pos (10 ^ (- e))).

Definition number (neg : bool) (l : list ascii) : option float :=
  let '(i, ni, r1) := digitpart l in
  let '(f, nf, r2) :=
    match r1 with
    | c :: r1' => if Ascii.eqb c "." then digitpart r1' else (0, 0, r1)
    | [] => (0, 0, [])
    end in
  if 0 <? ni + nf then
    match exponent r2 with
    | Some x => Some (SF2Prim (decimal neg (i * 10 ^ nf + f) (x - nf)))
    | None => None
    end
  else None.

Definition parse (s : string) : option float :=
  let '(neg, l) := sign (strip (transform s)) in
  let w := string_of_list_ascii (map lower l) in
  if String.eqb w "inf" || String.eqb w "infinity" then
    Some (if neg then neg_infinity else infinity)
  else if String.eqb w "nan" then Some nan
  else number neg l.

End FloatStr.

(** ** The builtins used by the plugin *)

(** [float(value)]. *)
Definition py_float (value : pyvalue) : result float :=
  match value with
  | PFloat f => ok f
  | PInt z => float_of_int z
  | PBool b => ok (if b then 1 else 0)%float
  | PStr s =>
      match FloatStr.parse s with
      | Some f => ok f
      | None => raise ValueError
      end
  | PNone | PList _ | PDict _ => raise TypeError
  end.

(** [round(value, ndigits)]: an [int] is returned as it is for
    [ndigits >= 0]; anything that is not a number has no [__round__]. *)
Definition py_round (value : pyvalue) (ndigits : N) : result pyvalue :=
  match value with
  | PFloat f => ok (PFloat (round_float f ndigits))
  | PInt z => ok (PInt z)
  | PBool b => ok (PInt (if b then 1 else 0))
  | _ => raise TypeError
  end.

(** Numeric operands of the arithmetic operators: [int] (with [bool]) or
    [float]. *)
Definition as_number (v : pyvalue) : option (Z + float) :=
  match v with
  | PBool b => Some (inl (if b then 1 else 0))
  | PInt z => Some (inl z)
  | PFloat f => Some (inr f)
  | _ => None
  end.

Local Open Scope result_scope.

(** [a - b], [a * b] and [a / b] on numbers.  Two [int]s stay exact for
    [-] and [*]; a mixed pair converts the [int] with [float()]; [/] is
    true division and refuses a zero divisor.  Other operand types are a
    [TypeError] (sequence repetition by [*] is not modelled: no operand
    on the modelled paths is a sequence). *)
Definition py_arith (fz : Z -> Z -> Z) (ff : float -> float -> float)
    (a b : pyvalue) : result pyvalue :=
  match as_number a, as_number b with
  | Some (inl x), Some (inl y) => ok (PInt (fz x y))
  | Some (inl x), Some (inr g) => f <-- float_of_int x ;; ok (PFloat (ff f g))
  | Some (inr f), Some (inl y) => g <-- float_of_int y ;; ok (PFloat (ff f g))
  | Some (inr f), Some (inr g) => ok (PFloat (ff f g))
  | _, _ => raise TypeError
  end.

Definition py_sub : pyvalue -> pyvalue -> result pyvalue :=
  py_arith Z.sub PrimFloat.sub.

Definition py_mul : pyvalue -> pyvalue -> result pyvalue :=
  py_arith Z.mul PrimFloat.mul.

Definition py_truediv (a b : pyvalue) : result pyvalue :=
  match as_number a, as_number b with
  | Some (inl x), Some (inl y) =>
      if y =? 0 then raise ZeroDivisionError
      else
        let q := B64.of_ratio (xorb (x <? 0) (y <? 0)) (Z.abs x)
                   (Z.to_pos (Z.abs y)) in
        if B64.is_infinite q then raise OverflowError
        else ok (PFloat (SF2Prim q))
  | Some x, Some y =>
      f <-- match x with inl z => float_of_int z | inr f => ok f end ;;
      g <-- match y with inl z => float_of_int z | inr g => ok g end ;;
      if PrimFloat.eqb g 0 then raise ZeroDivisionError
      else ok (PFloat (f / g)%float)
  | _, _ => raise TypeError
  end.

(** ** Module-level functions of [WiFiLogger2.py] *)

(** [convert_to_float]: [float(value)], and the [int] [0] when that
    raises. *)
Definition convert_to_float (value : pyvalue) : pyvalue :=
  match py_float value with
  | inr f => PFloat f
  | inl _ => PInt 0
  end.

(** [f_to_c]: [(value - 32) * 5.0 / 9.0]. *)
Definition f_to_c (value : pyvalue) : result pyvalue :=
  a <-- py_sub value (PInt 32) ;;
  b <-- py_mul a (PFloat 5.0) ;;
  py_truediv b (PFloat 9.0).

(** ** Nodes *)

(** A driver slot: [{'driver': ..., 'value': ..., 'uom': ...}]. *)
Record driver : Type := Driver {
  drv_driver : string;
  drv_value : pyvalue;
  drv_uom : Z
}.

(** The node classes of the module. *)
Inductive node_class : Type :=
| TemperatureNode
| HumidityNode
| PressureNode
| WindNode
| PrecipitationNode
| LightNode
| LightningNode.

#[global] Instance node_class_eq_dec : EqDecision node_class.
Proof. solve_decision. Defined.

(** The class attribute [id]. *)
Definition class_id (c : node_class) : string :=
  match c with
  | TemperatureNode => "temperature"
  | HumidityNode => "humidity"
  | PressureNode => "pressure"
  | WindNode => "wind"
  | PrecipitationNode => "precipitation"
  | LightNode => "light"
  | LightningNode => "lightning"
  end.

(** The class attribute [drivers] as the class statement leaves it. *)
Definition class_drivers_init (c : node_class) : list driver :=
  match c with
  | HumidityNode => [Driver "ST" (PInt 0) 22]
  | _ => []
  end.

(** A node instance.  [node_drivers] is the instance attribute [drivers]
    when the instance has one; when it is [None] the attribute resolves,
    as Python resolves it, to the list held by the class. *)
Record node : Type := Node {
  node_class_of : node_class;
  node_primary : string;
  node_address : string;
  node_name : string;
  node_units : string;
  node_drivers : option (list driver)
}.

(** ** Host framework *)

(** What the host framework does, as far as the plugin can see it.
    [polyinterface.Node.__init__] stores its arguments and gives the
    instance a deep copy of the class-level [drivers] list
    ([instance_copy = true]).  The flag is kept explicit because
    [discover] appends to [node.drivers] in place: without that copy the
    append would reach the list shared by the class and by every
    instance.  [_nodes] is the attribute of that name of
    [polyinterface.Controller]: the drivers the host has stored for each
    node address it knows, taken from the configuration it delivers.  No
    method of the plugin assigns it. *)
Record host : Type := Host {
  instance_copy : bool;
  installprofile_ok : bool;
  _nodes : gmap string (list driver)
}.

(** The framework next to a host that has no node stored yet. *)
Definition polyinterface : host :=
  {| instance_copy := true; installprofile_ok := true; _nodes := ∅ |}.

(** The outcome of [httplib2.Http().request(url, "GET")]. *)
Inductive http_outcome : Type :=
| HttpRaises (e : pyexn)
| HttpResponse (status : Z) (content : string).

(** Calls that leave the plugin, in the order they are made.  The
    wall-clock prefix of the printed lines is not recorded. *)
Inductive event : Type :=
| LogInfo (msg : string)
| LogDebug (msg : string)
| LogError (msg : string) (e : option pyexn)
| Syslog (msg : string) (status : Z)
| Print (msg : string)
| HttpGet (url : string)
| AddNode (n : node) (drivers : list driver)
| BaseSetDriver (address drv : string) (value : pyvalue) (report force : bool)
| RemoveNoticesAll
| AddNotice (msg : string)
| AddCustomParam (params : list (string * string))
| WriteProfile (lists : list (list (string * string)))
| InstallProfile.

(** An insertion-ordered [dict] with string keys and values. *)
Definition odict : Type := list (string * string).

Fixpoint odict_set (k v : string) (d : odict) : odict :=
  match d with
  | [] => [(k, v)]
  | (k', v') :: d' =>
      if String.eqb k k' then (k, v) :: d' else (k', v') :: odict_set k v d'
  end.

(** The configuration the host delivers: the custom-parameters block when
    the key [customParams] is present. *)
Record config : Type := Config {
  customParams : option (gmap string string)
}.

(** ** Controller state *)

(** The attributes of the [Controller] instance, the class-level
    [drivers] lists of the node classes, the notices the host holds for
    the plugin, and the trace of outgoing calls (latest last).  [nodes] is
    the part of [self.nodes] that holds sensor nodes. *)
Record controller : Type := Controller {
  address : string;
  ip : string;
  units : string;
  temperature_list : odict;
  humidity_list : odict;
  pressure_list : odict;
  wind_list : odict;
  rain_list : odict;
  light_list : odict;
  lightning_list : odict;
  myConfig : gmap string string;
  polyConfig : config;
  nodes : gmap string node;
  class_drivers : node_class -> list driver;
  notices : list string;
  trace : list event
}.

(** [Controller.__init__]. *)
Definition Controller_init (poly_config : config) : controller :=
  {| address := "bb_meteohub";
     ip := "";
     units := "us";
     temperature_list := [];
     humidity_list := [];
     pressure_list := [];
     wind_list := [];
     rain_list := [];
     light_list := [];
     lightning_list := [];
     myConfig := ∅;
     polyConfig := poly_config;
     nodes := ∅;
     class_drivers := class_drivers_init;
     notices := [];
     trace := [] |}.

(** Attribute assignment, one setter per attribute that is assigned. *)
Definition set_ip (v : string) (s : controller) : controller :=
  {| address := address s; ip := v; units := units s; temperature_list
     := temperature_list s; humidity_list := humidity_list s;
     pressure_list := pressure_list s; wind_list := wind_list s;
     rain_list := rain_list s; light_list := light_list s;
     lightning_list := lightning_list s; myConfig := myConfig s;
     polyConfig := polyConfig s; nodes := nodes s; class_drivers :=
     class_drivers s; notices := notices s; trace := trace s |}.

Definition set_units (v : string) (s : controller) : controller :=
  {| address := address s; ip := ip s; units := v; temperature_list :=
     temperature_list s; humidity_list := humidity_list s; pressure_list
     := pressure_list s; wind_list := wind_list s; rain_list :=
     rain_list s; light_list := light_list s; lightning_list :=
     lightning_list s; myConfig := myConfig s; polyConfig := polyConfig
     s; nodes := nodes s; class_drivers := class_drivers s; notices :=
     notices s; trace := trace s |}.

Definition set_temperature_list (v : odict) (s : controller) : controller :=
  {| address := address s; ip := ip s; units := units s;
     temperature_list := v; humidity_list := humidity_list s;
     pressure_list := pressure_list s; wind_list := wind_list s;
     rain_list := rain_list s; light_list := light_list s;
     lightning_list := lightning_list s; myConfig := myConfig s;
     polyConfig := polyConfig s; nodes := nodes s; class_drivers :=
     class_drivers s; notices := notices s; trace := trace s |}.

Definition set_humidity_list (v : odict) (s : controller) : controller :=
  {| address := address s; ip := ip s; units := units s;
     temperature_list := temperature_list s; humidity_list := v;
     pressure_list := pressure_list s; wind_list := wind_list s;
     rain_list := rain_list s; light_list := light_list s;
     lightning_list := lightning_list s; myConfig := myConfig s;
     polyConfig := polyConfig s; nodes := nodes s; class_drivers :=
     class_drivers s; notices := notices s; trace := trace s |}.

Definition set_pressure_list (v : odict) (s : controller) : controller :=
  {| address := address s; ip := ip s; units := units s;
     temperature_list := temperature_list s; humidity_list :=
     humidity_list s; pressure_list := v; wind_list := wind_list s;
     rain_list := rain_list s; light_list := light_list s;
     lightning_list := lightning_list s; myConfig := myConfig s;
     polyConfig := polyConfig s; nodes := nodes s; class_drivers :=
     class_drivers s; notices := notices s; trace := trace s |}.

Definition set_wind_list (v : odict) (s : controller) : controller :=
  {| address := address s; ip := ip s; units := units s;
     temperature_list := temperature_list s; humidity_list :=
     humidity_list s; pressure_list := pressure_list s; wind_list := v;
     rain_list := rain_list s; light_list := light_list s;
     lightning_list := lightning_list s; myConfig := myConfig s;
     polyConfig := polyConfig s; nodes := nodes s; class_drivers :=
     class_drivers s; notices := notices s; trace := trace s |}.

Definition set_rain_list (v : odict) (s : controller) : controller :=
  {| address := address s; ip := ip s; units := units s;
     temperature_list := temperature_list s; humidity_list :=
     humidity_list s; pressure_list := pressure_list s; wind_list :=
     wind_list s; rain_list := v; light_list := light_list s;
     lightning_list := lightning_list s; myConfig := myConfig s;
     polyConfig := polyConfig s; nodes := nodes s; class_drivers :=
     class_drivers s; notices := notices s; trace := trace s |}.

Definition set_light_list (v : odict) (s : controller) : controller :=
  {| address := address s; ip := ip s; units := units s;
     temperature_list := temperature_list s; humidity_list :=
     humidity_list s; pressure_list := pressure_list s; wind_list :=
     wind_list s; rain_list := rain_list s; light_list := v;
     lightning_list := lightning_list s; myConfig := myConfig s;
     polyConfig := polyConfig s; nodes := nodes s; class_drivers :=
     class_drivers s; notices := notices s; trace := trace s |}.

Definition set_myConfig (v : gmap string string) (s : controller) : controller :=
  {| address := address s; ip := ip s; units := units s;
     temperature_list := temperature_list s; humidity_list :=
     humidity_list s; pressure_list := pressure_list s; wind_list :=
     wind_list s; rain_list := rain_list s; light_list := light_list s;
     lightning_list := lightning_list s; myConfig := v; polyConfig :=
     polyConfig s; nodes := nodes s; class_drivers := class_drivers s;
     notices := notices s; trace := trace s |}.

Definition set_polyConfig (v : config) (s : controller) : controller :=
  {| address := address s; ip := ip s; units := units s;
     temperature_list := temperature_list s; humidity_list :=
     humidity_list s; pressure_list := pressure_list s; wind_list :=
     wind_list s; rain_list := rain_list s; light_list := light_list s;
     lightning_list := lightning_list s; myConfig := myConfig s;
     polyConfig := v; nodes := nodes s; class_drivers := class_drivers s;
     notices := notices s; trace := trace s |}.

Definition set_nodes (v : gmap string node) (s : controller) : controller :=
  {| address := address s; ip := ip s; units := units s;
     temperature_list := temperature_list s; humidity_list :=
     humidity_list s; pressure_list := pressure_list s; wind_list :=
     wind_list s; rain_list := rain_list s; light_list := light_list s;
     lightning_list := lightning_list s; myConfig := myConfig s;
     polyConfig := polyConfig s; nodes := v; class_drivers :=
     class_drivers s; notices := notices s; trace := trace s |}.

Definition set_class_drivers (v : node_class -> list driver) (s : controller) : controller :=
  {| address := address s; ip := ip s; units := units s;
     temperature_list := temperature_list s; humidity_list :=
     humidity_list s; pressure_list := pressure_list s; wind_list :=
     wind_list s; rain_list := rain_list s; light_list := light_list s;
     lightning_list := lightning_list s; myConfig := myConfig s;
     polyConfig := polyConfig s; nodes := nodes s; class_drivers := v;
     notices := notices s; trace := trace s |}.

Definition set_notices (v : list string) (s : controller) : controller :=
  {| address := address s; ip := ip s; units := units s;
     temperature_list := temperature_list s; humidity_list :=
     humidity_list s; pressure_list := pressure_list s; wind_list :=
     wind_list s; rain_list := rain_list s; light_list := light_list s;
     lightning_list := lightning_list s; myConfig := myConfig s;
     polyConfig := polyConfig s; nodes := nodes s; class_drivers :=
     class_drivers s; notices := v; trace := trace s |}.

Definition set_trace (v : list event) (s : controller) : controller :=
  {| address := address s; ip := ip s; units := units s;
     temperature_list := temperature_list s; humidity_list :=
     humidity_list s; pressure_list := pressure_list s; wind_list :=
     wind_list s; rain_list := rain_list s; light_list := light_list s;
     lightning_list := lightning_list s; myConfig := myConfig s;
     polyConfig := polyConfig s; nodes := nodes s; class_drivers :=
     class_drivers s; notices := notices s; trace := v |}.

(** ** State and exceptions *)

(** A method body: it transforms the controller and returns or raises;
    what it changed before raising stays changed. *)
Definition M (A : Type) : Type := controller -> controller * result A.

Definition mret {A} (a : A) : M A := fun s => (s, inr a).

Definition mraise {A} (e : pyexn) : M A := fun s => (s, inl e).

Definition mbind {A B} (m : M A) (k : A -> M B) : M B :=
  fun s =>
    match m s with
    | (s', inr a) => k a s'
    | (s', inl e) => (s', inl e)
    end.

(** [try: body except Exception as e: handler(e)]. *)
Definition try_except {A} (body : M A) (handler : pyexn -> M A) : M A :=
  fun s =>
    match body s with
    | (s', inr a) => (s', inr a)
    | (s', inl e) => handler e s'
    end.

Definition lift {A} (r : result A) : M A := fun s => (s, r).

Definition get {A} (f : controller -> A) : M A := fun s => (s, inr (f s)).

Definition get_state : M controller := fun s => (s, inr s).

Definition modify (f : controller -> controller) : M unit :=
  fun s => (f s, inr tt).

Declare Scope m_scope.
Delimit Scope m_scope with M.
Notation "x <- m ;; k" := (mbind m (fun x => k))
  (at level 100, m at next level, right associativity) : m_scope.
Notation "m ;;; k" := (mbind m (fun _ => k))
  (at level 100, right associativity) : m_scope.

Definition emit (e : event) : M unit :=
  modify (fun s => set_trace (trace s ++ [e]) s).

(** [d[key]] on a [dict] with string keys. *)
Definition subscript {V} (d : gmap string V) (key : string) : result V :=
  match d !! key with
  | Some v => ok v
  | None => raise (KeyError key)
  end.

(** [d[key]] on an insertion-ordered [dict]. *)
Fixpoint odict_get (d : odict) (key : string) : result string :=
  match d with
  | [] => raise (KeyError key)
  | (k, v) :: d' => if String.eqb key k then ok v else odict_get d' key
  end.

(** ** The lookup tables of [uom.py]

    [uom.py] belongs to the repository but its contents are not part of
    this development: the tables are parameters.  [UOM] maps a unit name
    to the host's unit-of-measure code; each [*_DRVS] maps a
    sub-measurement name to a driver code. *)
Record uom_module : Type := UomModule {
  UOM : gmap string Z;
  TEMP_DRVS : gmap string string;
  HUMD_DRVS : gmap string string;
  PRES_DRVS : gmap string string;
  WIND_DRVS : gmap string string;
  RAIN_DRVS : gmap string string;
  LITE_DRVS : gmap string string
}.

Local Open Scope m_scope.

(** ** Node methods *)

(** [polyinterface.Node.__init__(controller, primary, address, name)];
    [units] starts as the class attribute ['metric']. *)
Definition Node_init (h : host) (c : node_class) (primary addr name : string)
    : M node :=
  cd <- get class_drivers ;;
  mret {| node_class_of := c;
          node_primary := primary;
          node_address := addr;
          node_name := name;
          node_units := "metric";
          node_drivers := if instance_copy h then Some (cd c) else None |}.

(** [SetUnits], the same in every node class. *)
Definition SetUnits (n : node) (u : string) : node :=
  {| node_class_of := node_class_of n;
     node_primary := node_primary n;
     node_address := node_address n;
     node_name := node_name n;
     node_units := u;
     node_drivers := node_drivers n |}.

Definition with_drivers (n : node) (l : list driver) : node :=
  {| node_class_of := node_class_of n;
     node_primary := node_primary n;
     node_address := node_address n;
     node_name := node_name n;
     node_units := node_units n;
     node_drivers := Some l |}.

(** The list [n.drivers] evaluates to. *)
Definition drivers_of (s : controller) (n : node) : list driver :=
  match node_drivers n with
  | Some l => l
  | None => class_drivers s (node_class_of n)
  end.

(** Replaces the contents of the list [n.drivers] refers to: the
    instance's own list, or the class-level one. *)
Definition store_drivers (n : node) (l : list driver) : M node :=
  match node_drivers n with
  | Some _ => mret (with_drivers n l)
  | None =>
      modify (fun s =>
        set_class_drivers (<[node_class_of n := l]> (class_drivers s)) s) ;;;
      mret n
  end.

(** [n.drivers.append(d)]. *)
Definition drivers_append (n : node) (d : driver) : M node :=
  s <- get_state ;;
  store_drivers n (drivers_of s n ++ [d]).

(** The loop of [polyinterface.Node.setDriver]: the first slot whose
    driver code is [drv] takes the value. *)
Fixpoint assign_slot (drv : string) (value : pyvalue) (l : list driver)
    : list driver :=
  match l with
  | [] => []
  | d :: l' =>
      if String.eqb (drv_driver d) drv
      then Driver (drv_driver d) value (drv_uom d) :: l'
      else d :: assign_slot drv value l'
  end.

(** The loops of [polyinterface.Controller.addNode] over one driver of
    the node: [for existing in stored: if driver['driver'] ==
    existing['driver']: driver['value'] = existing['value']]. *)
Definition restore_value (stored : list driver) (d : driver) : driver :=
  foldl (fun d existing =>
           if String.eqb (drv_driver d) (drv_driver existing)
           then Driver (drv_driver d) (drv_value existing) (drv_uom d)
           else d)
    d stored.

(** [polyinterface.Node.setDriver(driver, value, report, force)] on the
    node registered under [key]: the call is recorded and the slot is
    assigned. *)
Definition base_setDriver (key : string) (n : node) (drv : string)
    (value : pyvalue) (report force : bool) : M unit :=
  emit (BaseSetDriver (node_address n) drv value report force) ;;;
  s <- get_state ;;
  n' <- store_drivers n (assign_slot drv value (drivers_of s n)) ;;
  modify (fun s => set_nodes (<[key := n']> (nodes s)) s).

(** The [setDriver] override of each node class.  [TemperatureNode]
    reports [round(value, 1)]; the others pass [value] on. *)
Definition setDriver (key : string) (n : node) (drv : string)
    (value : pyvalue) : M unit :=
  match node_class_of n with
  | TemperatureNode =>
      v <- lift (py_round value 1) ;;
      base_setDriver key n drv v true true
  | HumidityNode => base_setDriver key n drv value true true
  | PressureNode => base_setDriver key n drv value true true
  | WindNode => base_setDriver key n drv value true true
  | PrecipitationNode => base_setDriver key n drv value true true
  | LightNode => base_setDriver key n drv value true true
  | LightningNode => base_setDriver key n drv value true true
  end.

(** ** Controller methods *)

(** [wifi_logger_data[key]] on whatever [json.loads] returned. *)
Definition data_subscript (data : pyvalue) (key : string) : result pyvalue :=
  match data with
  | PDict m => subscript m key
  | _ => raise TypeError
  end.

Section Plugin.

Context (uom : uom_module) (h : host).

(** [json.loads(content.decode('utf-8'))], a library call. *)
Context (json_loads : string -> result pyvalue).

(** [polyinterface.Controller.addNode(node)].  When the host has drivers
    stored for the node's address, every driver of the node takes the
    value of the stored drivers that have its code, the last of them
    winning; then the node is registered under its address and handed to
    the host. *)
Definition addNode (n : node) : M unit :=
  n' <- match _nodes h !! node_address n with
        | Some stored =>
            s <- get_state ;;
            store_drivers n (map (restore_value stored) (drivers_of s n))
        | None => mret n
        end ;;
  s <- get_state ;;
  emit (AddNode n' (drivers_of s n')) ;;;
  modify (fun s => set_nodes (<[node_address n' := n']> (nodes s)) s).

(** [polyinterface.Controller.addCustomParam(data)]: the custom-parameters
    block of the stored configuration is updated in place and sent to the
    host. *)
Definition addCustomParam (data : list (string * string)) : M unit :=
  cfg <- get polyConfig ;;
  params <- lift (match customParams cfg with
                  | Some p => ok p
                  | None => raise (KeyError "customParams")
                  end) ;;
  modify (set_polyConfig
            {| customParams :=
                 Some (foldl (fun m (kv : string * string) => <[kv.1 := kv.2]> m)
                         params data) |}) ;;;
  emit (AddCustomParam data).

Definition removeNoticesAll : M unit :=
  emit RemoveNoticesAll ;;;
  modify (set_notices []).

Definition addNotice (msg : string) : M unit :=
  emit (AddNotice msg) ;;;
  modify (fun s => set_notices (notices s ++ [msg]) s).

(** The loop [for d in table: node.drivers.append({...})] of
    [discover]; [d] ranges over the keys in insertion order and
    [table[d]] is the value stored with it. *)
Fixpoint append_enabled (drvs : gmap string string) (table : odict)
    (n : node) : M node :=
  match table with
  | [] => mret n
  | (d, unit_name) :: table' =>
      code <- lift (subscript drvs d) ;;
      u <- lift (subscript (UOM uom) unit_name) ;;
      n' <- drivers_append n (Driver code (PInt 0) u) ;;
      append_enabled drvs table' n'
  end.

(** One block of [discover]: construct, [SetUnits], fill the drivers,
    [addNode].  The six blocks of the method differ in the class, the
    address, the label, the table and the driver map only. *)
Definition discover_node (c : node_class) (addr name : string)
    (table : controller -> odict) (drvs : gmap string string) : M unit :=
  a <- get address ;;
  n <- Node_init h c a addr name ;;
  u <- get units ;;
  t <- get table ;;
  n' <- append_enabled drvs t (SetUnits n u) ;;
  addNode n'.

Definition discover : M unit :=
  emit (LogInfo "Creating nodes.") ;;;
  discover_node TemperatureNode "temperature" "Temperatures"
    temperature_list (TEMP_DRVS uom) ;;;
  discover_node HumidityNode "humidity" "Humidity"
    humidity_list (HUMD_DRVS uom) ;;;
  discover_node PressureNode "pressure" "Barometric Pressure"
    pressure_list (PRES_DRVS uom) ;;;
  discover_node WindNode "wind" "Wind"
    wind_list (WIND_DRVS uom) ;;;
  discover_node PrecipitationNode "rain" "Precipitation"
    rain_list (RAIN_DRVS uom) ;;;
  discover_node LightNode "light" "Illumination"
    light_list (LITE_DRVS uom).

(** [set_configuration(config)]; [config['customParams']] raises when
    the key is absent. *)
Definition set_configuration (cfg : config) : M string :=
  emit (LogInfo "Check for existing configuration value") ;;;
  params <- lift (match customParams cfg with
                  | Some p => ok p
                  | None => raise (KeyError "customParams")
                  end) ;;
  modify (set_ip (default "" (params !! "IPAddress"))) ;;;
  modify (set_units (default "us" (params !! "Units"))) ;;;
  get units.

(** [self.poly.installprofile()] inside its [try]. *)
Definition installprofile : M unit :=
  emit InstallProfile ;;;
  if installprofile_ok h then mret tt
  else mraise (OtherError "installprofile").

(** [setup_nodedefs(units)]. *)
Definition setup_nodedefs (units : string) : M unit :=
  modify (fun s => set_temperature_list
    (odict_set "windchill" "I_TEMP_F"
      (odict_set "dewpoint" "I_TEMP_F"
        (odict_set "main" "I_TEMP_F" (temperature_list s)))) s) ;;;
  modify (fun s => set_humidity_list
    (odict_set "main" "I_HUMIDITY" (humidity_list s)) s) ;;;
  modify (fun s => set_pressure_list
    (odict_set "sealevel" "I_INHG"
      (odict_set "station" "I_INHG" (pressure_list s))) s) ;;;
  modify (fun s => set_wind_list
    (odict_set "winddir" "I_DEGREE"
      (odict_set "gustspeed" "I_MPH"
        (odict_set "windspeed" "I_MPH" (wind_list s)))) s) ;;;
  modify (fun s => set_rain_list
    (odict_set "total" "I_INCHES"
      (odict_set "rate" "I_INHR" (rain_list s))) s) ;;;
  modify (fun s => set_light_list
    (odict_set "solar_radiation" "I_RADIATION"
      (odict_set "uv" "I_UV" (light_list s))) s) ;;;
  emit (LogInfo "Creating node definition profile based on config.") ;;;
  s <- get_state ;;
  emit (WriteProfile [temperature_list s; humidity_list s; pressure_list s;
                      wind_list s; rain_list s; light_list s;
                      lightning_list s]) ;;;
  try_except installprofile
    (fun _ => emit (LogError "Failed up push profile to ISY" None)).

Definition ip_notice : string :=
  "IP/Host address of the WiFiLogger2 device is required.".

(** [process_config(config)]. *)
Definition process_config (cfg : config) : M unit :=
  match customParams cfg with
  | Some params =>
      cached <- get myConfig ;;
      if decide (params <> cached) then
        emit (LogInfo "New configuration, updating configuration") ;;;
        set_configuration cfg ;;;
        u <- get units ;;
        setup_nodedefs u ;;;
        discover ;;;
        modify (set_myConfig params) ;;;
        removeNoticesAll ;;;
        i <- get ip ;;
        if String.eqb i "" then addNotice ip_notice else mret tt
      else mret tt
  | None => mret tt
  end.

(** [get_data()]: the request, the warning on a status other than 200,
    and the parse of the body in every case. *)
Definition get_data (net : string -> http_outcome) : M pyvalue :=
  i <- get ip ;;
  let url := "http://" ++ i ++ "/wflexp.json" in
  emit (HttpGet url) ;;;
  match net url with
  | HttpRaises e => mraise e
  | HttpResponse status content =>
      (if negb (status =? 200) then
         emit (Syslog "Bad response from WiFiLogger2 " status) ;;;
         emit (Print " -  Bad response from WiFiLogger2. ")
       else mret tt) ;;;
      lift (json_loads content)
  end.

(** One statement of the mapping block,
    [self.nodes[key].setDriver(drvs[name], conv(data[field]))]: the node
    is looked up first, then the driver code, then the field. *)
Definition write_field (data : pyvalue) (key : string)
    (drvs : gmap string string) (name field : string)
    (conv : pyvalue -> result pyvalue) : M unit :=
  ns <- get nodes ;;
  n <- lift (subscript ns key) ;;
  code <- lift (subscript drvs name) ;;
  raw <- lift (data_subscript data field) ;;
  v <- lift (conv raw) ;;
  setDriver key n code v.

(** The argument expressions of the mapping block. *)
Definition plain (raw : pyvalue) : result pyvalue :=
  ok (convert_to_float raw).

Definition celsius (raw : pyvalue) : result pyvalue :=
  f_to_c (convert_to_float raw).

(** The body of the inner [try] of [longPoll]. *)
Definition map_fields (data : pyvalue) : M unit :=
  write_field data "light" (LITE_DRVS uom) "uv" "uv" plain ;;;
  write_field data "light" (LITE_DRVS uom) "solar_radiation" "solar" plain ;;;
  write_field data "rain" (RAIN_DRVS uom) "rate" "rainr" plain ;;;
  write_field data "rain" (RAIN_DRVS uom) "total" "rain24" plain ;;;
  write_field data "temperature" (TEMP_DRVS uom) "dewpoint" "dew" celsius ;;;
  write_field data "temperature" (TEMP_DRVS uom) "main" "tempout" celsius ;;;
  write_field data "temperature" (TEMP_DRVS uom) "windchill" "chill" celsius ;;;
  write_field data "humidity" (HUMD_DRVS uom) "main" "humout" plain ;;;
  write_field data "pressure" (PRES_DRVS uom) "station" "bartr" plain ;;;
  write_field data "pressure" (PRES_DRVS uom) "sealevel" "bar" plain ;;;
  write_field data "wind" (WIND_DRVS uom) "windspeed" "windspd" plain ;;;
  write_field data "wind" (WIND_DRVS uom) "gustspeed" "gust" plain ;;;
  write_field data "wind" (WIND_DRVS uom) "winddir" "winddir" plain.

(** [longPoll()]. *)
Definition longPoll (net : string -> http_outcome) : M unit :=
  i <- get ip ;;
  if String.eqb i "" then emit (Print " -  No IP/URL for WiFiLogger2.")
  else
    emit (LogInfo "LongPoll") ;;;
    try_except
      (wifi_logger_data <- get_data net ;;
       try_except (map_fields wifi_logger_data)
         (fun e => emit (LogError "Failure while parsing WiFiLogger2 data. "
                           (Some e))))
      (fun e => emit (LogError
                        "Failure trying to connect to WiFiLogger2 device. "
                        (Some e))).

(** [check_params()]. *)
Definition check_params : M unit :=
  cfg <- get polyConfig ;;
  set_configuration cfg ;;;
  u <- get units ;;
  setup_nodedefs u ;;;
  emit (LogInfo "Adding configuration") ;;;
  i <- get ip ;;
  u' <- get units ;;
  addCustomParam [("IPAddress", i); ("Units", u')] ;;;
  cfg' <- get polyConfig ;;
  params <- lift (match customParams cfg' with
                  | Some p => ok p
                  | None => raise (KeyError "customParams")
                  end) ;;
  modify (set_myConfig params) ;;;
  emit (LogInfo "remove all notices") ;;;
  removeNoticesAll ;;;
  i' <- get ip ;;
  if String.eqb i' "" then addNotice ip_notice else mret tt.

(** [start()]. *)
Definition start : M unit :=
  emit (LogInfo "Starting WiFiLogger2 Node Server") ;;;
  check_params ;;;
  discover ;;;
  emit (LogInfo "WiFiLogger2 Node Server Started.").

End Plugin.

(** ** A table instance and a sample payload

    The theorems below hold for every [uom_module] that has the keys the
    plugin uses; this instance serves to evaluate the definitions. *)
Definition uom_sample : uom_module :=
  {| UOM := list_to_map
       [("I_TEMP_F", 17); ("I_HUMIDITY", 22); ("I_INHG", 23); ("I_MPH", 48);
        ("I_DEGREE", 14); ("I_INHR", 24); ("I_INCHES", 105); ("I_UV", 71);
        ("I_RADIATION", 74)];
     TEMP_DRVS := list_to_map
       [("main", "ST"); ("dewpoint", "GV0"); ("windchill", "GV1")];
     HUMD_DRVS := list_to_map [("main", "ST")];
     PRES_DRVS := list_to_map [("station", "ST"); ("sealevel", "GV0")];
     WIND_DRVS := list_to_map
       [("windspeed", "ST"); ("gustspeed", "GV0"); ("winddir", "GV1")];
     RAIN_DRVS := list_to_map [("rate", "ST"); ("total", "GV5")];
     LITE_DRVS := list_to_map [("uv", "ST"); ("solar_radiation", "GV0")] |}.

(** The device response of the end-to-end example, as [json.loads] returns
    it. *)
Definition sample_fields : gmap string pyvalue :=
  list_to_map
    [("tempout", PStr "68.0"); ("humout", PStr "55"); ("bar", PStr "30.1");
     ("bartr", PStr "29.9"); ("windspd", PStr "5"); ("gust", PStr "10");
     ("winddir", PStr "180"); ("rainr", PStr "0"); ("rain24", PStr "0.25");
     ("uv", PStr "3"); ("solar", PStr "450"); ("dew", PStr "50");
     ("chill", PStr "68")].

Definition payload_sample : pyvalue := PDict sample_fields.

(** A configuration with an address, and the controller once started
    with it. *)
Definition config_sample : config :=
  {| customParams := Some (list_to_map [("IPAddress", "192.168.1.20")]) |}.

Definition started (u : uom_module) (h : host) (cfg : config) : controller :=
  fst (start u h (Controller_init cfg)).

(** * Properties *)

(** ** Basic facts about the numeric builtins *)

Lemma float_of_int_32 : float_of_int 32 = ok 32%float.
Proof. vm_compute. reflexivity. Qed.

(** [float] on a [str]: white space and decimal digits beyond ASCII are
    accepted, the separators 28 to 31 are not white space for [float], and
    a digit that is not a decimal digit is refused. *)
Remark py_float_str_examples :
  py_float (PStr " 68.5 ") = ok 68.5%float /\
  py_float (PStr "１２") = ok 12%float /\
  py_float (PStr "١.٥") = ok 1.5%float /\
  py_float (PStr (String (ascii_of_N 194) (String (ascii_of_N 160) "1")))
  = ok 1%float /\
  py_float (PStr (String (ascii_of_N 28) "1")) = raise ValueError /\
  py_float (PStr "²") = raise ValueError /\
  py_float (PStr "1_000.5e1") = ok 10005%float /\
  py_float (PStr "") = raise ValueError /\
  convert_to_float (PStr (String (ascii_of_N 28) "1")) = PInt 0.
Proof. repeat split; vm_compute; reflexivity. Qed.

Lemma convert_to_float_cases (raw : pyvalue) :
  (exists f, py_float raw = ok f /\ convert_to_float raw = PFloat f) \/
  (exists e, py_float raw = raise e /\ convert_to_float raw = PInt 0).
Proof.
  unfold convert_to_float.
  destruct (py_float raw) as [e | f]; [right | left]; eauto.
Qed.

(** [f_to_c] of a float is the primitive expression. *)
Lemma f_to_c_float (f : float) :
  f_to_c (PFloat f) = ok (PFloat ((f - 32) * 5 / 9)%float).
Proof.
  unfold f_to_c, py_sub, py_mul, py_arith. cbn [as_number].
  rewrite float_of_int_32. reflexivity.
Qed.

Lemma f_to_c_int_0 :
  f_to_c (PInt 0) = ok (PFloat ((-160) / 9)%float).
Proof. vm_compute. reflexivity. Qed.

(** The argument of a temperature write is always a float. *)
Lemma celsius_float (raw : pyvalue) :
  exists f, celsius raw = ok (PFloat f).
Proof.
  unfold celsius.
  destruct (convert_to_float_cases raw) as [(f & _ & ->) | (e & _ & ->)].
  - rewrite f_to_c_float. eauto.
  - rewrite f_to_c_int_0. eauto.
Qed.

Lemma celsius_malformed (raw : pyvalue) (e : pyexn) :
  py_float raw = raise e ->
  celsius raw = ok (PFloat ((-160) / 9)%float).
Proof.
  intros H. unfold celsius, convert_to_float. rewrite H. apply f_to_c_int_0.
Qed.

Lemma round_malformed_celsius :
  round_float ((-160) / 9)%float 1 = (-17.8)%float.
Proof. vm_compute. reflexivity. Qed.

(** ** Registered nodes and the effect of a write *)

(** The node under [key] has class [c] and address [key], as [discover]
    registers it. *)
Definition registered (s : controller) (key : string) (c : node_class) : Prop :=
  exists n, nodes s !! key = Some n /\ node_class_of n = c /\ node_address n = key.

(** The six nodes of [discover] are in place. *)
Definition ready (s : controller) : Prop :=
  registered s "temperature" TemperatureNode /\
  registered s "humidity" HumidityNode /\
  registered s "pressure" PressureNode /\
  registered s "wind" WindNode /\
  registered s "rain" PrecipitationNode /\
  registered s "light" LightNode.

(** The plugin's own attributes coincide (everything but the nodes, the
    class-level lists and the trace). *)
Definition same_attrs (s s' : controller) : Prop :=
  address s' = address s /\ ip s' = ip s /\ units s' = units s /\
  temperature_list s' = temperature_list s /\
  humidity_list s' = humidity_list s /\
  pressure_list s' = pressure_list s /\
  wind_list s' = wind_list s /\
  rain_list s' = rain_list s /\
  light_list s' = light_list s /\
  lightning_list s' = lightning_list s /\
  myConfig s' = myConfig s /\ polyConfig s' = polyConfig s /\
  notices s' = notices s.

Lemma same_attrs_refl s : same_attrs s s.
Proof. repeat split. Qed.

Lemma same_attrs_trans s1 s2 s3 :
  same_attrs s1 s2 -> same_attrs s2 s3 -> same_attrs s1 s3.
Proof.
  unfold same_attrs. intros H1 H2.
  destruct_and!. repeat split; congruence.
Qed.

Ltac munfold :=
  unfold mbind, mret, mraise, lift, get, get_state, modify, emit, try_except.

Lemma store_drivers_spec (n : node) (l : list driver) (s : controller) :
  exists s' n',
    store_drivers n l s = (s', inr n') /\
    trace s' = trace s /\ nodes s' = nodes s /\ same_attrs s s' /\
    node_class_of n' = node_class_of n /\
    node_address n' = node_address n /\
    drivers_of s' n' = l.
Proof.
  unfold store_drivers, drivers_of.
  destruct (node_drivers n) as [l0|] eqn:Hd.
  - exists s, (with_drivers n l). repeat split.
  - eexists _, n. munfold. cbn. rewrite Hd. repeat split.
    apply fn_lookup_insert.
Qed.

Lemma registered_insert s s' key n n' k c :
  nodes s !! key = Some n ->
  node_class_of n' = node_class_of n ->
  node_address n' = node_address n ->
  nodes s' = <[key := n']> (nodes s) ->
  registered s k c -> registered s' k c.
Proof.
  intros Hn Hc Ha Hs (m & Hm & Hmc & Hma). unfold registered. rewrite Hs.
  destruct (decide (key = k)) as [-> | Hne].
  - exists n'. rewrite lookup_insert_eq. split; [done |].
    rewrite Hn in Hm. injection Hm as ->. split; congruence.
  - exists m. rewrite lookup_insert_ne by done. done.
Qed.

Lemma base_setDriver_spec key n drv v report force s :
  nodes s !! key = Some n ->
  exists s',
    base_setDriver key n drv v report force s = (s', inr tt) /\
    trace s' = (trace s ++ [BaseSetDriver (node_address n) drv v report force])%list /\
    same_attrs s s' /\
    (forall k c, registered s k c -> registered s' k c).
Proof.
  intros Hn. unfold base_setDriver.
  set (s0 := set_trace (trace s ++ [BaseSetDriver (node_address n) drv v report force]) s).
  destruct (store_drivers_spec n (assign_slot drv v (drivers_of s0 n)) s0)
    as (s1 & n' & Hst & Htr & Hnodes & Hattrs & Hc & Ha & _).
  eexists. munfold. cbn. fold s0. rewrite Hst. cbn. split; [reflexivity |].
  cbn. split; [exact Htr |]. split.
  - unfold same_attrs in *. cbn in *. exact Hattrs.
  - intros k c. apply (registered_insert s _ key n n'); try done.
    cbn. rewrite Hnodes. reflexivity.
Qed.

(** What [setDriver] of a node of class [c] hands to the base method. *)
Definition reported (c : node_class) (v : pyvalue) : result pyvalue :=
  match c with
  | TemperatureNode => py_round v 1
  | _ => ok v
  end.

Lemma setDriver_spec key n drv v v' s :
  nodes s !! key = Some n ->
  reported (node_class_of n) v = ok v' ->
  exists s',
    setDriver key n drv v s = (s', inr tt) /\
    trace s' = (trace s ++ [BaseSetDriver (node_address n) drv v' true true])%list /\
    same_attrs s s' /\
    (forall k c, registered s k c -> registered s' k c).
Proof.
  intros Hn Hv. unfold setDriver, reported in *.
  destruct (node_class_of n); try (injection Hv as <-);
    try (apply base_setDriver_spec; exact Hn).
  munfold. rewrite Hv. apply base_setDriver_spec; exact Hn.
Qed.

Lemma setDriver_raises key n drv v e s :
  reported (node_class_of n) v = raise e ->
  setDriver key n drv v s = (s, inl e).
Proof.
  unfold setDriver, reported.
  destruct (node_class_of n); try discriminate.
  intros H. munfold. rewrite H. reflexivity.
Qed.

(** ** The mapping table

    The thirteen statements of the mapping block as data: the node key,
    the driver map and name, the JSON field, and whether the value goes
    through [f_to_c]. *)
Record mapping : Type := Mapping {
  m_node : string;
  m_drvs : uom_module -> gmap string string;
  m_name : string;
  m_field : string;
  m_temp : bool
}.

Definition mapping_table : list mapping :=
  [ Mapping "light" LITE_DRVS "uv" "uv" false;
    Mapping "light" LITE_DRVS "solar_radiation" "solar" false;
    Mapping "rain" RAIN_DRVS "rate" "rainr" false;
    Mapping "rain" RAIN_DRVS "total" "rain24" false;
    Mapping "temperature" TEMP_DRVS "dewpoint" "dew" true;
    Mapping "temperature" TEMP_DRVS "main" "tempout" true;
    Mapping "temperature" TEMP_DRVS "windchill" "chill" true;
    Mapping "humidity" HUMD_DRVS "main" "humout" false;
    Mapping "pressure" PRES_DRVS "station" "bartr" false;
    Mapping "pressure" PRES_DRVS "sealevel" "bar" false;
    Mapping "wind" WIND_DRVS "windspeed" "windspd" false;
    Mapping "wind" WIND_DRVS "gustspeed" "gust" false;
    Mapping "wind" WIND_DRVS "winddir" "winddir" false ].

Definition field_names : list string := map m_field mapping_table.

(** The Celsius value computed for a raw field. *)
Definition celsius_of (raw : pyvalue) : float :=
  match convert_to_float raw with
  | PFloat f => ((f - 32) * 5 / 9)%float
  | _ => ((-160) / 9)%float
  end.

(** The value the base [setDriver] receives for a raw field. *)
Definition written_value (temp : bool) (raw : pyvalue) : pyvalue :=
  if temp then PFloat (round_float (celsius_of raw) 1)
  else convert_to_float raw.

(** The writes a payload [m] leads to, row by row, up to the first lookup
    that fails, and that failure. *)
Fixpoint expected_writes (uom : uom_module) (m : gmap string pyvalue)
    (rows : list mapping) : list event * option pyexn :=
  match rows with
  | [] => ([], None)
  | r :: rows' =>
      match m_drvs r uom !! m_name r with
      | None => ([], Some (KeyError (m_name r)))
      | Some code =>
          match m !! m_field r with
          | None => ([], Some (KeyError (m_field r)))
          | Some raw =>
              let '(evs, e) := expected_writes uom m rows' in
              (BaseSetDriver (m_node r) code (written_value (m_temp r) raw)
                 true true :: evs, e)
          end
      end
  end.

(** The mapping block as a loop over rows. *)
Fixpoint run_rows (uom : uom_module) (data : pyvalue) (rows : list mapping)
    : M unit :=
  match rows with
  | [] => mret tt
  | [r] =>
      write_field data (m_node r) (m_drvs r uom) (m_name r) (m_field r)
        (if m_temp r then celsius else plain)
  | r :: rows' =>
      write_field data (m_node r) (m_drvs r uom) (m_name r) (m_field r)
        (if m_temp r then celsius else plain) ;;;
      run_rows uom data rows'
  end.

Lemma map_fields_rows uom data :
  map_fields uom data = run_rows uom data mapping_table.
Proof. reflexivity. Qed.

Lemma celsius_celsius_of (raw : pyvalue) :
  celsius raw = ok (PFloat (celsius_of raw)).
Proof.
  unfold celsius, celsius_of.
  destruct (convert_to_float_cases raw) as [(f & _ & ->) | (e & _ & ->)].
  - apply f_to_c_float.
  - apply f_to_c_int_0.
Qed.

(** A row is addressed to a node of the right kind: the temperature rows
    to a [TemperatureNode], the others to a class that does not round. *)
Definition row_ok (s : controller) (r : mapping) : Prop :=
  exists c, registered s (m_node r) c /\
            (m_temp r = true <-> c = TemperatureNode).

Lemma write_field_spec uom m s r :
  row_ok s r ->
  let conv := if m_temp r then celsius else plain in
  match m_drvs r uom !! m_name r, m !! m_field r with
  | Some code, Some raw =>
      exists s',
        write_field (PDict m) (m_node r) (m_drvs r uom) (m_name r) (m_field r)
          conv s = (s', inr tt) /\
        trace s' = (trace s ++ [BaseSetDriver (m_node r) code
                                  (written_value (m_temp r) raw) true true])%list /\
        same_attrs s s' /\
        (forall k c, registered s k c -> registered s' k c)
  | Some _, None =>
      write_field (PDict m) (m_node r) (m_drvs r uom) (m_name r) (m_field r)
        conv s = (s, inl (KeyError (m_field r)))
  | None, _ =>
      write_field (PDict m) (m_node r) (m_drvs r uom) (m_name r) (m_field r)
        conv s = (s, inl (KeyError (m_name r)))
  end.
Proof.
  intros (c & (n & Hn & Hc & Ha) & Htemp) conv.
  unfold write_field. munfold. cbn. unfold subscript. rewrite Hn. cbn.
  destruct (m_drvs r uom !! m_name r) as [code|]; [| reflexivity]. cbn.
  destruct (m !! m_field r) as [raw|]; [| reflexivity]. cbn.
  subst conv. unfold written_value.
  destruct (m_temp r) eqn:Ht.
  - rewrite celsius_celsius_of. cbn.
    destruct (setDriver_spec (m_node r) n code (PFloat (celsius_of raw))
                (PFloat (round_float (celsius_of raw) 1)) s Hn) as (s' & H).
    { rewrite Hc. rewrite (proj1 Htemp eq_refl). reflexivity. }
    rewrite Ha in H. exists s'. exact H.
  - unfold plain. cbn.
    destruct (setDriver_spec (m_node r) n code (convert_to_float raw)
                (convert_to_float raw) s Hn) as (s' & H).
    { rewrite Hc. destruct c; try reflexivity.
      destruct Htemp as [_ Htemp]. discriminate (Htemp eq_refl). }
    rewrite Ha in H. exists s'. exact H.
Qed.

Definition outcome (e : option pyexn) : result unit :=
  match e with
  | None => inr tt
  | Some x => inl x
  end.

Lemma row_ok_mono s s' r :
  (forall k c, registered s k c -> registered s' k c) ->
  row_ok s r -> row_ok s' r.
Proof. intros H (c & Hr & Ht). exists c. split; [apply H, Hr | exact Ht]. Qed.

Lemma run_rows_spec uom m rows :
  forall s,
    Forall (row_ok s) rows ->
    exists s',
      run_rows uom (PDict m) rows s
        = (s', outcome (snd (expected_writes uom m rows))) /\
      trace s' = (trace s ++ fst (expected_writes uom m rows))%list /\
      same_attrs s s' /\
      (forall k c, registered s k c -> registered s' k c).
Proof.
  induction rows as [| r rows IH]; intros s Hrows.
  - exists s. cbn. rewrite app_nil_r. repeat split; auto.
  - inversion Hrows as [| ? ? Hr Hrest]; subst.
    pose proof (write_field_spec uom m s r Hr) as Hw. cbn zeta in Hw.
    cbn [expected_writes].
    destruct (m_drvs r uom !! m_name r) as [code|] eqn:Hcode.
    2:{ exists s. cbn [fst snd outcome]. rewrite app_nil_r.
        split; [| repeat split; auto].
        destruct rows; cbn [run_rows]; [exact Hw |].
        unfold mbind at 1. rewrite Hw. reflexivity. }
    destruct (m !! m_field r) as [raw|] eqn:Hraw.
    2:{ exists s. cbn [fst snd outcome]. rewrite app_nil_r.
        split; [| repeat split; auto].
        destruct rows; cbn [run_rows]; [exact Hw |].
        unfold mbind at 1. rewrite Hw. reflexivity. }
    destruct Hw as (s1 & Hrun & Htr & Hattrs & Hreg).
    destruct (IH s1) as (s2 & Hrun2 & Htr2 & Hattrs2 & Hreg2).
    { eapply Forall_impl; [exact Hrest |]. intros r'. apply row_ok_mono, Hreg. }
    destruct (expected_writes uom m rows) as [evs e] eqn:Hexp.
    cbn [fst snd] in *.
    exists s2. split; [| split; [| split]].
    + destruct rows as [| r' rows'].
      * cbn in Hexp. injection Hexp as <- <-. cbn in Hrun2.
        injection Hrun2 as <-. cbn [run_rows outcome]. exact Hrun.
      * change (run_rows uom (PDict m) (r :: r' :: rows'))
          with (mbind (write_field (PDict m) (m_node r) (m_drvs r uom)
                         (m_name r) (m_field r)
                         (if m_temp r then celsius else plain))
                  (fun _ => run_rows uom (PDict m) (r' :: rows'))).
        unfold mbind at 1. rewrite Hrun. exact Hrun2.
    + rewrite Htr2, Htr, <- app_assoc. reflexivity.
    + eapply same_attrs_trans; eassumption.
    + auto.
Qed.

Lemma ready_rows s : ready s -> Forall (row_ok s) mapping_table.
Proof.
  intros (Ht & Hh & Hp & Hw & Hr & Hl).
  unfold mapping_table.
  repeat constructor; cbn;
    (eexists; split; [eassumption | split; [discriminate || reflexivity | discriminate || reflexivity]]).
Qed.

Lemma ready_mono s s' :
  (forall k c, registered s k c -> registered s' k c) -> ready s -> ready s'.
Proof. unfold ready. intros H Hs. destruct_and!. repeat split; apply H; assumption. Qed.

(** The mapping block, for a payload that is a JSON object: the writes of
    [expected_writes], in order, and the first failing lookup if any. *)
Lemma map_fields_spec uom m s :
  ready s ->
  exists s',
    map_fields uom (PDict m) s
      = (s', outcome (snd (expected_writes uom m mapping_table))) /\
    trace s' = (trace s ++ fst (expected_writes uom m mapping_table))%list /\
    same_attrs s s' /\ ready s'.
Proof.
  intros Hready. rewrite map_fields_rows.
  destruct (run_rows_spec uom m mapping_table s (ready_rows s Hready))
    as (s' & Hrun & Htr & Hattrs & Hreg).
  exists s'. split; [exact Hrun |]. split; [exact Htr |].
  split; [exact Hattrs |]. eapply ready_mono; eassumption.
Qed.

(** ** The poll *)

Definition device_url (s : controller) : string :=
  "http://" ++ ip s ++ "/wflexp.json".

(** The events of [get_data] on a response. *)
Definition fetch_events (s : controller) (status : Z) : list event :=
  HttpGet (device_url s) ::
  (if status =? 200 then []
   else [Syslog "Bad response from WiFiLogger2 " status;
         Print " -  Bad response from WiFiLogger2. "]).

Lemma get_data_response json_loads net s status content :
  net (device_url s) = HttpResponse status content ->
  exists s',
    get_data json_loads net s = (s', json_loads content) /\
    trace s' = (trace s ++ fetch_events s status)%list /\
    nodes s' = nodes s /\ same_attrs s s'.
Proof.
  intros Hnet. unfold get_data. munfold. cbn.
  change ("http://" ++ ip s ++ "/wflexp.json")%string with (device_url s).
  rewrite Hnet. unfold fetch_events.
  destruct (status =? 200); cbn.
  - eexists. split; [reflexivity |]. cbn. repeat split.
  - eexists. split; [reflexivity |]. cbn. rewrite <- !app_assoc. repeat split.
Qed.

Lemma try_except_emit_returns (body : M unit) (ev : pyexn -> event) s :
  snd (try_except body (fun e => emit (ev e)) s) = inr tt.
Proof.
  unfold try_except. destruct (body s) as [s' [e | []]]; reflexivity.
Qed.

(** Whatever the device, the state and the tables, [longPoll] returns. *)
Lemma longPoll_returns uom json_loads net s :
  snd (longPoll uom json_loads net s) = inr tt.
Proof.
  unfold longPoll. unfold mbind at 1. unfold get at 1.
  destruct (String.eqb (ip s) ""); [reflexivity |].
  unfold mbind at 1. unfold emit at 1. unfold modify at 1.
  apply try_except_emit_returns.
Qed.

Lemma ready_same_nodes s s' : nodes s' = nodes s -> ready s -> ready s'.
Proof.
  intros Hn. apply ready_mono. intros k c (n & H1 & H2).
  exists n. rewrite Hn. auto.
Qed.

(** A poll that gets a JSON object from the device. *)
Lemma longPoll_object uom json_loads net s status content m :
  ip s <> "" ->
  net (device_url s) = HttpResponse status content ->
  json_loads content = ok (PDict m) ->
  ready s ->
  let '(evs, e) := expected_writes uom m mapping_table in
  exists s',
    longPoll uom json_loads net s = (s', inr tt) /\
    trace s' =
      (trace s ++ LogInfo "LongPoll" :: fetch_events s status ++ evs ++
         match e with
         | Some x => [LogError "Failure while parsing WiFiLogger2 data. " (Some x)]
         | None => []
         end)%list /\
    same_attrs s s' /\ ready s'.
Proof.
  intros Hip Hnet Hjson Hready.
  destruct (expected_writes uom m mapping_table) as [evs e] eqn:Hexp.
  unfold longPoll. unfold mbind at 1. unfold get at 1.
  destruct (String.eqb_spec (ip s) ""); [contradiction |].
  unfold mbind at 1. unfold emit at 1. unfold modify at 1.
  set (s0 := set_trace (trace s ++ [LogInfo "LongPoll"]) s).
  destruct (get_data_response json_loads net s0 status content Hnet)
    as (s1 & Hget & Htr1 & Hn1 & Hattrs1).
  unfold try_except at 1. unfold mbind at 1. rewrite Hget, Hjson.
  destruct (map_fields_spec uom m s1) as (s2 & Hmap & Htr2 & Hattrs2 & Hready2).
  { eapply ready_same_nodes; [exact Hn1 |].
    eapply ready_same_nodes; [| exact Hready]. reflexivity. }
  rewrite Hexp in Hmap, Htr2. cbn [fst snd] in Hmap, Htr2.
  change (trace s0) with (trace s ++ [LogInfo "LongPoll"])%list in Htr1.
  change (fetch_events s0 status) with (fetch_events s status) in Htr1.
  unfold ok. cbv beta iota.
  unfold try_except at 1. rewrite Hmap.
  assert (Hattrs : same_attrs s s2).
  { eapply same_attrs_trans; [| exact Hattrs2].
    eapply same_attrs_trans; [| exact Hattrs1]. repeat split. }
  destruct e as [x |]; unfold outcome.
  - eexists. split; [reflexivity |].
    split; [| split].
    + change (trace s2 ++ [LogError "Failure while parsing WiFiLogger2 data. " (Some x)]
              = trace s ++ LogInfo "LongPoll" :: fetch_events s status ++ evs ++
                  [LogError "Failure while parsing WiFiLogger2 data. " (Some x)])%list.
      rewrite Htr2, Htr1, <- !app_assoc. reflexivity.
    + exact Hattrs.
    + eapply ready_same_nodes; [| exact Hready2]. reflexivity.
  - exists s2. split; [reflexivity |]. split; [| split; assumption].
    rewrite Htr2, Htr1, <- !app_assoc, app_nil_r. reflexivity.
Qed.

(** ** Discovery *)

(** The slots the loop of [discover] appends for a table: one per enabled
    sub-measurement, in the table's order, with value [0] and the codes
    looked up in [uom]; the first missing key is a [KeyError]. *)
Fixpoint enabled_slots (uom : uom_module) (drvs : gmap string string)
    (table : odict) : result (list driver) :=
  match table with
  | [] => ok []
  | (d, unit_name) :: table' =>
      (code <-- subscript drvs d ;;
       u <-- subscript (UOM uom) unit_name ;;
       rest <-- enabled_slots uom drvs table' ;;
       ok (Driver code (PInt 0) u :: rest))%result
  end.

(** The relation between a table entry and its slot. *)
Definition slot_for (uom : uom_module) (drvs : gmap string string)
    (entry : string * string) (d : driver) : Prop :=
  drvs !! entry.1 = Some (drv_driver d) /\
  UOM uom !! entry.2 = Some (drv_uom d) /\
  drv_value d = PInt 0.

Lemma enabled_slots_slot_for uom drvs table l :
  enabled_slots uom drvs table = ok l -> Forall2 (slot_for uom drvs) table l.
Proof.
  revert l. induction table as [| [d u] table IH]; intros l H; cbn in H.
  - injection H as <-. constructor.
  - unfold subscript in H.
    destruct (drvs !! d) as [code|] eqn:Hd; [| discriminate]. cbn in H.
    destruct (UOM uom !! u) as [z|] eqn:Hu; [| discriminate]. cbn in H.
    destruct (enabled_slots uom drvs table) as [e | rest]; [discriminate |].
    cbn in H. injection H as <-. constructor; [| apply IH; reflexivity].
    repeat split; assumption.
Qed.

Definition has_keys {V} (d : gmap string V) (ks : list string) : Prop :=
  Forall (fun k => is_Some (d !! k)) ks.

Lemma enabled_slots_ok uom drvs table :
  has_keys drvs (map fst table) ->
  has_keys (UOM uom) (map snd table) ->
  exists l, enabled_slots uom drvs table = ok l.
Proof.
  induction table as [| [d u] table IH]; intros Hk Hu; cbn.
  - eauto.
  - inversion Hk as [| ? ? [code Hc] Hk']; subst.
    inversion Hu as [| ? ? [z Hz] Hu']; subst.
    destruct (IH Hk' Hu') as (l & ->).
    unfold subscript. cbn in Hc, Hz. rewrite Hc, Hz. cbn. eauto.
Qed.

Lemma drivers_append_spec n d s :
  exists s' n',
    drivers_append n d s = (s', inr n') /\
    trace s' = trace s /\ nodes s' = nodes s /\ same_attrs s s' /\
    node_class_of n' = node_class_of n /\
    node_primary n' = node_primary n /\
    node_address n' = node_address n /\
    node_name n' = node_name n /\
    node_units n' = node_units n /\
    drivers_of s' n' = (drivers_of s n ++ [d])%list /\
    (forall l0, node_drivers n = Some l0 ->
       node_drivers n' = Some (l0 ++ [d])%list /\
       class_drivers s' = class_drivers s).
Proof.
  unfold drivers_append. unfold mbind, get_state.
  unfold store_drivers, drivers_of.
  destruct (node_drivers n) as [l0|] eqn:Hd.
  - exists s, (with_drivers n (l0 ++ [d])). cbn.
    split; [reflexivity |]. repeat split.
    all: injection H as <-; reflexivity.
  - eexists _, n. munfold. cbn. split; [reflexivity |]. rewrite Hd.
    repeat split; try apply fn_lookup_insert. all: discriminate.
Qed.

Lemma append_enabled_spec uom drvs table l :
  enabled_slots uom drvs table = ok l ->
  forall n s,
  exists s' n',
    append_enabled uom drvs table n s = (s', inr n') /\
    trace s' = trace s /\ nodes s' = nodes s /\ same_attrs s s' /\
    node_class_of n' = node_class_of n /\
    node_primary n' = node_primary n /\
    node_address n' = node_address n /\
    node_name n' = node_name n /\
    node_units n' = node_units n /\
    drivers_of s' n' = (drivers_of s n ++ l)%list /\
    (forall l0, node_drivers n = Some l0 ->
       node_drivers n' = Some (l0 ++ l)%list /\
       class_drivers s' = class_drivers s).
Proof.
  revert l. induction table as [| [d u] table IH]; intros l H n s; cbn in H.
  - injection H as <-. exists s, n. cbn. rewrite app_nil_r.
    split; [reflexivity |]. repeat split.
    all: rewrite app_nil_r; assumption.
  - unfold subscript in H.
    destruct (drvs !! d) as [code|] eqn:Hd; [| discriminate]. cbn in H.
    destruct (UOM uom !! u) as [z|] eqn:Hu; [| discriminate]. cbn in H.
    destruct (enabled_slots uom drvs table) as [e | rest] eqn:Hrest;
      [discriminate |].
    cbn in H. injection H as <-.
    destruct (drivers_append_spec n (Driver code (PInt 0) z) s)
      as (s1 & n1 & Happ & Htr1 & Hn1 & Ha1 & Hc1 & Hp1 & Had1 & Hnm1 & Hu1 & Hd1 & Hown1).
    destruct (IH rest eq_refl n1 s1)
      as (s2 & n2 & Hrun & Htr2 & Hn2 & Ha2 & Hc2 & Hp2 & Had2 & Hnm2 & Hu2 & Hd2 & Hown2).
    exists s2, n2. split.
    { cbn [append_enabled]. unfold mbind, lift, subscript.
      rewrite Hd. unfold ok. cbv beta iota.
      rewrite Hu. cbv beta iota.
      rewrite Happ. exact Hrun. }
    split; [congruence |]. split; [congruence |].
    split; [eapply same_attrs_trans; eassumption |].
    split; [congruence |]. split; [congruence |]. split; [congruence |].
    split; [congruence |]. split; [congruence |].
    split.
    { rewrite Hd2, Hd1, <- app_assoc. reflexivity. }
    intros l0 H0. destruct (Hown1 l0 H0) as [Hn1' Hcd1].
    destruct (Hown2 _ Hn1') as [Hn2' Hcd2].
    rewrite Hn2', <- app_assoc. split; [reflexivity | congruence].
Qed.

(** The six blocks of [discover] as data. *)
Inductive table_id : Type :=
| T_temperature | T_humidity | T_pressure | T_wind | T_rain | T_light.

Definition table_of (t : table_id) : controller -> odict :=
  match t with
  | T_temperature => temperature_list
  | T_humidity => humidity_list
  | T_pressure => pressure_list
  | T_wind => wind_list
  | T_rain => rain_list
  | T_light => light_list
  end.

Record plan : Type := Plan {
  p_class : node_class;
  p_addr : string;
  p_name : string;
  p_table : table_id;
  p_drvs : uom_module -> gmap string string
}.

Definition discover_plan : list plan :=
  [ Plan TemperatureNode "temperature" "Temperatures" T_temperature TEMP_DRVS;
    Plan HumidityNode "humidity" "Humidity" T_humidity HUMD_DRVS;
    Plan PressureNode "pressure" "Barometric Pressure" T_pressure PRES_DRVS;
    Plan WindNode "wind" "Wind" T_wind WIND_DRVS;
    Plan PrecipitationNode "rain" "Precipitation" T_rain RAIN_DRVS;
    Plan LightNode "light" "Illumination" T_light LITE_DRVS ].

Fixpoint run_plan (uom : uom_module) (h : host) (ps : list plan) : M unit :=
  match ps with
  | [] => mret tt
  | [p] =>
      discover_node uom h (p_class p) (p_addr p) (p_name p)
        (table_of (p_table p)) (p_drvs p uom)
  | p :: ps' =>
      discover_node uom h (p_class p) (p_addr p) (p_name p)
        (table_of (p_table p)) (p_drvs p uom) ;;;
      run_plan uom h ps'
  end.

Lemma discover_plan_eq uom h :
  discover uom h = (emit (LogInfo "Creating nodes.") ;;; run_plan uom h discover_plan).
Proof. reflexivity. Qed.

Lemma table_of_same_attrs t s s' :
  same_attrs s s' -> table_of t s' = table_of t s.
Proof. unfold same_attrs. intros H. destruct_and!. destruct t; assumption. Qed.

(** The slots of a block in state [s]. *)
Definition plan_slots (uom : uom_module) (s : controller) (p : plan)
    : result (list driver) :=
  enabled_slots uom (p_drvs p uom) (table_of (p_table p) s).

(** The drivers of a node once [addNode] has gone over them: as they
    were when the host has nothing stored for the address, and each with
    its stored value otherwise. *)
Definition restore_drivers (h : host) (addr : string) (l : list driver)
    : list driver :=
  match _nodes h !! addr with
  | Some stored => map (restore_value stored) l
  | None => l
  end.

(** A node as a block of [discover] leaves it when the instance owns its
    list: the class-level drivers followed by the enabled slots, with the
    values the host has stored. *)
Definition built_node (h : host) (s : controller) (p : plan) (l : list driver)
    : node :=
  {| node_class_of := p_class p;
     node_primary := address s;
     node_address := p_addr p;
     node_name := p_name p;
     node_units := units s;
     node_drivers :=
       Some (restore_drivers h (p_addr p)
               (class_drivers s (p_class p) ++ l)%list) |}.

(** What a block does, for either behaviour of the host's constructor. *)
Definition built_by (h : host) (s : controller) (p : plan) (l : list driver)
    (n : node) (ds : list driver) : Prop :=
  node_class_of n = p_class p /\ node_primary n = address s /\
  node_address n = p_addr p /\ node_name n = p_name p /\
  node_units n = units s /\
  (instance_copy h = true ->
     n = built_node h s p l /\
     ds = restore_drivers h (p_addr p)
            (class_drivers s (p_class p) ++ l)%list).

Lemma addNode_spec h n s :
  exists s' n',
    addNode h n s = (s', inr tt) /\
    trace s' = (trace s ++ [AddNode n' (drivers_of s' n')])%list /\
    nodes s' = <[node_address n := n']> (nodes s) /\
    same_attrs s s' /\
    node_class_of n' = node_class_of n /\
    node_primary n' = node_primary n /\
    node_address n' = node_address n /\
    node_name n' = node_name n /\
    node_units n' = node_units n /\
    drivers_of s' n' = restore_drivers h (node_address n) (drivers_of s n) /\
    (forall l0, node_drivers n = Some l0 ->
       node_drivers n' = Some (restore_drivers h (node_address n) l0) /\
       class_drivers s' = class_drivers s).
Proof.
  unfold addNode, restore_drivers.
  destruct (_nodes h !! node_address n) as [stored |].
  - unfold store_drivers, drivers_of.
    destruct (node_drivers n) as [l0 |] eqn:Hd.
    + eexists _, (with_drivers n (map (restore_value stored) l0)).
      munfold. cbn. split; [reflexivity |]. cbn. repeat split.
      all: injection H as <-; reflexivity.
    + eexists _, n. munfold. cbn. split; [reflexivity |]. cbn. rewrite Hd.
      repeat split; try apply fn_lookup_insert. all: discriminate.
  - eexists _, n. munfold. cbn. split; [reflexivity |]. cbn. repeat split.
    all: assumption.
Qed.

Lemma discover_node_spec uom h p l s :
  plan_slots uom s p = ok l ->
  exists s' n ds,
    discover_node uom h (p_class p) (p_addr p) (p_name p)
      (table_of (p_table p)) (p_drvs p uom) s = (s', inr tt) /\
    trace s' = (trace s ++ [AddNode n ds])%list /\
    nodes s' = <[p_addr p := n]> (nodes s) /\
    same_attrs s s' /\
    built_by h s p l n ds /\
    (instance_copy h = true -> class_drivers s' = class_drivers s).
Proof.
  intros Hl. unfold plan_slots in Hl.
  set (n0 := SetUnits
               {| node_class_of := p_class p; node_primary := address s;
                  node_address := p_addr p; node_name := p_name p;
                  node_units := "metric";
                  node_drivers := if instance_copy h
                                  then Some (class_drivers s (p_class p))
                                  else None |} (units s)).
  destruct (append_enabled_spec uom _ _ l Hl n0 s)
    as (s1 & n1 & Hrun & Htr & Hn & Ha & Hc & Hp & Had & Hnm & Hu & Hd & Hown).
  destruct (addNode_spec h n1 s1)
    as (s2 & n2 & Hadd & Htr2 & Hn2 & Ha2 & Hc2 & Hp2 & Had2 & Hnm2 & Hu2
        & Hd2 & Hown2).
  exists s2, n2, (drivers_of s2 n2).
  split.
  { unfold discover_node, Node_init. unfold mbind, get, mret. fold n0.
    rewrite Hrun. exact Hadd. }
  split; [rewrite Htr2, Htr; reflexivity |].
  split; [rewrite Hn2, Hn, Had; reflexivity |].
  split; [exact (same_attrs_trans _ _ _ Ha Ha2) |].
  assert (Hadr : node_address n1 = p_addr p) by (rewrite Had; reflexivity).
  split.
  - unfold built_by. rewrite Hc2, Hp2, Had2, Hnm2, Hu2, Hc, Hp, Had, Hnm, Hu.
    do 5 (split; [reflexivity |]).
    intros Hcopy.
    assert (Hn0 : node_drivers n0 = Some (class_drivers s (p_class p)))
      by (subst n0; cbn; rewrite Hcopy; reflexivity).
    destruct (Hown _ Hn0) as [Hown1 _].
    destruct (Hown2 _ Hown1) as [Hown3 _]. rewrite Hadr in Hown3.
    split.
    + subst n0. cbn in Hc, Hp, Had, Hnm, Hu.
      destruct n2; cbn in *. unfold built_node. congruence.
    + unfold drivers_of. rewrite Hown3. reflexivity.
  - intros Hcopy.
    assert (Hn0 : node_drivers n0 = Some (class_drivers s (p_class p)))
      by (subst n0; cbn; rewrite Hcopy; reflexivity).
    destruct (Hown _ Hn0) as [Hown1 Hcd1].
    destruct (Hown2 _ Hown1) as [_ Hcd2]. congruence.
Qed.

(** Registering nodes one after the other, each under its address. *)
Definition register_all (m : gmap string node) (ns : list node)
    : gmap string node :=
  foldl (fun m n => <[node_address n := n]> m) m ns.

Lemma built_by_same h s s' p l n ds :
  same_attrs s s' ->
  (instance_copy h = true -> class_drivers s' = class_drivers s) ->
  built_by h s' p l n ds -> built_by h s p l n ds.
Proof.
  intros Ha Hcd (H1 & H2 & H3 & H4 & H5 & H6).
  assert (address s' = address s /\ units s' = units s) as [Hadr Hun].
  { unfold same_attrs in Ha. destruct_and!. split; assumption. }
  unfold built_by. rewrite <- Hadr, <- Hun.
  do 5 (split; [assumption |]).
  intros Hcopy. specialize (H6 Hcopy). specialize (Hcd Hcopy).
  unfold built_node in *. rewrite Hcd, Hadr, Hun in H6. rewrite <- Hadr, <- Hun.
  rewrite Hadr, Hun. exact H6.
Qed.

Lemma run_plan_spec uom h ps :
  forall s ls,
    Forall2 (fun p l => plan_slots uom s p = ok l) ps ls ->
    exists s' nds,
      run_plan uom h ps s = (s', inr tt) /\
      trace s' = (trace s ++ map (fun nd => AddNode nd.1 nd.2) nds)%list /\
      nodes s' = register_all (nodes s) (map fst nds) /\
      same_attrs s s' /\
      Forall2 (fun pl nd => built_by h s pl.1 pl.2 nd.1 nd.2) (zip ps ls) nds /\
      (instance_copy h = true -> class_drivers s' = class_drivers s).
Proof.
  induction ps as [| p ps IH]; intros s ls Hls.
  - inversion Hls; subst. exists s, []. cbn. rewrite app_nil_r.
    split; [reflexivity |]. split; [reflexivity |]. split; [reflexivity |].
    split; [apply same_attrs_refl |]. split; [constructor | reflexivity].
  - inversion Hls as [| ? l ? ls' Hl Hls']; subst.
    destruct (discover_node_spec uom h p l s Hl)
      as (s1 & n & ds & Hrun & Htr & Hn & Ha & Hb & Hcd).
    destruct (IH s1 ls') as (s2 & nds & Hrun2 & Htr2 & Hn2 & Ha2 & Hb2 & Hcd2).
    { eapply Forall2_impl; [exact Hls' |]. intros p' l' H'.
      unfold plan_slots in *. rewrite (table_of_same_attrs _ s s1 Ha). exact H'. }
    exists s2, ((n, ds) :: nds).
    split.
    { destruct ps as [| p' ps'].
      - inversion Hls'; subst. cbn in Hrun2. injection Hrun2 as <-.
        cbn [run_plan]. exact Hrun.
      - change (run_plan uom h (p :: p' :: ps'))
          with (mbind (discover_node uom h (p_class p) (p_addr p) (p_name p)
                         (table_of (p_table p)) (p_drvs p uom))
                  (fun _ => run_plan uom h (p' :: ps'))).
        unfold mbind at 1. rewrite Hrun. exact Hrun2. }
    split; [rewrite Htr2, Htr, <- app_assoc; reflexivity |].
    split.
    { rewrite Hn2, Hn. cbn. destruct Hb as (_ & _ & -> & _). reflexivity. }
    split; [eapply same_attrs_trans; eassumption |].
    split.
    { cbn. constructor; [exact Hb |].
      eapply Forall2_impl; [exact Hb2 |]. intros pl nd.
      apply built_by_same; assumption. }
    intros Hcopy. rewrite (Hcd2 Hcopy). apply Hcd, Hcopy.
Qed.

(** The tables as [setup_nodedefs] fills them. *)
Definition enabled (t : table_id) : odict :=
  match t with
  | T_temperature =>
      [("main", "I_TEMP_F"); ("dewpoint", "I_TEMP_F"); ("windchill", "I_TEMP_F")]
  | T_humidity => [("main", "I_HUMIDITY")]
  | T_pressure => [("station", "I_INHG"); ("sealevel", "I_INHG")]
  | T_wind =>
      [("windspeed", "I_MPH"); ("gustspeed", "I_MPH"); ("winddir", "I_DEGREE")]
  | T_rain => [("rate", "I_INHR"); ("total", "I_INCHES")]
  | T_light => [("uv", "I_UV"); ("solar_radiation", "I_RADIATION")]
  end.

(** The enabled-measurement tables are as the plugin leaves them: empty
    (before [setup_nodedefs]) or filled by it. *)
Definition lists_known (s : controller) : Prop :=
  forall t, table_of t s = [] \/ table_of t s = enabled t.

Definition lists_set (s : controller) : Prop :=
  forall t, table_of t s = enabled t.

(** [uom.py] has an entry for every sub-measurement and unit name that
    [setup_nodedefs] enables. *)
Definition tables_ready (uom : uom_module) : Prop :=
  Forall (fun p =>
            has_keys (p_drvs p uom) (map fst (enabled (p_table p))) /\
            has_keys (UOM uom) (map snd (enabled (p_table p))))
    discover_plan.

Lemma Forall_exists_Forall2 {A B} (P : A -> B -> Prop) (l : list A) :
  Forall (fun x => exists y, P x y) l -> exists k, Forall2 P l k.
Proof.
  induction 1 as [| x l [y Hy] _ [k Hk]].
  - exists []. constructor.
  - exists (y :: k). constructor; assumption.
Qed.

Lemma plan_slots_ready uom s :
  tables_ready uom -> lists_known s ->
  exists ls, Forall2 (fun p l => plan_slots uom s p = ok l) discover_plan ls.
Proof.
  intros Hready Hknown. apply Forall_exists_Forall2.
  eapply Forall_impl; [exact Hready |].
  intros p [Hk Hu]. unfold plan_slots.
  destruct (Hknown (p_table p)) as [-> | ->].
  - exists []. reflexivity.
  - apply enabled_slots_ok; assumption.
Qed.

(** [discover], for either behaviour of the host's constructor. *)
Lemma discover_spec uom h s :
  tables_ready uom -> lists_known s ->
  exists s' nds ls,
    discover uom h s = (s', inr tt) /\
    trace s' = (trace s ++ LogInfo "Creating nodes." ::
                  map (fun nd => AddNode nd.1 nd.2) nds)%list /\
    nodes s' = register_all (nodes s) (map fst nds) /\
    same_attrs s s' /\
    Forall2 (fun p l => plan_slots uom s p = ok l) discover_plan ls /\
    Forall2 (fun pl nd => built_by h s pl.1 pl.2 nd.1 nd.2)
      (zip discover_plan ls) nds /\
    (instance_copy h = true -> class_drivers s' = class_drivers s).
Proof.
  intros Hready Hknown.
  destruct (plan_slots_ready uom s Hready Hknown) as (ls & Hls).
  set (s0 := set_trace (trace s ++ [LogInfo "Creating nodes."]) s).
  assert (Ha0 : same_attrs s s0) by (repeat split).
  destruct (run_plan_spec uom h discover_plan s0 ls)
    as (s' & nds & Hrun & Htr & Hn & Ha & Hb & Hcd).
  { eapply Forall2_impl; [exact Hls |]. intros p l H.
    unfold plan_slots in *. rewrite (table_of_same_attrs _ s s0 Ha0). exact H. }
  exists s', nds, ls.
  split; [rewrite discover_plan_eq; exact Hrun |].
  split; [rewrite Htr; subst s0; cbn; rewrite <- app_assoc; reflexivity |].
  split; [exact Hn |].
  split; [exact (same_attrs_trans _ _ _ Ha0 Ha) |].
  split; [exact Hls |].
  split; [| exact Hcd].
  eapply Forall2_impl; [exact Hb |]. intros pl nd.
  apply built_by_same; [exact Ha0 | intros _; reflexivity].
Qed.

Lemma register_all_union (ns : list node) :
  forall m,
    register_all m ns
    = list_to_map (rev (map (fun n => (node_address n, n)) ns)) ∪ m.
Proof.
  induction ns as [| n ns IH]; intros m; cbn.
  - rewrite (left_id_L ∅ (∪)). reflexivity.
  - unfold register_all in IH. rewrite IH.
    rewrite list_to_map_app. cbn.
    rewrite insert_empty, <- (assoc_L (∪)), <- insert_union_singleton_l.
    reflexivity.
Qed.

Lemma register_all_twice (ns : list node) (m : gmap string node) :
  register_all (register_all m ns) ns = register_all m ns.
Proof.
  rewrite !register_all_union, (assoc_L (∪)), (idemp_L (∪)). reflexivity.
Qed.

(** The nodes [discover] builds when instances own their lists. *)
Definition built_nodes (h : host) (s : controller) (ls : list (list driver))
    : list node :=
  zip_with (built_node h s) discover_plan ls.

Lemma built_by_copy h s pls nds :
  instance_copy h = true ->
  Forall2 (fun pl nd => built_by h s pl.1 pl.2 nd.1 nd.2) pls nds ->
  map fst nds = map (fun pl : plan * list driver => built_node h s pl.1 pl.2) pls.
Proof.
  intros Hcopy. induction 1 as [| pl nd pls nds Hb _ IH]; [reflexivity |].
  cbn. rewrite IH. f_equal.
  destruct Hb as (_ & _ & _ & _ & _ & Hb). apply (Hb Hcopy).
Qed.

Lemma map_zip_with_uncurry {A B C} (f : A -> B -> C) (l : list A) (k : list B) :
  map (fun p : A * B => f p.1 p.2) (zip l k) = zip_with f l k.
Proof.
  revert k. induction l as [| a l IH]; intros [| b k]; cbn; try reflexivity.
  rewrite IH. reflexivity.
Qed.

(** [discover] when the host's constructor copies the class-level list. *)
Lemma discover_copy_spec uom h s :
  instance_copy h = true -> tables_ready uom -> lists_known s ->
  exists s' ls,
    discover uom h s = (s', inr tt) /\
    Forall2 (fun p l => plan_slots uom s p = ok l) discover_plan ls /\
    nodes s' = register_all (nodes s) (built_nodes h s ls) /\
    same_attrs s s' /\
    class_drivers s' = class_drivers s.
Proof.
  intros Hcopy Hready Hknown.
  destruct (discover_spec uom h s Hready Hknown)
    as (s' & nds & ls & Hrun & _ & Hn & Ha & Hls & Hb & Hcd).
  exists s', ls. split; [exact Hrun |]. split; [exact Hls |].
  split; [| split; [exact Ha | exact (Hcd Hcopy)]].
  rewrite Hn, (built_by_copy h s _ _ Hcopy Hb).
  unfold built_nodes. rewrite map_zip_with_uncurry. reflexivity.
Qed.

Lemma plan_slots_same uom s s' p :
  same_attrs s s' -> plan_slots uom s' p = plan_slots uom s p.
Proof.
  intros Ha. unfold plan_slots. rewrite (table_of_same_attrs _ s s' Ha).
  reflexivity.
Qed.

Lemma built_nodes_same h s s' ls :
  same_attrs s s' -> class_drivers s' = class_drivers s ->
  built_nodes h s' ls = built_nodes h s ls.
Proof.
  intros Ha Hcd. unfold built_nodes, built_node.
  assert (address s' = address s /\ units s' = units s) as [-> ->].
  { unfold same_attrs in Ha. destruct_and!. split; assumption. }
  rewrite Hcd. reflexivity.
Qed.

Lemma Forall2_ok_functional {A B} (f : A -> result B) (l : list A) (k k' : list B) :
  Forall2 (fun x y => f x = ok y) l k ->
  Forall2 (fun x y => f x = ok y) l k' -> k = k'.
Proof.
  intros H. revert k'. induction H as [| x y l k Hxy _ IH]; intros k' H'.
  - inversion H'. reflexivity.
  - inversion H' as [| ? y' ? k'' Hxy' Hrest]; subst.
    rewrite Hxy in Hxy'. injection Hxy' as <-. f_equal. apply IH, Hrest.
Qed.

(** ** Claims about discovery *)

(** The addresses and classes of the nodes [discover] builds. *)
Definition discovered_nodes : list (string * node_class) :=
  map (fun p => (p_addr p, p_class p)) discover_plan.

Lemma register_all_other (ns : list node) :
  forall (m : gmap string node) (k : string),
    k ∉ map node_address ns -> register_all m ns !! k = m !! k.
Proof.
  induction ns as [| n ns IH]; intros m k Hk; [reflexivity |].
  cbn in *. apply not_elem_of_cons in Hk. destruct Hk as [Hne Hk].
  unfold register_all in IH. rewrite (IH _ _ Hk).
  apply lookup_insert_ne. congruence.
Qed.

Lemma discover_lookup uom h s :
  instance_copy h = true -> tables_ready uom -> lists_known s ->
  exists s',
    discover uom h s = (s', inr tt) /\
    (forall p, p ∈ discover_plan ->
       exists l,
         plan_slots uom s p = ok l /\
         nodes s' !! p_addr p = Some (built_node h s p l)) /\
    (forall k, k ∉ map p_addr discover_plan -> nodes s' !! k = nodes s !! k) /\
    same_attrs s s' /\ class_drivers s' = class_drivers s.
Proof.
  intros Hcopy Hready Hknown.
  destruct (discover_copy_spec uom h s Hcopy Hready Hknown)
    as (s' & ls & Hrun & Hls & Hn & Ha & Hcd).
  exists s'. split; [exact Hrun |].
  unfold discover_plan in Hls.
  repeat match goal with
         | H : Forall2 _ (_ :: _) _ |- _ =>
             apply Forall2_cons_inv_l in H;
             destruct H as (? & ? & ? & H & ->)
         | H : Forall2 _ [] _ |- _ => apply Forall2_nil_inv_l in H; subst
         end.
  split; [| split; [| split; assumption]].
  - intros p Hp. rewrite Hn. unfold discover_plan in Hp.
    unfold built_nodes, discover_plan. cbn [zip_with register_all foldl].
    cbn [node_address built_node p_addr].
    repeat (apply elem_of_cons in Hp; destruct Hp as [-> | Hp]);
      [.. | apply elem_of_nil in Hp; contradiction];
      eexists; (split; [eassumption |]); cbn [p_addr];
      repeat (rewrite lookup_insert_ne by discriminate);
      apply lookup_insert_eq.
  - intros k Hk. rewrite Hn. apply register_all_other. exact Hk.
Qed.

Lemma tables_ready_sample : tables_ready uom_sample.
Proof.
  unfold tables_ready, discover_plan, has_keys.
  repeat constructor; cbn; eexists; vm_compute; reflexivity.
Qed.

Lemma lists_known_started :
  lists_known (started uom_sample polyinterface config_sample).
Proof. intros t. right. destruct t; vm_compute; reflexivity. Qed.

Lemma lists_known_init cfg : lists_known (Controller_init cfg).
Proof. intros t. left. destruct t; reflexivity. Qed.

(** C2, the failing input: after discovery on a started controller there
    are six nodes, none under the address [lightning] and none of class
    [LightningNode]; the precipitation node sits under [rain]. *)
Lemma discover_no_lightning_node :
  let r := discover uom_sample polyinterface
             (started uom_sample polyinterface config_sample) in
  snd r = inr tt /\
  map fst (map_to_list (nodes (fst r)))
    = ["wind"; "rain"; "light"; "temperature"; "humidity"; "pressure"] /\
  nodes (fst r) !! "lightning" = None /\
  nodes (fst r) !! "precipitation" = None /\
  Forall (fun kn : string * node => node_class_of kn.2 <> LightningNode)
    (map_to_list (nodes (fst r))).
Proof.
  cbv zeta.
  remember (discover uom_sample polyinterface
              (started uom_sample polyinterface config_sample)) as r eqn:Hr.
  vm_compute in Hr. subst r. cbn [fst snd nodes].
  split; [reflexivity |]. split; [vm_compute; reflexivity |].
  split; [vm_compute; reflexivity |]. split; [vm_compute; reflexivity |].
  match goal with |- Forall _ ?l =>
    let l' := eval vm_compute in l in change l with l' end.
  repeat constructor; discriminate.
Qed.

(** X30: discovery returns and registers six nodes, of the classes and
    under the addresses of [discovered_nodes] (temperature, humidity,
    pressure, wind, precipitation under [rain], light).  Each is built
    from the drivers of its class followed by one slot per enabled
    sub-measurement, in order, with value [0] and with the driver and
    unit-of-measure codes looked up in the [uom] tables; [addNode] then
    puts the values the host has stored for the address in their place,
    and changes nothing when the host has none.  Every other entry of
    [nodes] is left as it was. *)
Theorem discover_builds_six_nodes uom h s :
  instance_copy h = true -> tables_ready uom -> lists_known s ->
  exists s',
    discover uom h s = (s', inr tt) /\
    discovered_nodes
      = [("temperature", TemperatureNode); ("humidity", HumidityNode);
         ("pressure", PressureNode); ("wind", WindNode);
         ("rain", PrecipitationNode); ("light", LightNode)] /\
    (forall p, p ∈ discover_plan ->
       exists n l,
         nodes s' !! p_addr p = Some n /\
         node_class_of n = p_class p /\
         node_address n = p_addr p /\
         node_units n = units s /\
         Forall2 (slot_for uom (p_drvs p uom)) (table_of (p_table p) s) l /\
         drivers_of s' n
         = restore_drivers h (p_addr p)
             (class_drivers s (p_class p) ++ l)%list /\
         (_nodes h !! p_addr p = None ->
          drivers_of s' n = (class_drivers s (p_class p) ++ l)%list)) /\
    (forall k, k ∉ map fst discovered_nodes -> nodes s' !! k = nodes s !! k).
Proof.
  intros Hcopy Hready Hknown.
  destruct (discover_lookup uom h s Hcopy Hready Hknown)
    as (s' & Hrun & Hbuilt & Hother & _ & _).
  exists s'. split; [exact Hrun |]. split; [reflexivity |].
  split.
  - intros p Hp. destruct (Hbuilt p Hp) as (l & Hl & Hlook).
    exists (built_node h s p l), l. split; [exact Hlook |].
    do 3 (split; [reflexivity |]).
    split; [apply enabled_slots_slot_for, Hl |].
    split; [reflexivity |].
    intros Hnone. unfold drivers_of, built_node, restore_drivers.
    cbn [node_drivers]. rewrite Hnone. reflexivity.
  - intros k Hk. apply Hother. unfold discovered_nodes in Hk.
    rewrite <- list_fmap_compose in Hk. exact Hk.
Qed.

Lemma discover_builds_six_nodes_witness :
  let s := started uom_sample polyinterface config_sample in
  instance_copy polyinterface = true /\
  tables_ready uom_sample /\
  lists_known s /\
  exists s',
    discover uom_sample polyinterface s = (s', inr tt) /\
    forall k, k ∉ map fst discovered_nodes -> nodes s' !! k = nodes s !! k.
Proof.
  cbv zeta.
  split; [reflexivity |].
  split; [exact tables_ready_sample |].
  split; [exact lists_known_started |].
  destruct (discover_builds_six_nodes uom_sample polyinterface
              (started uom_sample polyinterface config_sample)
              eq_refl tables_ready_sample lists_known_started)
    as (s' & Hrun & _ & _ & Hother).
  exists s'. split; [exact Hrun | exact Hother].
Defined.

(** C3: with the host's constructor giving each instance its own copy of
    the class-level list, a second discovery in the same configuration
    returns and leaves the node table, with every driver list in it, as
    the first one left it. *)
Theorem discover_idempotent uom h s :
  instance_copy h = true -> tables_ready uom -> lists_known s ->
  exists s1 s2,
    discover uom h s = (s1, inr tt) /\
    discover uom h s1 = (s2, inr tt) /\
    same_attrs s1 s2 /\
    nodes s2 = nodes s1 /\
    (forall n, drivers_of s2 n = drivers_of s1 n).
Proof.
  intros Hcopy Hready Hknown.
  destruct (discover_copy_spec uom h s Hcopy Hready Hknown)
    as (s1 & ls & Hrun1 & Hls1 & Hn1 & Ha1 & Hcd1).
  assert (Hknown1 : lists_known s1).
  { intros t. rewrite (table_of_same_attrs t s s1 Ha1). apply Hknown. }
  destruct (discover_copy_spec uom h s1 Hcopy Hready Hknown1)
    as (s2 & ls' & Hrun2 & Hls2 & Hn2 & Ha2 & Hcd2).
  assert (ls' = ls) as ->.
  { eapply (Forall2_ok_functional (plan_slots uom s)); [| exact Hls1].
    eapply Forall2_impl; [exact Hls2 |]. intros p l H.
    rewrite <- (plan_slots_same uom s s1 p Ha1). exact H. }
  exists s1, s2. split; [exact Hrun1 |]. split; [exact Hrun2 |].
  split; [exact Ha2 |]. split.
  - rewrite Hn2, (built_nodes_same h s s1 ls Ha1 Hcd1), Hn1.
    apply register_all_twice.
  - intros n. unfold drivers_of. rewrite Hcd2. reflexivity.
Qed.

(** A controller with the six tables filled and the nodes of an earlier
    discovery in place; its temperature node has three drivers. *)
Lemma started_temperature_drivers :
  let s := started uom_sample polyinterface config_sample in
  temperature_list s = enabled T_temperature /\
  exists n, nodes s !! "temperature" = Some n /\
            drivers_of s n = [Driver "ST" (PInt 0) 17; Driver "GV0" (PInt 0) 17;
                              Driver "GV1" (PInt 0) 17].
Proof.
  cbv zeta. split; [vm_compute; reflexivity |].
  eexists. split; vm_compute; reflexivity.
Qed.

Lemma discover_idempotent_witness :
  let s := started uom_sample polyinterface config_sample in
  instance_copy polyinterface = true /\
  tables_ready uom_sample /\
  lists_known s /\
  temperature_list s = enabled T_temperature /\
  exists s1 s2,
    discover uom_sample polyinterface s = (s1, inr tt) /\
    discover uom_sample polyinterface s1 = (s2, inr tt) /\
    nodes s2 = nodes s1 /\
    exists n1 n2,
      nodes s1 !! "temperature" = Some n1 /\
      nodes s2 !! "temperature" = Some n2 /\
      length (drivers_of s1 n1) = 3%nat /\
      length (drivers_of s2 n2) = 3%nat.
Proof.
  cbv zeta.
  split; [reflexivity |].
  split; [exact tables_ready_sample |].
  split; [exact lists_known_started |].
  split; [exact (proj1 started_temperature_drivers) |].
  destruct (discover_idempotent uom_sample polyinterface
              (started uom_sample polyinterface config_sample) eq_refl
              tables_ready_sample lists_known_started)
    as (s1 & s2 & H1 & H2 & _ & Hn & Hd).
  exists s1, s2. split; [exact H1 |]. split; [exact H2 |].
  split; [exact Hn |].
  assert (H3 : exists n1, nodes s1 !! "temperature" = Some n1 /\
                          length (drivers_of s1 n1) = 3%nat).
  { assert (Hs1 : s1 = fst (discover uom_sample polyinterface
                              (started uom_sample polyinterface config_sample)))
      by (rewrite H1; reflexivity).
    rewrite Hs1. eexists. split; vm_compute; reflexivity. }
  destruct H3 as (n1 & Hn1 & Hl1).
  exists n1, n1. split; [exact Hn1 |]. split; [rewrite Hn; exact Hn1 |].
  split; [exact Hl1 |]. rewrite Hd. exact Hl1.
Defined.

(** The copy made by the host's constructor is what the property rests
    on.  Were [node.drivers] the class-level list itself, the appends of
    [discover] would accumulate in it: after two discoveries the
    temperature node would show six slots instead of three. *)
Definition aliasing_host : host :=
  {| instance_copy := false; installprofile_ok := true; _nodes := ∅ |}.

Remark discover_without_instance_copy :
  let s1 := started uom_sample aliasing_host config_sample in
  let s2 := fst (discover uom_sample aliasing_host s1) in
  (exists n, nodes s1 !! "temperature" = Some n /\
             length (drivers_of s1 n) = 3%nat) /\
  (exists n, nodes s2 !! "temperature" = Some n /\
             length (drivers_of s2 n) = 6%nat).
Proof.
  cbv zeta. split; eexists; split; vm_compute; reflexivity.
Qed.

(** ** The poll: an empty address, a status other than 200 *)

(** X25: with an empty device address [longPoll] prints one line and
    returns; no request is made, no driver is written, nothing is logged
    as an error, and the rest of the state is untouched. *)
Theorem longPoll_unconfigured uom json_loads net s :
  ip s = "" ->
  longPoll uom json_loads net s
    = (set_trace (trace s ++ [Print " -  No IP/URL for WiFiLogger2."]) s,
       inr tt) /\
  let s' := fst (longPoll uom json_loads net s) in
  nodes s' = nodes s /\ class_drivers s' = class_drivers s /\
  same_attrs s s' /\
  (forall e, e ∈ drop (length (trace s)) (trace s') ->
     e = Print " -  No IP/URL for WiFiLogger2.").
Proof.
  intros Hip.
  assert (Hrun : longPoll uom json_loads net s
                 = (set_trace (trace s ++ [Print " -  No IP/URL for WiFiLogger2."]) s,
                    inr tt)).
  { unfold longPoll. unfold mbind at 1. unfold get at 1. rewrite Hip.
    reflexivity. }
  split; [exact Hrun |]. rewrite Hrun. cbn [fst].
  split; [reflexivity |]. split; [reflexivity |]. split; [repeat split |].
  intros e. cbn [trace set_trace]. rewrite drop_app_length.
  intros He. apply list_elem_of_singleton in He. exact He.
Qed.

Lemma longPoll_unconfigured_witness :
  let s := Controller_init config_sample in
  ip s = "" /\
  longPoll uom_sample (fun _ => ok payload_sample)
    (fun _ => HttpResponse 200 "") s
  = (set_trace (trace s ++ [Print " -  No IP/URL for WiFiLogger2."]) s, inr tt).
Proof.
  cbv zeta. split; [reflexivity |].
  apply (longPoll_unconfigured uom_sample (fun _ => ok payload_sample)
           (fun _ => HttpResponse 200 "") (Controller_init config_sample)).
  reflexivity.
Defined.

(** X26: on a status other than 200 [get_data] logs the two warning lines
    and then parses the body; its result is [json.loads] of the body,
    the same as for status 200. *)
Theorem get_data_ignores_status json_loads net s status content :
  status <> 200 ->
  net (device_url s) = HttpResponse status content ->
  exists s',
    get_data json_loads net s = (s', json_loads content) /\
    trace s' = (trace s ++
                  [HttpGet (device_url s);
                   Syslog "Bad response from WiFiLogger2 " status;
                   Print " -  Bad response from WiFiLogger2. "])%list /\
    (forall net200,
       net200 (device_url s) = HttpResponse 200 content ->
       snd (get_data json_loads net200 s) = snd (get_data json_loads net s)).
Proof.
  intros Hstatus Hnet.
  destruct (get_data_response json_loads net s status content Hnet)
    as (s' & Hrun & Htr & _ & _).
  exists s'. split; [exact Hrun |]. split.
  - rewrite Htr. unfold fetch_events.
    destruct (Z.eqb_spec status 200); [contradiction | reflexivity].
  - intros net200 H200.
    destruct (get_data_response json_loads net200 s 200 content H200)
      as (s200 & Hrun200 & _).
    rewrite Hrun, Hrun200. reflexivity.
Qed.

Lemma get_data_ignores_status_witness :
  let s := started uom_sample polyinterface config_sample in
  let net := fun _ : string => HttpResponse 503 "{}" in
  let json_loads := fun _ : string => ok (PDict ∅) in
  503 <> 200 /\
  net (device_url s) = HttpResponse 503 "{}" /\
  exists s', get_data json_loads net s = (s', ok (PDict ∅)).
Proof.
  cbv zeta. split; [discriminate |]. split; [reflexivity |].
  destruct (get_data_ignores_status (fun _ => ok (PDict ∅))
              (fun _ => HttpResponse 503 "{}")
              (started uom_sample polyinterface config_sample) 503 "{}")
    as (s' & Hrun & _); [discriminate | reflexivity |].
  exists s'. exact Hrun.
Defined.

(** ** The node classes *)

(** A temperature field on which [float()] fails, as its node reports
    it. *)
Lemma reported_malformed_celsius (raw : pyvalue) (e : pyexn) :
  py_float raw = raise e ->
  rbind (celsius raw) (reported TemperatureNode) = ok (PFloat (-17.8)%float).
Proof.
  intros H. rewrite (celsius_malformed raw e H).
  change (ok (PFloat (round_float ((-160) / 9)%float 1))
          = ok (PFloat (-17.8)%float)).
  rewrite round_malformed_celsius. reflexivity.
Qed.

(** X27: [TemperatureNode.setDriver] hands [round(value, 1)] to the base
    method, with [report] and [force] set; the override of every other
    class hands the value over as it is, with the same flags.  A
    temperature field on which [float()] fails therefore reaches the host
    as [-17.8], which is not [-17.78]. *)
Theorem setDriver_rounds_temperature_only key n drv s :
  (node_class_of n = TemperatureNode ->
   forall f,
     setDriver key n drv (PFloat f) s
     = base_setDriver key n drv (PFloat (round_float f 1)) true true s) /\
  (node_class_of n <> TemperatureNode ->
   forall v,
     setDriver key n drv v s = base_setDriver key n drv v true true s) /\
  (node_class_of n = TemperatureNode ->
   forall raw e,
     py_float raw = raise e ->
     exists v,
       celsius raw = ok v /\
       setDriver key n drv v s
       = base_setDriver key n drv (PFloat (-17.8)%float) true true s) /\
  (-17.8)%float <> (-17.78)%float.
Proof.
  split; [| split; [| split]].
  - intros Hc f. unfold setDriver. rewrite Hc. reflexivity.
  - intros Hc v. unfold setDriver.
    destruct (node_class_of n); try reflexivity. contradiction.
  - intros Hc raw e Hraw. eexists. split; [apply (celsius_malformed raw e Hraw) |].
    unfold setDriver. rewrite Hc. munfold. unfold py_round.
    rewrite round_malformed_celsius. reflexivity.
  - intros H. apply (f_equal Prim2SF) in H. vm_compute in H. discriminate.
Qed.

Definition temperature_node_sample : node :=
  {| node_class_of := TemperatureNode; node_primary := "bb_meteohub";
     node_address := "temperature"; node_name := "Temperatures";
     node_units := "us"; node_drivers := Some [Driver "GV0" (PInt 0) 17] |}.

Lemma setDriver_rounds_temperature_only_witness :
  let s := Controller_init config_sample in
  node_class_of temperature_node_sample = TemperatureNode /\
  py_float (PStr "n/a") = raise ValueError /\
  setDriver "temperature" temperature_node_sample "GV0" (PFloat 1.26) s
  = base_setDriver "temperature" temperature_node_sample "GV0" (PFloat 1.3)
      true true s.
Proof.
  cbv zeta. split; [reflexivity |]. split; [vm_compute; reflexivity |].
  apply (proj1 (setDriver_rounds_temperature_only "temperature"
                  temperature_node_sample "GV0"
                  (Controller_init config_sample)) eq_refl 1.26%float).
Defined.

(** ** The mapper *)

(** The write a row makes for a payload that has its field. *)
Definition row_write (uom : uom_module) (m : gmap string pyvalue)
    (r : mapping) (ev : event) : Prop :=
  exists code raw,
    m_drvs r uom !! m_name r = Some code /\
    m !! m_field r = Some raw /\
    ev = BaseSetDriver (m_node r) code (written_value (m_temp r) raw) true true.

(** The driver maps have the names the mapping block uses. *)
Definition codes_ready (uom : uom_module) (rows : list mapping) : Prop :=
  Forall (fun r => is_Some (m_drvs r uom !! m_name r)) rows.

Definition fields_present (m : gmap string pyvalue) (rows : list mapping) : Prop :=
  Forall (fun r => is_Some (m !! m_field r)) rows.

Lemma expected_writes_complete uom m rows :
  codes_ready uom rows -> fields_present m rows ->
  exists evs,
    expected_writes uom m rows = (evs, None) /\
    Forall2 (row_write uom m) rows evs.
Proof.
  induction rows as [| r rows IH]; intros Hc Hf.
  - exists []. split; [reflexivity | constructor].
  - inversion Hc as [| ? ? [code Hcode] Hc']; subst.
    inversion Hf as [| ? ? [raw Hraw] Hf']; subst.
    destruct (IH Hc' Hf') as (evs & Hexp & Hall).
    eexists. cbn [expected_writes]. rewrite Hcode, Hraw, Hexp.
    split; [reflexivity |]. constructor; [| exact Hall].
    exists code, raw. auto.
Qed.

Lemma expected_writes_missing uom m pre r post :
  codes_ready uom (pre ++ [r]) -> fields_present m pre ->
  m !! m_field r = None ->
  exists evs,
    expected_writes uom m (pre ++ r :: post)
      = (evs, Some (KeyError (m_field r))) /\
    Forall2 (row_write uom m) pre evs.
Proof.
  induction pre as [| r0 pre IH]; intros Hc Hf Hnone.
  - exists []. cbn [app expected_writes].
    inversion Hc as [| ? ? [code Hcode] _]; subst. rewrite Hcode, Hnone.
    split; [reflexivity | constructor].
  - inversion Hc as [| ? ? [code Hcode] Hc']; subst.
    inversion Hf as [| ? ? [raw Hraw] Hf']; subst.
    destruct (IH Hc' Hf' Hnone) as (evs & Hexp & Hall).
    eexists. cbn [app expected_writes]. rewrite Hcode, Hraw, Hexp.
    split; [reflexivity |]. constructor; [| exact Hall].
    exists code, raw. auto.
Qed.

Lemma tables_ready_codes uom : tables_ready uom -> codes_ready uom mapping_table.
Proof.
  unfold tables_ready, discover_plan, codes_ready, mapping_table, has_keys.
  intros H.
  repeat match goal with
         | H : Forall _ (_ :: _) |- _ =>
             apply Forall_cons_1 in H; cbn in H; destruct H as [? H]
         | H : _ /\ _ |- _ => destruct H
         end.
  repeat constructor; cbn; assumption.
Qed.

(** What reaches the host for a field on which [float()] fails. *)
Lemma written_value_malformed (raw : pyvalue) (e : pyexn) :
  py_float raw = raise e ->
  written_value false raw = PInt 0 /\
  written_value true raw = PFloat (-17.8)%float.
Proof.
  intros H. unfold written_value, celsius_of, convert_to_float. rewrite H.
  split; [reflexivity |].
  change (PFloat (round_float ((-160) / 9)%float 1) = PFloat (-17.8)%float).
  rewrite round_malformed_celsius. reflexivity.
Qed.

Lemma ready_started : ready (started uom_sample polyinterface config_sample).
Proof.
  unfold ready, registered.
  repeat split; eexists; (split; [vm_compute; reflexivity | split; reflexivity]).
Qed.

Lemma fields_present_sample : fields_present sample_fields mapping_table.
Proof.
  unfold fields_present, mapping_table.
  repeat constructor; cbn [m_field]; eexists; vm_compute; reflexivity.
Qed.

(** An absent field is not mapped: with [dew] missing from the sample
    payload the poll writes the four fields that precede it, logs
    the lookup failure, and writes neither a default for [dew] nor any of
    the eight fields that follow. *)
Lemma absent_field_not_mapped :
  let s := started uom_sample polyinterface config_sample in
  let data := PDict (delete "dew" sample_fields) in
  let r := longPoll uom_sample (fun _ => ok data)
             (fun _ => HttpResponse 200 "") s in
  snd r = inr tt /\
  drop (length (trace s)) (trace (fst r))
  = [LogInfo "LongPoll"; HttpGet "http://192.168.1.20/wflexp.json";
     BaseSetDriver "light" "ST" (PFloat 3) true true;
     BaseSetDriver "light" "GV0" (PFloat 450) true true;
     BaseSetDriver "rain" "ST" (PFloat 0) true true;
     BaseSetDriver "rain" "GV5" (PFloat 0.25) true true;
     LogError "Failure while parsing WiFiLogger2 data. "
       (Some (KeyError "dew"))].
Proof.
  cbv zeta. split; [apply longPoll_returns |]. vm_compute. reflexivity.
Qed.

(** X28: the poll never ends in an exception.  A field on which
    [float()] fails is mapped to [0], which for the three temperature
    fields is [f_to_c(0)], about [-17.78], reported as [-17.8].  When the
    payload is a JSON object that has all thirteen fields, all thirteen
    writes are made, in order, whatever the values are.  A field that is
    absent is not mapped: its lookup error ends the mapping block after
    the writes of the rows before it. *)
Theorem malformed_fields_default uom json_loads net s m :
  snd (longPoll uom json_loads net s) = inr tt /\
  (forall raw e,
     py_float raw = raise e ->
     convert_to_float raw = PInt 0 /\
     py_float (PInt 0) = ok 0%float /\
     celsius raw = ok (PFloat ((-160) / 9)%float) /\
     round_float ((-160) / 9)%float 2 = (-17.78)%float /\
     written_value false raw = PInt 0 /\
     written_value true raw = PFloat (-17.8)%float) /\
  (ready s -> tables_ready uom -> fields_present m mapping_table ->
   exists s' evs,
     map_fields uom (PDict m) s = (s', inr tt) /\
     trace s' = (trace s ++ evs)%list /\
     Forall2 (row_write uom m) mapping_table evs) /\
  (ready s -> tables_ready uom ->
   forall pre r post,
     mapping_table = (pre ++ r :: post)%list ->
     fields_present m pre -> m !! m_field r = None ->
     exists s' evs,
       map_fields uom (PDict m) s = (s', inl (KeyError (m_field r))) /\
       trace s' = (trace s ++ evs)%list /\
       Forall2 (row_write uom m) pre evs).
Proof.
  split; [apply longPoll_returns |].
  split; [| split].
  - intros raw e Hraw.
    destruct (written_value_malformed raw e Hraw) as [Hp Ht].
    split; [unfold convert_to_float; rewrite Hraw; reflexivity |].
    split; [vm_compute; reflexivity |].
    split; [apply (celsius_malformed raw e Hraw) |].
    split; [vm_compute; reflexivity |].
    split; assumption.
  - intros Hready Htables Hfields.
    destruct (map_fields_spec uom m s Hready) as (s' & Hrun & Htr & _).
    destruct (expected_writes_complete uom m mapping_table
                (tables_ready_codes uom Htables) Hfields)
      as (evs & Hexp & Hall).
    rewrite Hexp in Hrun, Htr. exists s', evs. auto.
  - intros Hready Htables pre r post Hsplit Hfields Hnone.
    destruct (map_fields_spec uom m s Hready) as (s' & Hrun & Htr & _).
    destruct (expected_writes_missing uom m pre r post) as (evs & Hexp & Hall);
      [| exact Hfields | exact Hnone |].
    { pose proof (tables_ready_codes uom Htables) as Hc.
      unfold codes_ready in *. rewrite Hsplit in Hc.
      apply Forall_app in Hc. destruct Hc as [Hpre Hrest].
      apply Forall_app. split; [exact Hpre |].
      constructor; [| constructor]. apply Forall_cons_1 in Hrest. apply Hrest. }
    rewrite Hsplit in Hrun, Htr. rewrite Hexp in Hrun, Htr.
    exists s', evs. auto.
Qed.

(** A payload with every field present, two of them unusable. *)
Definition malformed_fields : gmap string pyvalue :=
  <["humout" := PStr "n/a"]> (<["dew" := PNone]> sample_fields).

Lemma malformed_fields_default_witness :
  let s := started uom_sample polyinterface config_sample in
  py_float (PStr "n/a") = raise ValueError /\
  ready s /\ tables_ready uom_sample /\
  fields_present malformed_fields mapping_table /\
  written_value true PNone = PFloat (-17.8)%float /\
  exists (s' : controller) (evs : list event),
    map_fields uom_sample (PDict malformed_fields) s = (s', inr tt) /\
    trace s' = (trace s ++ evs)%list /\
    length evs = 13%nat.
Proof.
  cbv zeta.
  pose proof (malformed_fields_default uom_sample (fun _ => ok payload_sample)
                (fun _ => HttpResponse 200 "")
                (started uom_sample polyinterface config_sample)
                malformed_fields) as (_ & Hbad & Hall & _).
  assert (Hf : fields_present malformed_fields mapping_table).
  { unfold fields_present, mapping_table.
    repeat constructor; cbn [m_field]; eexists; vm_compute; reflexivity. }
  split; [vm_compute; reflexivity |].
  split; [exact ready_started |].
  split; [exact tables_ready_sample |].
  split; [exact Hf |].
  split; [apply (Hbad PNone TypeError eq_refl) |].
  destruct (Hall ready_started tables_ready_sample Hf)
    as (s' & evs & Hrun & Htr & H13).
  exists s', evs. split; [exact Hrun |]. split; [exact Htr |].
  apply Forall2_length in H13. symmetry. exact H13.
Defined.

(** The events a poll appends to the trace. *)
Definition new_events (s s' : controller) : list event :=
  drop (length (trace s)) (trace s').

(** X29: [f_to_c(32) = 0.0] and [f_to_c(212) = 100.0]; the rows of the
    mapping block that go through [f_to_c] are those of [dew], [tempout]
    and [chill], and the block writes what [mapping_table] says; a poll
    that receives the sample response hands [20.0] to the main driver of
    the temperature node and [10.0] to its dewpoint driver. *)
Theorem f_to_c_temperature_fields :
  f_to_c (PFloat 32) = ok (PFloat 0) /\
  f_to_c (PFloat 212) = ok (PFloat 100) /\
  f_to_c (PInt 32) = ok (PFloat 0) /\
  f_to_c (PInt 212) = ok (PFloat 100) /\
  map m_field (List.filter m_temp mapping_table) = ["dew"; "tempout"; "chill"] /\
  (forall raw,
     celsius raw = f_to_c (convert_to_float raw) /\
     celsius raw = ok (PFloat (celsius_of raw)) /\
     written_value true raw = PFloat (round_float (celsius_of raw) 1) /\
     written_value false raw = convert_to_float raw) /\
  (forall uom m s,
     ready s ->
     exists s',
       map_fields uom (PDict m) s
         = (s', outcome (snd (expected_writes uom m mapping_table))) /\
       trace s' = (trace s ++ fst (expected_writes uom m mapping_table))%list) /\
  (forall uom json_loads net s status content c_main c_dew,
     ip s <> "" ->
     net (device_url s) = HttpResponse status content ->
     json_loads content = ok payload_sample ->
     ready s -> tables_ready uom ->
     TEMP_DRVS uom !! "main" = Some c_main ->
     TEMP_DRVS uom !! "dewpoint" = Some c_dew ->
     exists s',
       longPoll uom json_loads net s = (s', inr tt) /\
       BaseSetDriver "temperature" c_main (PFloat 20) true true
         ∈ new_events s s' /\
       BaseSetDriver "temperature" c_dew (PFloat 10) true true
         ∈ new_events s s').
Proof.
  split; [vm_compute; reflexivity |].
  split; [vm_compute; reflexivity |].
  split; [vm_compute; reflexivity |].
  split; [vm_compute; reflexivity |].
  split; [reflexivity |].
  split; [| split].
  - intros raw. split; [reflexivity |].
    split; [apply celsius_celsius_of |]. split; reflexivity.
  - intros uom m s Hready.
    destruct (map_fields_spec uom m s Hready) as (s' & Hrun & Htr & _).
    exists s'. auto.
  - intros uom json_loads net s status content c_main c_dew
      Hip Hnet Hjson Hready Htables Hmain Hdew.
    pose proof (longPoll_object uom json_loads net s status content
                  sample_fields Hip Hnet Hjson Hready) as Hpoll.
    destruct (expected_writes_complete uom sample_fields mapping_table
                (tables_ready_codes uom Htables) fields_present_sample)
      as (evs & Hexp & Hall).
    rewrite Hexp in Hpoll. destruct Hpoll as (s' & Hrun & Htr & _).
    exists s'. split; [exact Hrun |].
    unfold new_events. rewrite Htr, drop_app_length, app_nil_r.
    unfold mapping_table in Hall.
    repeat match goal with
           | H : Forall2 _ (_ :: _) _ |- _ =>
               apply Forall2_cons_inv_l in H;
               destruct H as (? & ? & ? & H & ->)
           | H : Forall2 _ [] _ |- _ => apply Forall2_nil_inv_l in H; subst
           end.
    repeat match goal with
           | H : row_write _ _ (Mapping "temperature" _ _ _ _) _ |- _ =>
               let Hc := fresh "Hc" in
               let Hr := fresh "Hr" in
               destruct H as (? & ? & Hc & Hr & ->); cbn in Hc, Hr;
               vm_compute in Hr; injection Hr as <-
           | H : row_write _ _ _ _ |- _ => clear H
           end.
    repeat match goal with
           | H : TEMP_DRVS uom !! _ = Some _ |- _ =>
               first [ rewrite Hmain in H | rewrite Hdew in H ];
               injection H as <-
           end.
    cbn [m_node m_temp].
    change (written_value true (PStr "68.0")) with (PFloat 20).
    change (written_value true (PStr "50")) with (PFloat 10).
    split; apply elem_of_cons; right; apply elem_of_app; right;
      repeat first [ apply list_elem_of_here | apply list_elem_of_further ].
Qed.

Lemma f_to_c_temperature_fields_witness :
  let s := started uom_sample polyinterface config_sample in
  let net := fun _ : string => HttpResponse 200 "" in
  let json_loads := fun _ : string => ok payload_sample in
  ip s <> "" /\
  net (device_url s) = HttpResponse 200 "" /\
  json_loads "" = ok payload_sample /\
  ready s /\ tables_ready uom_sample /\
  TEMP_DRVS uom_sample !! "main" = Some "ST" /\
  TEMP_DRVS uom_sample !! "dewpoint" = Some "GV0" /\
  exists s',
    longPoll uom_sample json_loads net s = (s', inr tt) /\
    BaseSetDriver "temperature" "ST" (PFloat 20) true true ∈ new_events s s' /\
    BaseSetDriver "temperature" "GV0" (PFloat 10) true true ∈ new_events s s'.
Proof.
  cbv zeta.
  assert (Hip : ip (started uom_sample polyinterface config_sample) <> "")
    by (vm_compute; discriminate).
  assert (Hmain : TEMP_DRVS uom_sample !! "main" = Some "ST")
    by (vm_compute; reflexivity).
  assert (Hdew : TEMP_DRVS uom_sample !! "dewpoint" = Some "GV0")
    by (vm_compute; reflexivity).
  split; [exact Hip |]. split; [reflexivity |]. split; [reflexivity |].
  split; [exact ready_started |]. split; [exact tables_ready_sample |].
  split; [exact Hmain |]. split; [exact Hdew |].
  apply (proj2 (proj2 (proj2 (proj2 (proj2 (proj2 (proj2
           f_to_c_temperature_fields)))))) uom_sample
           (fun _ => ok payload_sample) (fun _ => HttpResponse 200 "")
           (started uom_sample polyinterface config_sample) 200 ""
           "ST" "GV0" Hip eq_refl eq_refl ready_started tables_ready_sample
           Hmain Hdew).
Defined.

(** ** Rebuilding the node definitions *)

(** [discover] leaves the six nodes registered, for either behaviour of
    the host's constructor. *)
Lemma discover_ready uom h s :
  tables_ready uom -> lists_known s ->
  exists s' nds,
    discover uom h s = (s', inr tt) /\
    trace s' = (trace s ++ LogInfo "Creating nodes." ::
                  map (fun nd => AddNode nd.1 nd.2) nds)%list /\
    map (fun nd : node * list driver => (node_address nd.1, node_class_of nd.1)) nds
      = discovered_nodes /\
    same_attrs s s' /\ ready s'.
Proof.
  intros Hready Hknown.
  destruct (discover_spec uom h s Hready Hknown)
    as (s' & nds & ls & Hrun & Htr & Hn & Ha & Hls & Hb & _).
  exists s', nds. split; [exact Hrun |]. split; [exact Htr |].
  unfold discover_plan in Hls, Hb.
  repeat match goal with
         | H : Forall2 _ (_ :: _) _ |- _ =>
             apply Forall2_cons_inv_l in H;
             destruct H as (? & ? & ? & H & ->)
         | H : Forall2 _ [] _ |- _ => apply Forall2_nil_inv_l in H; subst
         end.
  cbn [zip zip_with] in Hb.
  repeat match goal with
         | H : Forall2 _ (_ :: _) _ |- _ =>
             apply Forall2_cons_inv_l in H;
             destruct H as ([? ?] & ? & ? & H & ->)
         | H : Forall2 _ [] _ |- _ => apply Forall2_nil_inv_l in H; subst
         end.
  repeat match goal with
         | H : built_by _ _ _ _ _ _ |- _ =>
             destruct H as (? & _ & ? & _ & _ & _)
         end.
  cbn [fst snd p_class p_addr] in *.
  split; [| split; [exact Ha |]].
  - unfold discovered_nodes, discover_plan. cbn [map fst snd p_addr p_class].
    repeat match goal with
           | H : node_address _ = _ |- _ => rewrite H; clear H
           | H : node_class_of _ = _ |- _ => rewrite H; clear H
           end.
    reflexivity.
  - unfold ready, registered. rewrite Hn.
    cbn [map fst register_all foldl].
    repeat match goal with
           | H : node_address _ = _ |- _ => rewrite H
           end.
    repeat split; eexists;
      (split; [repeat (rewrite lookup_insert_ne by discriminate);
               apply lookup_insert_eq
              | split; assumption]).
Qed.

(** What [discover] registers and what it leaves alone, for either
    behaviour of the host's constructor. *)
Lemma discover_other_entries uom h s :
  tables_ready uom -> lists_known s ->
  exists s' nds,
    discover uom h s = (s', inr tt) /\
    trace s' = (trace s ++ LogInfo "Creating nodes." ::
                  map (fun nd => AddNode nd.1 nd.2) nds)%list /\
    map (fun nd : node * list driver => (node_address nd.1, node_class_of nd.1)) nds
      = discovered_nodes /\
    same_attrs s s' /\
    (forall k, k ∉ map fst discovered_nodes -> nodes s' !! k = nodes s !! k).
Proof.
  intros Hready Hknown.
  destruct (discover_spec uom h s Hready Hknown)
    as (s' & nds & ls & Hrun & Htr & Hn & Ha & Hls & Hb & _).
  exists s', nds. split; [exact Hrun |]. split; [exact Htr |].
  assert (Hpairs : map (fun nd : node * list driver =>
                          (node_address nd.1, node_class_of nd.1)) nds
                   = discovered_nodes).
  { clear Hn. unfold discover_plan in Hls, Hb.
    repeat match goal with
           | H : Forall2 _ (_ :: _) _ |- _ =>
               apply Forall2_cons_inv_l in H;
               destruct H as (? & ? & ? & H & ->)
           | H : Forall2 _ [] _ |- _ => apply Forall2_nil_inv_l in H; subst
           end.
    cbn [zip zip_with] in Hb.
    repeat match goal with
           | H : Forall2 _ (_ :: _) _ |- _ =>
               apply Forall2_cons_inv_l in H;
               destruct H as ([? ?] & ? & ? & H & ->)
           | H : Forall2 _ [] _ |- _ => apply Forall2_nil_inv_l in H; subst
           end.
    repeat match goal with
           | H : built_by _ _ _ _ _ _ |- _ =>
               destruct H as (? & _ & ? & _ & _ & _)
           end.
    cbn [fst snd p_class p_addr] in *.
    unfold discovered_nodes, discover_plan. cbn [map fst snd p_addr p_class].
    repeat match goal with
           | H : node_address _ = _ |- _ => rewrite H; clear H
           | H : node_class_of _ = _ |- _ => rewrite H; clear H
           end.
    reflexivity. }
  split; [exact Hpairs |]. split; [exact Ha |].
  intros k Hk. rewrite Hn. apply register_all_other.
  rewrite <- Hpairs in Hk. rewrite !map_map in *. exact Hk.
Qed.

(** C2: [discover] has six blocks.  When it returns it has handed six
    nodes to [addNode], of the classes and under the addresses listed
    (the precipitation node under [rain]); none is a [LightningNode], the
    entry of [nodes] under [lightning] is what it was before the call,
    and [lightning_list] is not touched.  This holds for either behaviour
    of the host's constructor and whatever the host has stored. *)
Theorem discover_leaves_out_lightning uom h s :
  tables_ready uom -> lists_known s ->
  exists s' nds,
    discover uom h s = (s', inr tt) /\
    new_events s s'
    = LogInfo "Creating nodes." :: map (fun nd => AddNode nd.1 nd.2) nds /\
    map (fun nd : node * list driver => (node_address nd.1, node_class_of nd.1)) nds
    = [("temperature", TemperatureNode); ("humidity", HumidityNode);
       ("pressure", PressureNode); ("wind", WindNode);
       ("rain", PrecipitationNode); ("light", LightNode)] /\
    nodes s' !! "lightning" = nodes s !! "lightning" /\
    nodes s' !! "precipitation" = nodes s !! "precipitation" /\
    lightning_list s' = lightning_list s.
Proof.
  intros Hready Hknown.
  destruct (discover_other_entries uom h s Hready Hknown)
    as (s' & nds & Hrun & Htr & Hpairs & Ha & Hother).
  exists s', nds. split; [exact Hrun |]. split.
  { unfold new_events. rewrite Htr, drop_app_length. reflexivity. }
  split; [exact Hpairs |].
  assert (Hout : forall k, k ∉ ["temperature"; "humidity"; "pressure"; "wind";
                                "rain"; "light"] ->
                           nodes s' !! k = nodes s !! k) by exact Hother.
  split; [| split].
  - apply Hout. rewrite !not_elem_of_cons. repeat split; try discriminate.
    apply not_elem_of_nil.
  - apply Hout. rewrite !not_elem_of_cons. repeat split; try discriminate.
    apply not_elem_of_nil.
  - unfold same_attrs in Ha. destruct_and!. assumption.
Qed.

Lemma discover_leaves_out_lightning_witness :
  let s := started uom_sample polyinterface config_sample in
  tables_ready uom_sample /\ lists_known s /\
  exists s',
    discover uom_sample polyinterface s = (s', inr tt) /\
    nodes s' !! "lightning" = nodes s !! "lightning" /\
    lightning_list s' = lightning_list s.
Proof.
  cbv zeta.
  split; [exact tables_ready_sample |]. split; [exact lists_known_started |].
  destruct (discover_leaves_out_lightning uom_sample polyinterface
              (started uom_sample polyinterface config_sample)
              tables_ready_sample lists_known_started)
    as (s' & nds & Hrun & _ & _ & Hl & _ & Hll).
  exists s'. split; [exact Hrun |]. split; [exact Hl | exact Hll].
Defined.

(** The state with the six tables filled. *)
Definition with_tables (s : controller) : controller :=
  set_light_list (enabled T_light)
    (set_rain_list (enabled T_rain)
      (set_wind_list (enabled T_wind)
        (set_pressure_list (enabled T_pressure)
          (set_humidity_list (enabled T_humidity)
            (set_temperature_list (enabled T_temperature) s))))).

(** The events of rebuilding the node definitions. *)
Definition profile_events (h : host) (s : controller) : list event :=
  [LogInfo "Creating node definition profile based on config.";
   WriteProfile [enabled T_temperature; enabled T_humidity;
                 enabled T_pressure; enabled T_wind; enabled T_rain;
                 enabled T_light; lightning_list s];
   InstallProfile] ++
  (if installprofile_ok h then []
   else [LogError "Failed up push profile to ISY" None]).

Lemma set_trace_set_trace t t' s :
  set_trace t (set_trace t' s) = set_trace t s.
Proof. reflexivity. Qed.

Lemma setup_nodedefs_spec h u s :
  lists_known s ->
  setup_nodedefs h u s
  = (set_trace (trace s ++ profile_events h s) (with_tables s), inr tt).
Proof.
  intros Hknown.
  pose proof (Hknown T_temperature) as Ht. pose proof (Hknown T_humidity) as Hh.
  pose proof (Hknown T_pressure) as Hp. pose proof (Hknown T_wind) as Hw.
  pose proof (Hknown T_rain) as Hr. pose proof (Hknown T_light) as Hl.
  clear Hknown.
  destruct s as [adr i un tl hl pl wl rl ll lgl mc pc nd cd nt tr].
  cbn [table_of temperature_list humidity_list pressure_list wind_list
       rain_list light_list] in Ht, Hh, Hp, Hw, Hr, Hl.
  assert (Ht' : odict_set "windchill" "I_TEMP_F"
                  (odict_set "dewpoint" "I_TEMP_F"
                     (odict_set "main" "I_TEMP_F" tl))
                = enabled T_temperature)
    by (destruct Ht as [-> | ->]; reflexivity).
  assert (Hh' : odict_set "main" "I_HUMIDITY" hl = enabled T_humidity)
    by (destruct Hh as [-> | ->]; reflexivity).
  assert (Hp' : odict_set "sealevel" "I_INHG" (odict_set "station" "I_INHG" pl)
                = enabled T_pressure)
    by (destruct Hp as [-> | ->]; reflexivity).
  assert (Hw' : odict_set "winddir" "I_DEGREE"
                  (odict_set "gustspeed" "I_MPH"
                     (odict_set "windspeed" "I_MPH" wl))
                = enabled T_wind)
    by (destruct Hw as [-> | ->]; reflexivity).
  assert (Hr' : odict_set "total" "I_INCHES" (odict_set "rate" "I_INHR" rl)
                = enabled T_rain)
    by (destruct Hr as [-> | ->]; reflexivity).
  assert (Hl' : odict_set "solar_radiation" "I_RADIATION"
                  (odict_set "uv" "I_UV" ll)
                = enabled T_light)
    by (destruct Hl as [-> | ->]; reflexivity).
  clear Ht Hh Hp Hw Hr Hl.
  unfold setup_nodedefs, installprofile, profile_events, with_tables.
  repeat munfold.
  cbn -[odict_set enabled]. rewrite Ht', Hh', Hp', Hw', Hr', Hl'.
  destruct (installprofile_ok h); cbn -[enabled];
    rewrite !set_trace_set_trace, <- !app_assoc; reflexivity.
Qed.

Lemma with_tables_set s : lists_set (with_tables s).
Proof. intros t. destruct t; reflexivity. Qed.

Lemma lists_set_known s : lists_set s -> lists_known s.
Proof. intros H t. right. apply H. Qed.

(** The controller after [set_configuration] and [setup_nodedefs] on a
    changed block: the address and the unit system are read from the
    block, the tables are filled, the profile is written and pushed. *)
Definition reconfigured (h : host) (params : gmap string string)
    (s : controller) : controller :=
  let s0 := set_units (default "us" (params !! "Units"))
              (set_ip (default "" (params !! "IPAddress"))
                 (set_trace (trace s ++
                    [LogInfo "New configuration, updating configuration";
                     LogInfo "Check for existing configuration value"]) s)) in
  set_trace (trace s0 ++ profile_events h s0) (with_tables s0).

(** * Further properties of the controller *)

(** ** Configuration changes: [process_config] *)

Lemma set_configuration_spec cfg params s :
  customParams cfg = Some params ->
  set_configuration cfg s
  = (set_units (default "us" (params !! "Units"))
       (set_ip (default "" (params !! "IPAddress"))
          (set_trace (trace s ++ [LogInfo "Check for existing configuration value"]) s)),
     inr (default "us" (params !! "Units"))).
Proof.
  intros Hcfg. unfold set_configuration. rewrite Hcfg.
  repeat munfold. reflexivity.
Qed.

Definition finish (params : gmap string string) (s3 : controller) : controller :=
  let s4 := set_notices []
              (set_trace (trace s3 ++ [RemoveNoticesAll]) (set_myConfig params s3)) in
  if String.eqb (ip s3) ""
  then set_notices [ip_notice] (set_trace (trace s4 ++ [AddNotice ip_notice]) s4)
  else s4.

Lemma process_config_changed uom h cfg params s :
  customParams cfg = Some params -> params <> myConfig s -> lists_known s ->
  process_config uom h cfg s
  = match discover uom h (reconfigured h params s) with
    | (s3, inr _) => (finish params s3, inr tt)
    | (s3, inl e) => (s3, inl e)
    end.
Proof.
  intros Hcfg Hne Hknown.
  unfold process_config. rewrite Hcfg.
  unfold mbind at 1. unfold get at 1.
  destruct (decide (params <> myConfig s)) as [_ | Hc]; [| contradiction].
  unfold mbind at 1. unfold emit at 1. unfold modify at 1.
  unfold mbind at 1. rewrite (set_configuration_spec cfg params _ Hcfg).
  unfold mbind at 1. unfold get at 1.
  unfold mbind at 1.
  rewrite setup_nodedefs_spec.
  2:{ intros t. destruct (Hknown t) as [H | H]; [left | right];
      rewrite <- H; destruct t; reflexivity. }
  match goal with |- ?m ?x = _ =>
    replace x with (reconfigured h params s)
  end.
  2:{ unfold reconfigured. destruct s. cbn -[enabled]. 
      rewrite <- !app_assoc. reflexivity. }
  unfold mbind at 1.
  destruct (discover uom h (reconfigured h params s)) as [s3 [e | []]];
    [reflexivity |].
  repeat munfold. unfold removeNoticesAll, addNotice, finish. repeat munfold.
  cbn [ip set_notices set_trace set_myConfig].
  destruct (String.eqb (ip s3) ""); reflexivity.
Qed.

Lemma reconfigured_facts h params s :
  lists_known s ->
  let r := reconfigured h params s in
  ip r = default "" (params !! "IPAddress") /\
  units r = default "us" (params !! "Units") /\
  myConfig r = myConfig s /\ notices r = notices s /\ nodes r = nodes s /\
  lists_set r /\
  trace r = (trace s ++
               [LogInfo "New configuration, updating configuration";
                LogInfo "Check for existing configuration value"] ++
               profile_events h s)%list.
Proof.
  intros Hknown. unfold reconfigured. destruct s.
  cbn -[enabled profile_events].
  repeat split; try reflexivity.
  - intros t. destruct t; reflexivity.
  - rewrite <- app_assoc. reflexivity.
Qed.

Lemma finish_facts params s3 :
  let s' := finish params s3 in
  ip s' = ip s3 /\ units s' = units s3 /\ myConfig s' = params /\
  nodes s' = nodes s3 /\
  (forall t, table_of t s' = table_of t s3) /\
  notices s' = (if String.eqb (ip s3) "" then [ip_notice] else []) /\
  trace s' = (trace s3 ++ RemoveNoticesAll ::
                (if String.eqb (ip s3) "" then [AddNotice ip_notice] else []))%list.
Proof.
  unfold finish.
  destruct s3 as [adr i un tl hl pl wl rl ll lgl mc pc nd cd nt tr]. cbn.
  destruct (String.eqb i ""); cbn; repeat split;
    try (intros t; destruct t; reflexivity).
  rewrite <- app_assoc. reflexivity.
Qed.

Lemma process_config_changed_spec uom h cfg params s :
  customParams cfg = Some params -> params <> myConfig s ->
  tables_ready uom -> lists_known s ->
  exists s' nds,
    process_config uom h cfg s = (s', inr tt) /\
    ip s' = default "" (params !! "IPAddress") /\
    units s' = default "us" (params !! "Units") /\
    myConfig s' = params /\ lists_set s' /\ ready s' /\
    notices s' = (if String.eqb (ip s') "" then [ip_notice] else []) /\
    trace s' =
      (trace s ++
         [LogInfo "New configuration, updating configuration";
          LogInfo "Check for existing configuration value"] ++
         profile_events h s ++
         LogInfo "Creating nodes." :: map (fun nd => AddNode nd.1 nd.2) nds ++
         RemoveNoticesAll ::
         (if String.eqb (ip s') "" then [AddNotice ip_notice] else []))%list /\
    map (fun nd : node * list driver => (node_address nd.1, node_class_of nd.1)) nds
      = discovered_nodes.
Proof.
  intros Hcfg Hne Hready Hknown.
  destruct (reconfigured_facts h params s Hknown)
    as (Hip & Hun & Hmc & Hnt & Hnd & Hset & Htr).
  destruct (discover_ready uom h (reconfigured h params s) Hready
              (lists_set_known _ Hset))
    as (s3 & nds & Hrun & Htr3 & Hnds & Ha3 & Hready3).
  destruct (finish_facts params s3) as (Fip & Fun & Fmc & Fnd & Ftab & Fnt & Ftr).
  assert (ip s3 = ip (reconfigured h params s) /\
          units s3 = units (reconfigured h params s)) as [Hip3 Hun3].
  { unfold same_attrs in Ha3. destruct_and!. split; assumption. }
  exists (finish params s3), nds.
  split.
  { rewrite (process_config_changed uom h cfg params s Hcfg Hne Hknown), Hrun.
    reflexivity. }
  split; [congruence |]. split; [congruence |]. split; [exact Fmc |].
  split.
  { intros t. rewrite Ftab, (table_of_same_attrs t _ _ Ha3). apply Hset. }
  split; [eapply ready_same_nodes; [exact Fnd | exact Hready3] |].
  split; [rewrite Fnt, Fip; reflexivity |].
  split; [| exact Hnds].
  rewrite Ftr, Htr3, Htr, Fip, <- !app_assoc. cbn [app]. reflexivity.
Qed.

Lemma process_config_no_block uom h cfg s :
  customParams cfg = None -> process_config uom h cfg s = (s, inr tt).
Proof. intros Hcfg. unfold process_config. rewrite Hcfg. reflexivity. Qed.

Lemma process_config_cached uom h cfg s :
  customParams cfg = Some (myConfig s) ->
  process_config uom h cfg s = (s, inr tt).
Proof.
  intros Hcfg. unfold process_config. rewrite Hcfg.
  unfold mbind at 1. unfold get at 1.
  destruct (decide (myConfig s <> myConfig s)) as [Hne | _];
    [contradiction | reflexivity].
Qed.

(** X1: a configuration without the [customParams] key, or with a block
    equal to the cached one, leaves the controller exactly as it was: no
    event, no change of any attribute. *)
Theorem process_config_unchanged uom h cfg s :
  customParams cfg = None \/ customParams cfg = Some (myConfig s) ->
  process_config uom h cfg s = (s, inr tt).
Proof.
  intros [Hcfg | Hcfg];
    [apply process_config_no_block | apply process_config_cached]; exact Hcfg.
Qed.

(** The configuration the host holds once the controller has started
    with [config_sample]: [check_params] has added the unit system. *)
Definition config_stored : config :=
  {| customParams :=
       Some (list_to_map [("IPAddress", "192.168.1.20"); ("Units", "us")]) |}.

Lemma process_config_unchanged_witness :
  let s := started uom_sample polyinterface config_sample in
  (customParams config_stored = None \/
   customParams config_stored = Some (myConfig s)) /\
  polyConfig s = config_stored /\
  process_config uom_sample polyinterface config_stored s = (s, inr tt).
Proof.
  cbv zeta.
  assert (H : customParams config_stored = None \/
              customParams config_stored
              = Some (myConfig (started uom_sample polyinterface config_sample)))
    by (right; vm_compute; reflexivity).
  split; [exact H |]. split; [vm_compute; reflexivity |].
  apply (process_config_unchanged uom_sample polyinterface config_stored
           (started uom_sample polyinterface config_sample) H).
Defined.

(** X2: a block that differs from the cached one is processed to the end
    when the [uom] tables are complete: the address and unit system are
    re-read with their defaults, the six tables are filled, the profile is
    written and pushed, the six nodes are registered again, the block is
    cached, the notices are cleared, and the address notice is the only
    notice left exactly when the address is empty. *)
Theorem process_config_rebuilds uom h cfg params s :
  customParams cfg = Some params -> params <> myConfig s ->
  tables_ready uom -> lists_known s ->
  exists s' nds,
    process_config uom h cfg s = (s', inr tt) /\
    ip s' = default "" (params !! "IPAddress") /\
    units s' = default "us" (params !! "Units") /\
    myConfig s' = params /\ lists_set s' /\ ready s' /\
    notices s' = (if String.eqb (ip s') "" then [ip_notice] else []) /\
    trace s' =
      (trace s ++
         [LogInfo "New configuration, updating configuration";
          LogInfo "Check for existing configuration value"] ++
         profile_events h s ++
         LogInfo "Creating nodes." :: map (fun nd => AddNode nd.1 nd.2) nds ++
         RemoveNoticesAll ::
         (if String.eqb (ip s') "" then [AddNotice ip_notice] else []))%list /\
    map (fun nd : node * list driver => (node_address nd.1, node_class_of nd.1)) nds
      = discovered_nodes.
Proof. apply process_config_changed_spec. Qed.

(** A block that moves the device to another address. *)
Definition config_moved : config :=
  {| customParams := Some (list_to_map [("IPAddress", "10.0.0.5")]) |}.

Lemma config_moved_differs :
  (list_to_map [("IPAddress", "10.0.0.5")] : gmap string string)
  <> myConfig (started uom_sample polyinterface config_sample).
Proof.
  intros H. apply (f_equal (fun m : gmap string string => m !! "IPAddress")) in H.
  vm_compute in H. discriminate.
Qed.

Lemma process_config_rebuilds_witness :
  let s := started uom_sample polyinterface config_sample in
  let params : gmap string string := list_to_map [("IPAddress", "10.0.0.5")] in
  customParams config_moved = Some params /\
  params <> myConfig s /\
  tables_ready uom_sample /\ lists_known s /\
  exists s',
    process_config uom_sample polyinterface config_moved s = (s', inr tt) /\
    ip s' = "10.0.0.5" /\ notices s' = [].
Proof.
  cbv zeta.
  split; [reflexivity |]. split; [exact config_moved_differs |].
  split; [exact tables_ready_sample |]. split; [exact lists_known_started |].
  destruct (process_config_rebuilds uom_sample polyinterface config_moved
              (list_to_map [("IPAddress", "10.0.0.5")])
              (started uom_sample polyinterface config_sample)
              eq_refl config_moved_differs tables_ready_sample
              lists_known_started)
    as (s' & nds & Hrun & Hip & _ & _ & _ & _ & Hnt & _).
  exists s'. split; [exact Hrun |]. split; [exact Hip |].
  rewrite Hnt, Hip. reflexivity.
Defined.

(** X3: processing the same configuration a second time does nothing:
    whatever the first call did, it cached the block, so the second call
    returns the state it is given. *)
Theorem process_config_twice uom h cfg s :
  tables_ready uom -> lists_known s ->
  exists s',
    process_config uom h cfg s = (s', inr tt) /\
    process_config uom h cfg s' = (s', inr tt).
Proof.
  intros Hready Hknown.
  destruct (customParams cfg) as [params |] eqn:Hcfg.
  - destruct (decide (params = myConfig s)) as [-> | Hne].
    + exists s. split; apply process_config_cached; exact Hcfg.
    + destruct (process_config_changed_spec uom h cfg params s Hcfg Hne
                  Hready Hknown)
        as (s' & nds & Hrun & _ & _ & Hmc & _).
      exists s'. split; [exact Hrun |].
      apply process_config_cached. rewrite Hcfg, Hmc. reflexivity.
  - exists s. split; apply process_config_no_block; exact Hcfg.
Qed.

Lemma process_config_twice_witness :
  let s := started uom_sample polyinterface config_sample in
  tables_ready uom_sample /\ lists_known s /\
  exists s',
    process_config uom_sample polyinterface config_moved s = (s', inr tt) /\
    process_config uom_sample polyinterface config_moved s' = (s', inr tt).
Proof.
  cbv zeta.
  split; [exact tables_ready_sample |]. split; [exact lists_known_started |].
  apply (process_config_twice uom_sample polyinterface config_moved
           (started uom_sample polyinterface config_sample)
           tables_ready_sample lists_known_started).
Defined.

(** ** Start-up: [check_params] and [start] *)

(** The custom-parameters block once [addCustomParam] has put the address
    and the unit system in it. *)
Definition with_defaults (params : gmap string string) : gmap string string :=
  <["Units" := default "us" (params !! "Units")]>
    (<["IPAddress" := default "" (params !! "IPAddress")]> params).

Lemma with_defaults_id params i u :
  params !! "IPAddress" = Some i -> params !! "Units" = Some u ->
  with_defaults params = params.
Proof.
  intros Hi Hu. unfold with_defaults. rewrite Hi, Hu. cbn.
  rewrite (insert_id params "IPAddress" i Hi). apply insert_id, Hu.
Qed.

Lemma check_params_spec h params s :
  customParams (polyConfig s) = Some params -> lists_known s ->
  exists s',
    check_params h s = (s', inr tt) /\
    ip s' = default "" (params !! "IPAddress") /\
    units s' = default "us" (params !! "Units") /\
    myConfig s' = with_defaults params /\ lists_set s' /\
    nodes s' = nodes s /\ class_drivers s' = class_drivers s /\
    polyConfig s' = {| customParams := Some (with_defaults params) |} /\
    notices s' = (if String.eqb (ip s') "" then [ip_notice] else []) /\
    trace s' =
      (trace s ++
         LogInfo "Check for existing configuration value" ::
         profile_events h s ++
         [LogInfo "Adding configuration";
          AddCustomParam [("IPAddress", ip s'); ("Units", units s')];
          LogInfo "remove all notices"; RemoveNoticesAll] ++
         (if String.eqb (ip s') "" then [AddNotice ip_notice] else []))%list.
Proof.
  intros Hcfg Hknown. unfold check_params.
  unfold mbind at 1. unfold get at 1.
  unfold mbind at 1. rewrite (set_configuration_spec _ params _ Hcfg).
  unfold mbind at 1. unfold get at 1.
  unfold mbind at 1. rewrite setup_nodedefs_spec.
  2:{ intros t. destruct (Hknown t) as [H | H]; [left | right];
      rewrite <- H; destruct t; reflexivity. }
  unfold addCustomParam.
  repeat munfold. unfold removeNoticesAll, addNotice. repeat munfold.
  destruct s as [adr i un tl hl pl wl rl ll lgl mc pc nd cd nt tr].
  cbn [polyConfig] in Hcfg.
  cbn -[enabled profile_events String.eqb insert]. rewrite Hcfg.
  cbn -[enabled profile_events String.eqb insert].
  destruct (String.eqb (default "" (params !! "IPAddress")) "") eqn:Hip;
    (eexists; split; [reflexivity |]); cbn -[enabled profile_events String.eqb];
    rewrite ?Hip;
    (repeat split; try reflexivity;
     [ intros t; destruct t; reflexivity
     | rewrite <- !app_assoc; reflexivity ]).
Qed.

Lemma lists_known_set_trace t s : lists_known s -> lists_known (set_trace t s).
Proof.
  intros H t0. destruct (H t0) as [H0 | H0]; [left | right];
    rewrite <- H0; destruct t0; reflexivity.
Qed.

Lemma start_spec uom h params s :
  customParams (polyConfig s) = Some params ->
  tables_ready uom -> lists_known s ->
  exists s' nds,
    start uom h s = (s', inr tt) /\
    ip s' = default "" (params !! "IPAddress") /\
    units s' = default "us" (params !! "Units") /\
    myConfig s' = with_defaults params /\
    polyConfig s' = {| customParams := Some (with_defaults params) |} /\
    lists_set s' /\ ready s' /\
    notices s' = (if String.eqb (ip s') "" then [ip_notice] else []) /\
    trace s' =
      (trace s ++
         LogInfo "Starting WiFiLogger2 Node Server" ::
         LogInfo "Check for existing configuration value" ::
         profile_events h s ++
         [LogInfo "Adding configuration";
          AddCustomParam [("IPAddress", ip s'); ("Units", units s')];
          LogInfo "remove all notices"; RemoveNoticesAll] ++
         (if String.eqb (ip s') "" then [AddNotice ip_notice] else []) ++
         LogInfo "Creating nodes." :: map (fun nd => AddNode nd.1 nd.2) nds ++
         [LogInfo "WiFiLogger2 Node Server Started."])%list /\
    map (fun nd : node * list driver => (node_address nd.1, node_class_of nd.1)) nds
      = discovered_nodes.
Proof.
  intros Hcfg Hready Hknown.
  set (s0 := set_trace (trace s ++ [LogInfo "Starting WiFiLogger2 Node Server"]) s).
  destruct (check_params_spec h params s0 Hcfg (lists_known_set_trace _ s Hknown))
    as (s1 & Hrun1 & Hip1 & Hun1 & Hmc1 & Hset1 & Hnd1 & _ & Hpc1 & Hnt1 & Htr1).
  destruct (discover_ready uom h s1 Hready (lists_set_known _ Hset1))
    as (s2 & nds & Hrun2 & Htr2 & Hnds & Ha2 & Hready2).
  assert (ip s2 = ip s1 /\ units s2 = units s1 /\ myConfig s2 = myConfig s1 /\
          polyConfig s2 = polyConfig s1 /\ notices s2 = notices s1)
    as (Hip2 & Hun2 & Hmc2 & Hpc2 & Hnt2).
  { unfold same_attrs in Ha2. destruct_and!. repeat split; assumption. }
  exists (set_trace (trace s2 ++ [LogInfo "WiFiLogger2 Node Server Started."]) s2), nds.
  split.
  { unfold start. unfold mbind at 1. unfold emit at 1. unfold modify at 1.
    fold s0. unfold mbind at 1. rewrite Hrun1.
    unfold mbind at 1. rewrite Hrun2. reflexivity. }
  change (ip (set_trace _ s2)) with (ip s2).
  change (units (set_trace _ s2)) with (units s2).
  split; [congruence |]. split; [congruence |]. split; [cbn; congruence |].
  split; [cbn; rewrite Hpc2, Hpc1; reflexivity |].
  split.
  { intros t. transitivity (table_of t s2); [destruct t; reflexivity |].
    rewrite (table_of_same_attrs t _ _ Ha2). apply Hset1. }
  split; [eapply ready_same_nodes; [| exact Hready2]; reflexivity |].
  split; [cbn; rewrite Hnt2, Hnt1, Hip2; reflexivity |].
  split; [| exact Hnds].
  cbn [trace set_trace]. rewrite Htr2, Htr1, Hip2, Hun2.
  subst s0. cbn [trace set_trace].
  change (profile_events h (set_trace _ s)) with (profile_events h s).
  repeat (rewrite <- app_assoc || rewrite <- app_comm_cons). cbn [app].
  reflexivity.
Qed.

Lemma start_unconfigured uom h s :
  customParams (polyConfig s) = None ->
  start uom h s
  = (set_trace (trace s ++
                  [LogInfo "Starting WiFiLogger2 Node Server";
                   LogInfo "Check for existing configuration value"]) s,
     inl (KeyError "customParams")).
Proof.
  intros Hcfg. unfold start, check_params, set_configuration.
  repeat munfold. cbn [polyConfig set_trace]. rewrite Hcfg.
  unfold raise. cbv beta iota.
  rewrite set_trace_set_trace. cbn [trace set_trace].
  rewrite <- app_assoc. reflexivity.
Qed.

Lemma check_params_unconfigured h s :
  customParams (polyConfig s) = None ->
  check_params h s
  = (set_trace (trace s ++ [LogInfo "Check for existing configuration value"]) s,
     inl (KeyError "customParams")).
Proof.
  intros Hcfg. unfold check_params, set_configuration.
  repeat munfold. rewrite Hcfg. reflexivity.
Qed.

(** X4: [check_params] reads the address and the unit system from the
    stored configuration, with [""] and ["us"] for a missing key, fills
    the tables, and hands both parameters to [addCustomParam], which puts
    them into the stored block; it caches the block as it then is, with
    both parameters in it, and leaves the address notice as the only
    notice exactly when the address is empty; the nodes are not touched.
    When the stored configuration has no [customParams] key it raises
    [KeyError] after its first log line, before any of this. *)
Theorem check_params_caches_block h s :
  (customParams (polyConfig s) = None ->
   check_params h s
   = (set_trace (trace s ++ [LogInfo "Check for existing configuration value"]) s,
      inl (KeyError "customParams"))) /\
  (forall params,
     customParams (polyConfig s) = Some params -> lists_known s ->
     exists s',
       check_params h s = (s', inr tt) /\
       ip s' = default "" (params !! "IPAddress") /\
       units s' = default "us" (params !! "Units") /\
       myConfig s'
       = <["Units" := units s']> (<["IPAddress" := ip s']> params) /\
       customParams (polyConfig s') = Some (myConfig s') /\
       lists_set s' /\
       nodes s' = nodes s /\
       notices s' = (if String.eqb (ip s') "" then [ip_notice] else []) /\
       AddCustomParam [("IPAddress", ip s'); ("Units", units s')]
         ∈ new_events s s').
Proof.
  split; [apply check_params_unconfigured |].
  intros params Hcfg Hknown.
  destruct (check_params_spec h params s Hcfg Hknown)
    as (s' & Hrun & Hip & Hun & Hmc & Hset & Hnd & _ & Hpc & Hnt & Htr).
  exists s'. do 3 (split; [assumption |]).
  split; [rewrite Hmc, Hip, Hun; reflexivity |].
  split; [rewrite Hpc, Hmc; reflexivity |].
  do 3 (split; [assumption |]).
  unfold new_events. rewrite Htr, drop_app_length.
  apply list_elem_of_further, elem_of_app. right.
  apply list_elem_of_further, list_elem_of_here.
Qed.

Lemma check_params_caches_block_witness :
  let s := Controller_init config_sample in
  let params : gmap string string := list_to_map [("IPAddress", "192.168.1.20")] in
  customParams (polyConfig s) = Some params /\ lists_known s /\
  params !! "Units" = None /\
  exists s',
    check_params polyinterface s = (s', inr tt) /\
    myConfig s' !! "Units" = Some "us" /\
    customParams (polyConfig s') = Some (myConfig s') /\
    ip s' = "192.168.1.20" /\ units s' = "us".
Proof.
  cbv zeta. split; [reflexivity |].
  split; [exact (lists_known_init config_sample) |].
  split; [reflexivity |].
  destruct (proj2 (check_params_caches_block polyinterface
                     (Controller_init config_sample))
              (list_to_map [("IPAddress", "192.168.1.20")]) eq_refl
              (lists_known_init config_sample))
    as (s' & Hrun & Hip & Hun & Hmc & Hpc & _).
  exists s'. split; [exact Hrun |].
  split; [rewrite Hmc, Hun; apply lookup_insert_eq |].
  split; [exact Hpc |]. split; [exact Hip | exact Hun].
Defined.

(** X5: with a [customParams] block in the stored configuration and
    complete [uom] tables, [start] returns with the six nodes registered,
    the notices settled and its last log line being the "Started" one.
    The stored block then holds the address and the unit system, and it
    is that block which is cached: a configuration event that delivers
    the stored configuration changes nothing. *)
Theorem start_registers_nodes uom h params s :
  customParams (polyConfig s) = Some params ->
  tables_ready uom -> lists_known s ->
  exists s',
    start uom h s = (s', inr tt) /\
    ready s' /\ lists_set s' /\
    ip s' = default "" (params !! "IPAddress") /\
    units s' = default "us" (params !! "Units") /\
    myConfig s'
    = <["Units" := units s']> (<["IPAddress" := ip s']> params) /\
    customParams (polyConfig s') = Some (myConfig s') /\
    notices s' = (if String.eqb (ip s') "" then [ip_notice] else []) /\
    last (trace s') = Some (LogInfo "WiFiLogger2 Node Server Started.") /\
    process_config uom h (polyConfig s') s' = (s', inr tt).
Proof.
  intros Hcfg Hready Hknown.
  destruct (start_spec uom h params s Hcfg Hready Hknown)
    as (s' & nds & Hrun & Hip & Hun & Hmc & Hpc & Hset & Hrdy & Hnt & Htr & _).
  exists s'. split; [exact Hrun |]. split; [exact Hrdy |].
  split; [exact Hset |]. split; [exact Hip |]. split; [exact Hun |].
  split; [rewrite Hmc, Hip, Hun; reflexivity |].
  split; [rewrite Hpc, Hmc; reflexivity |].
  split; [exact Hnt |]. split.
  - rewrite Htr.
    repeat (rewrite app_assoc || rewrite app_comm_cons).
    apply last_snoc.
  - apply process_config_cached. rewrite Hpc, Hmc. reflexivity.
Qed.

Lemma start_registers_nodes_witness :
  let s := Controller_init config_sample in
  let params : gmap string string := list_to_map [("IPAddress", "192.168.1.20")] in
  customParams (polyConfig s) = Some params /\
  tables_ready uom_sample /\ lists_known s /\
  exists s',
    start uom_sample polyinterface s = (s', inr tt) /\ ready s' /\
    notices s' = [] /\
    myConfig s' !! "Units" = Some "us" /\
    process_config uom_sample polyinterface (polyConfig s') s' = (s', inr tt).
Proof.
  cbv zeta. split; [reflexivity |]. split; [exact tables_ready_sample |].
  split; [exact (lists_known_init config_sample) |].
  destruct (start_registers_nodes uom_sample polyinterface
              (list_to_map [("IPAddress", "192.168.1.20")])
              (Controller_init config_sample) eq_refl tables_ready_sample
              (lists_known_init config_sample))
    as (s' & Hrun & Hrdy & _ & Hip & Hun & Hmc & _ & Hnt & _ & Hpc).
  exists s'. split; [exact Hrun |]. split; [exact Hrdy |].
  split; [rewrite Hnt, Hip; reflexivity |].
  split; [rewrite Hmc, Hun; apply lookup_insert_eq | exact Hpc].
Defined.

(** X6: when the stored configuration has no [customParams] key, [start]
    raises [KeyError] out of [check_params]: two lines are logged, no
    table is filled, no node is registered, no notice is changed, and the
    "Started" line is never logged. *)
Theorem start_without_customParams uom h s :
  customParams (polyConfig s) = None ->
  start uom h s
  = (set_trace (trace s ++
                  [LogInfo "Starting WiFiLogger2 Node Server";
                   LogInfo "Check for existing configuration value"]) s,
     inl (KeyError "customParams")) /\
  let s' := fst (start uom h s) in
  nodes s' = nodes s /\ notices s' = notices s /\
  (forall t, table_of t s' = table_of t s) /\
  LogInfo "WiFiLogger2 Node Server Started." ∉ new_events s s'.
Proof.
  intros Hcfg. rewrite (start_unconfigured uom h s Hcfg).
  split; [reflexivity |]. cbn [fst].
  split; [reflexivity |]. split; [reflexivity |].
  split; [intros t; destruct t; reflexivity |].
  unfold new_events. cbn [trace set_trace]. rewrite drop_app_length.
  rewrite !not_elem_of_cons. repeat split; try discriminate.
  apply not_elem_of_nil.
Qed.

Lemma start_without_customParams_witness :
  let s := Controller_init {| customParams := None |} in
  customParams (polyConfig s) = None /\
  snd (start uom_sample polyinterface s) = inl (KeyError "customParams").
Proof.
  cbv zeta. split; [reflexivity |].
  rewrite (proj1 (start_without_customParams uom_sample polyinterface
                    (Controller_init {| customParams := None |}) eq_refl)).
  reflexivity.
Defined.

(** ** The poll: what it changes and what it does not *)

(** The events a poll can emit. *)
Definition poll_event (e : event) : Prop :=
  match e with
  | LogInfo _ | LogError _ _ | Syslog _ _ | Print _ | HttpGet _
  | BaseSetDriver _ _ _ _ _ => True
  | _ => False
  end.

(** Two node records that differ at most in their driver list. *)
Definition same_identity (n n' : node) : Prop :=
  node_class_of n' = node_class_of n /\ node_primary n' = node_primary n /\
  node_address n' = node_address n /\ node_name n' = node_name n /\
  node_units n' = node_units n.

(** What a poll preserves: the controller's own attributes, the keys of
    the node table and the identity of the node under each key; and the
    events it emits all satisfy [P]. *)
Definition poll_frame (P : event -> Prop) (s s' : controller) : Prop :=
  same_attrs s s' /\
  (forall k, match nodes s !! k, nodes s' !! k with
             | Some n, Some n' => same_identity n n'
             | None, None => True
             | _, _ => False
             end) /\
  exists evs, trace s' = (trace s ++ evs)%list /\ Forall P evs.

Lemma same_identity_refl n : same_identity n n.
Proof. repeat split. Qed.

Lemma same_identity_trans n1 n2 n3 :
  same_identity n1 n2 -> same_identity n2 n3 -> same_identity n1 n3.
Proof. unfold same_identity. intros H1 H2. destruct_and!. repeat split; congruence. Qed.

Lemma poll_frame_refl P s : poll_frame P s s.
Proof.
  split; [apply same_attrs_refl |]. split.
  - intros k. destruct (nodes s !! k); [apply same_identity_refl | exact I].
  - exists []. rewrite app_nil_r. split; [reflexivity | constructor].
Qed.

Lemma poll_frame_trans P s1 s2 s3 :
  poll_frame P s1 s2 -> poll_frame P s2 s3 -> poll_frame P s1 s3.
Proof.
  intros (Ha1 & Hn1 & evs1 & Ht1 & He1) (Ha2 & Hn2 & evs2 & Ht2 & He2).
  split; [exact (same_attrs_trans _ _ _ Ha1 Ha2) |]. split.
  - intros k. specialize (Hn1 k). specialize (Hn2 k).
    destruct (nodes s1 !! k), (nodes s2 !! k), (nodes s3 !! k);
      try contradiction; try exact I.
    eapply same_identity_trans; eassumption.
  - exists (evs1 ++ evs2)%list. split.
    + rewrite Ht2, Ht1, app_assoc. reflexivity.
    + apply Forall_app. split; assumption.
Qed.

Lemma poll_frame_emit (P : event -> Prop) e s :
  P e -> poll_frame P s (set_trace (trace s ++ [e]) s).
Proof.
  intros He. split; [repeat split |]. split.
  - intros k. cbn. destruct (nodes s !! k); [apply same_identity_refl | exact I].
  - exists [e]. split; [reflexivity |]. constructor; [exact He | constructor].
Qed.

(** A computation that keeps the poll frame from every state. *)
Definition keeps {A} (P : event -> Prop) (m : M A) : Prop :=
  forall s, poll_frame P s (fst (m s)).

Lemma keeps_bind {A B} P (m : M A) (k : A -> M B) :
  keeps P m -> (forall a, keeps P (k a)) -> keeps P (mbind m k).
Proof.
  intros Hm Hk s. unfold mbind. specialize (Hm s).
  destruct (m s) as [s1 [e | a]]; cbn [fst] in *; [exact Hm |].
  eapply poll_frame_trans; [exact Hm | apply Hk].
Qed.

Lemma keeps_try {A} P (body : M A) (handler : pyexn -> M A) :
  keeps P body -> (forall e, keeps P (handler e)) ->
  keeps P (try_except body handler).
Proof.
  intros Hb Hh s. unfold try_except. specialize (Hb s).
  destruct (body s) as [s1 [e | a]]; cbn [fst] in *; [| exact Hb].
  eapply poll_frame_trans; [exact Hb | apply Hh].
Qed.

Lemma keeps_pure {A} P (r : result A) : keeps P (lift r).
Proof. intros s. apply poll_frame_refl. Qed.

Lemma keeps_get {A} P (f : controller -> A) : keeps P (get f).
Proof. intros s. apply poll_frame_refl. Qed.

Lemma keeps_ret {A} P (a : A) : keeps P (mret a).
Proof. intros s. apply poll_frame_refl. Qed.

Lemma keeps_raise {A} P (e : pyexn) : keeps P (@mraise A e).
Proof. intros s. apply poll_frame_refl. Qed.

Lemma keeps_emit (P : event -> Prop) e : P e -> keeps P (emit e).
Proof. intros He s. apply poll_frame_emit, He. Qed.

Lemma store_drivers_identity n l s :
  same_identity n (match snd (store_drivers n l s) with
                   | inr n' => n'
                   | inl _ => n
                   end).
Proof.
  unfold store_drivers. destruct (node_drivers n); cbn; repeat split.
Qed.

(** The events of the mapping block: calls of the base [setDriver]. *)
Definition write_event (e : event) : Prop :=
  match e with
  | BaseSetDriver _ _ _ _ _ => True
  | _ => False
  end.

Lemma base_setDriver_frame key n drv v report force s :
  nodes s !! key = Some n ->
  poll_frame write_event s (fst (base_setDriver key n drv v report force s)).
Proof.
  intros Hn. unfold base_setDriver.
  set (s0 := set_trace (trace s ++ [BaseSetDriver (node_address n) drv v report force]) s).
  pose proof (store_drivers_identity n (assign_slot drv v (drivers_of s0 n)) s0) as Hid.
  destruct (store_drivers_spec n (assign_slot drv v (drivers_of s0 n)) s0)
    as (s1 & n' & Hst & Htr & Hnodes & Hattrs & _).
  rewrite Hst in Hid. cbn [snd] in Hid.
  unfold mbind at 1. unfold emit at 1. unfold modify at 1. fold s0.
  unfold mbind at 1. unfold get_state at 1.
  unfold mbind at 1. rewrite Hst. unfold modify. cbn [fst].
  split; [| split].
  - eapply same_attrs_trans; [| exact Hattrs]. repeat split.
  - intros k. cbn [nodes set_nodes]. rewrite Hnodes.
    change (nodes s0) with (nodes s).
    destruct (decide (k = key)) as [-> | Hne].
    + rewrite lookup_insert_eq, Hn. exact Hid.
    + rewrite lookup_insert_ne by congruence.
      destruct (nodes s !! k); [apply same_identity_refl | exact I].
  - exists [BaseSetDriver (node_address n) drv v report force].
    split; [| constructor; [exact I | constructor]].
    cbn [trace set_nodes]. rewrite Htr. reflexivity.
Qed.

Lemma setDriver_frame key n drv v s :
  nodes s !! key = Some n ->
  poll_frame write_event s (fst (setDriver key n drv v s)).
Proof.
  intros Hn. unfold setDriver.
  destruct (node_class_of n); try (apply base_setDriver_frame; exact Hn).
  unfold mbind, lift. destruct (py_round v 1) as [e | v'];
    [apply poll_frame_refl | apply base_setDriver_frame; exact Hn].
Qed.

Lemma write_field_keeps data key drvs name field conv :
  keeps write_event (write_field data key drvs name field conv).
Proof.
  intros s. unfold write_field.
  unfold mbind at 1. unfold get at 1.
  unfold mbind at 1. unfold lift at 1. unfold subscript at 1.
  destruct (nodes s !! key) as [n |] eqn:Hn; [| apply poll_frame_refl].
  unfold ok. unfold mbind at 1. unfold lift at 1.
  destruct (subscript drvs name) as [e | code]; [apply poll_frame_refl |].
  unfold mbind at 1. unfold lift at 1.
  destruct (data_subscript data field) as [e | raw]; [apply poll_frame_refl |].
  unfold mbind at 1. unfold lift at 1.
  destruct (conv raw) as [e | v]; [apply poll_frame_refl |].
  apply setDriver_frame, Hn.
Qed.

Lemma map_fields_keeps uom data : keeps write_event (map_fields uom data).
Proof.
  unfold map_fields.
  repeat (apply keeps_bind; [apply write_field_keeps | intros _]).
  apply write_field_keeps.
Qed.

Lemma poll_frame_weaken (P Q : event -> Prop) s s' :
  (forall e, P e -> Q e) -> poll_frame P s s' -> poll_frame Q s s'.
Proof.
  intros HPQ (Ha & Hn & evs & Ht & He).
  split; [exact Ha |]. split; [exact Hn |].
  exists evs. split; [exact Ht |]. eapply Forall_impl; [exact He | exact HPQ].
Qed.

Lemma keeps_weaken {A} (P Q : event -> Prop) (m : M A) :
  (forall e, P e -> Q e) -> keeps P m -> keeps Q m.
Proof. intros HPQ Hm s. eapply poll_frame_weaken; [exact HPQ | apply Hm]. Qed.

(** The events of a poll once the request has been issued: everything a
    poll can emit but a further request. *)
Definition after_request (e : event) : Prop :=
  match e with
  | LogInfo _ | LogError _ _ | Syslog _ _ | Print _
  | BaseSetDriver _ _ _ _ _ => True
  | _ => False
  end.

Lemma write_event_after_request e : write_event e -> after_request e.
Proof. destruct e; cbn; auto. Qed.

Lemma after_request_poll_event e : after_request e -> poll_event e.
Proof. destruct e; cbn; auto. Qed.

(** The part of [longPoll] that follows the request: the status warning,
    the parse of the body, and the mapping block with its handler. *)
Definition handle_response (uom : uom_module) (json_loads : string -> result pyvalue)
    (outcome : http_outcome) : M unit :=
  wifi_logger_data <-
    match outcome with
    | HttpRaises e => mraise e
    | HttpResponse status content =>
        (if negb (status =? 200) then
           emit (Syslog "Bad response from WiFiLogger2 " status) ;;;
           emit (Print " -  Bad response from WiFiLogger2. ")
         else mret tt) ;;;
        lift (json_loads content)
    end ;;
  try_except (map_fields uom wifi_logger_data)
    (fun e => emit (LogError "Failure while parsing WiFiLogger2 data. " (Some e))).

Definition connect_handler (e : pyexn) : M unit :=
  emit (LogError "Failure trying to connect to WiFiLogger2 device. " (Some e)).

Lemma longPoll_configured uom json_loads net s :
  ip s <> "" ->
  longPoll uom json_loads net s
  = try_except (handle_response uom json_loads (net (device_url s)))
      connect_handler
      (set_trace (trace s ++ [LogInfo "LongPoll"; HttpGet (device_url s)]) s).
Proof.
  intros Hip. unfold longPoll. unfold mbind at 1. unfold get at 1.
  destruct (String.eqb_spec (ip s) ""); [contradiction |].
  unfold mbind at 1. unfold emit at 1. unfold modify at 1.
  unfold try_except, handle_response, get_data, connect_handler.
  unfold mbind at 1. unfold mbind at 1. unfold get at 1.
  unfold mbind at 1. unfold emit at 1. unfold modify at 1.
  rewrite set_trace_set_trace. cbn [trace set_trace ip].
  rewrite <- app_assoc. cbn [app].
  change ("http://" ++ ip s ++ "/wflexp.json")%string with (device_url s).
  unfold mbind at 3.
  reflexivity.
Qed.

Lemma handle_response_keeps uom json_loads outcome :
  keeps after_request
    (try_except (handle_response uom json_loads outcome) connect_handler).
Proof.
  apply keeps_try; [| intros e; apply keeps_emit; exact I].
  unfold handle_response. apply keeps_bind.
  - destruct outcome as [e | status content]; [apply keeps_raise |].
    apply keeps_bind; [| intros _; apply keeps_pure].
    destruct (negb (status =? 200)); [| apply keeps_ret].
    apply keeps_bind; [apply keeps_emit; exact I | intros _].
    apply keeps_emit; exact I.
  - intros data. apply keeps_try.
    + eapply keeps_weaken; [exact write_event_after_request |].
      apply map_fields_keeps.
    + intros e. apply keeps_emit; exact I.
Qed.

Lemma longPoll_keeps uom json_loads net :
  keeps poll_event (longPoll uom json_loads net).
Proof.
  intros s. destruct (String.eqb_spec (ip s) "") as [Hip | Hip].
  - unfold longPoll. unfold mbind at 1. unfold get at 1. rewrite Hip. cbn.
    apply (poll_frame_emit poll_event). exact I.
  - rewrite (longPoll_configured uom json_loads net s Hip).
    eapply poll_frame_trans.
    2:{ eapply poll_frame_weaken; [exact after_request_poll_event |].
        apply handle_response_keeps. }
    split; [repeat split |]. split.
    + intros k. cbn. destruct (nodes s !! k); [apply same_identity_refl | exact I].
    + eexists. split; [reflexivity |]. repeat constructor.
Qed.

(** X7: [longPoll] never ends in an exception: whatever the
    configuration, the device's answer, the parsed payload and the node
    table, every failure is caught by one of its two handlers. *)
Theorem longPoll_never_raises uom json_loads net s :
  snd (longPoll uom json_loads net s) = inr tt.
Proof. apply longPoll_returns. Qed.

(** X8: [longPoll] changes nothing but driver values and the trace: the
    address, the unit system, the tables, the cached block, the stored
    configuration and the notices are as before; the node table has the
    same keys, each node keeping its class, address, name and units; and
    only log lines, printed lines, one request and base [setDriver] calls
    are emitted: no node is added, no notice touched, no profile
    written. *)
Theorem longPoll_preserves_controller uom json_loads net s :
  let s' := fst (longPoll uom json_loads net s) in
  same_attrs s s' /\
  dom (nodes s') = dom (nodes s) /\
  (forall k n n',
     nodes s !! k = Some n -> nodes s' !! k = Some n' -> same_identity n n') /\
  exists evs, trace s' = (trace s ++ evs)%list /\ Forall poll_event evs.
Proof.
  cbv zeta. destruct (longPoll_keeps uom json_loads net s) as (Ha & Hn & Hev).
  split; [exact Ha |]. split; [| split; [| exact Hev]].
  - apply set_eq. intros k. rewrite !elem_of_dom. specialize (Hn k).
    destruct (nodes s !! k), (nodes (longPoll uom json_loads net s).1 !! k);
      try contradiction; split; intros [? ?]; try discriminate; eauto.
  - intros k n n' H1 H2. specialize (Hn k). rewrite H1, H2 in Hn. exact Hn.
Qed.

(** X9: a configured poll issues exactly one request, to
    [http://<ip>/wflexp.json]; it is the second event after the
    "LongPoll" log line, and nothing that follows is a request: there is
    no retry. *)
Theorem longPoll_one_request uom json_loads net s :
  ip s <> "" ->
  exists rest,
    new_events s (fst (longPoll uom json_loads net s))
    = LogInfo "LongPoll" :: HttpGet ("http://" ++ ip s ++ "/wflexp.json") :: rest /\
    Forall after_request rest.
Proof.
  intros Hip. rewrite (longPoll_configured uom json_loads net s Hip).
  destruct (handle_response_keeps uom json_loads (net (device_url s))
              (set_trace (trace s ++ [LogInfo "LongPoll"; HttpGet (device_url s)]) s))
    as (_ & _ & evs & Htr & Hev).
  exists evs. split; [| exact Hev].
  unfold new_events. rewrite Htr. cbn [trace set_trace].
  rewrite <- app_assoc, drop_app_length. reflexivity.
Qed.

Lemma longPoll_one_request_witness :
  let s := started uom_sample polyinterface config_sample in
  ip s <> "" /\
  exists rest,
    new_events s (fst (longPoll uom_sample (fun _ => ok payload_sample)
                         (fun _ => HttpResponse 200 "") s))
    = LogInfo "LongPoll" :: HttpGet "http://192.168.1.20/wflexp.json" :: rest.
Proof.
  cbv zeta.
  assert (Hip : ip (started uom_sample polyinterface config_sample) <> "")
    by (vm_compute; discriminate).
  split; [exact Hip |].
  destruct (longPoll_one_request uom_sample (fun _ => ok payload_sample)
              (fun _ => HttpResponse 200 "")
              (started uom_sample polyinterface config_sample) Hip)
    as (rest & Hnew & _).
  exists rest. exact Hnew.
Defined.

(** X10: when the request itself raises, the poll logs the failure as a
    connection failure and ends; the controller is otherwise untouched,
    no driver is written. *)
Theorem longPoll_network_failure uom json_loads net s e :
  ip s <> "" ->
  net (device_url s) = HttpRaises e ->
  longPoll uom json_loads net s
  = (set_trace (trace s ++
                  [LogInfo "LongPoll"; HttpGet (device_url s);
                   LogError "Failure trying to connect to WiFiLogger2 device. "
                     (Some e)]) s,
     inr tt).
Proof.
  intros Hip Hnet. rewrite (longPoll_configured uom json_loads net s Hip), Hnet.
  unfold try_except, handle_response, connect_handler.
  unfold mbind at 1. unfold mraise. unfold emit, modify.
  rewrite set_trace_set_trace. cbn [trace set_trace].
  rewrite <- app_assoc. reflexivity.
Qed.

Lemma longPoll_network_failure_witness :
  let s := started uom_sample polyinterface config_sample in
  let net := fun _ : string => HttpRaises (OtherError "timed out") in
  ip s <> "" /\ net (device_url s) = HttpRaises (OtherError "timed out") /\
  longPoll uom_sample (fun _ => ok payload_sample) net s
  = (set_trace (trace s ++
                  [LogInfo "LongPoll"; HttpGet (device_url s);
                   LogError "Failure trying to connect to WiFiLogger2 device. "
                     (Some (OtherError "timed out"))]) s,
     inr tt).
Proof.
  cbv zeta.
  assert (Hip : ip (started uom_sample polyinterface config_sample) <> "")
    by (vm_compute; discriminate).
  split; [exact Hip |]. split; [reflexivity |].
  apply (longPoll_network_failure uom_sample (fun _ => ok payload_sample)
           (fun _ => HttpRaises (OtherError "timed out"))
           (started uom_sample polyinterface config_sample)
           (OtherError "timed out") Hip eq_refl).
Defined.

(** X11: a body that [json.loads] rejects is handled by the outer
    handler: after the request (and the two warning lines when the status
    is not 200) the failure is logged as a connection failure; the
    controller is otherwise untouched, no driver is written. *)
Theorem longPoll_unparsable_body uom json_loads net s status content e :
  ip s <> "" ->
  net (device_url s) = HttpResponse status content ->
  json_loads content = raise e ->
  longPoll uom json_loads net s
  = (set_trace (trace s ++
                  (LogInfo "LongPoll" :: fetch_events s status) ++
                  [LogError "Failure trying to connect to WiFiLogger2 device. "
                     (Some e)]) s,
     inr tt).
Proof.
  intros Hip Hnet Hjson.
  rewrite (longPoll_configured uom json_loads net s Hip), Hnet.
  unfold try_except, handle_response, connect_handler, fetch_events.
  rewrite Hjson.
  destruct (status =? 200); cbn [negb]; repeat munfold; unfold raise;
    cbv beta iota; rewrite ?set_trace_set_trace; cbn [trace set_trace];
    rewrite ?set_trace_set_trace;
    repeat (rewrite <- app_assoc || rewrite <- app_comm_cons); reflexivity.
Qed.

Lemma longPoll_unparsable_body_witness :
  let s := started uom_sample polyinterface config_sample in
  let net := fun _ : string => HttpResponse 200 "<html>" in
  let json_loads := fun _ : string => @raise pyvalue ValueError in
  ip s <> "" /\ net (device_url s) = HttpResponse 200 "<html>" /\
  json_loads "<html>" = raise ValueError /\
  longPoll uom_sample json_loads net s
  = (set_trace (trace s ++
                  (LogInfo "LongPoll" :: fetch_events s 200) ++
                  [LogError "Failure trying to connect to WiFiLogger2 device. "
                     (Some ValueError)]) s,
     inr tt).
Proof.
  cbv zeta.
  assert (Hip : ip (started uom_sample polyinterface config_sample) <> "")
    by (vm_compute; discriminate).
  split; [exact Hip |]. split; [reflexivity |]. split; [reflexivity |].
  apply (longPoll_unparsable_body uom_sample (fun _ => raise ValueError)
           (fun _ => HttpResponse 200 "<html>")
           (started uom_sample polyinterface config_sample)
           200 "<html>" ValueError Hip eq_refl eq_refl).
Defined.

Lemma handle_response_parse_failure uom json_loads status content data e s0 :
  json_loads content = ok data ->
  (forall s1, nodes s1 = nodes s0 -> map_fields uom data s1 = (s1, inl e)) ->
  try_except (handle_response uom json_loads (HttpResponse status content))
    connect_handler s0
  = (set_trace (trace s0 ++
                  (if status =? 200 then []
                   else [Syslog "Bad response from WiFiLogger2 " status;
                         Print " -  Bad response from WiFiLogger2. "]) ++
                  [LogError "Failure while parsing WiFiLogger2 data. " (Some e)])
       s0,
     inr tt).
Proof.
  intros Hjson Hmap.
  unfold try_except at 1. unfold handle_response. unfold mbind at 1.
  rewrite Hjson.
  destruct (status =? 200); cbn [negb]; repeat munfold; unfold ok;
    cbv beta iota; rewrite Hmap by reflexivity; cbv beta iota;
    rewrite ?set_trace_set_trace; cbn [trace set_trace];
    rewrite ?set_trace_set_trace;
    repeat (rewrite <- app_assoc || rewrite <- app_comm_cons); reflexivity.
Qed.

Lemma longPoll_parse_failure uom json_loads net s status content data e :
  ip s <> "" ->
  net (device_url s) = HttpResponse status content ->
  json_loads content = ok data ->
  (forall s1, nodes s1 = nodes s -> map_fields uom data s1 = (s1, inl e)) ->
  longPoll uom json_loads net s
  = (set_trace (trace s ++
                  (LogInfo "LongPoll" :: fetch_events s status) ++
                  [LogError "Failure while parsing WiFiLogger2 data. " (Some e)]) s,
     inr tt).
Proof.
  intros Hip Hnet Hjson Hmap.
  rewrite (longPoll_configured uom json_loads net s Hip), Hnet.
  rewrite (handle_response_parse_failure uom json_loads status content data e _
             Hjson) by (intros s1 H1; apply Hmap; exact H1).
  rewrite set_trace_set_trace. cbn [trace set_trace]. unfold fetch_events.
  repeat (rewrite <- app_assoc || rewrite <- app_comm_cons). reflexivity.
Qed.

Lemma map_fields_no_light_node uom data s :
  nodes s !! "light" = None ->
  map_fields uom data s = (s, inl (KeyError "light")).
Proof.
  intros Hn. unfold map_fields. unfold mbind at 1. unfold write_field.
  unfold mbind at 1. unfold get at 1. unfold mbind at 1. unfold lift at 1.
  unfold subscript at 1. rewrite Hn. reflexivity.
Qed.

Lemma map_fields_not_an_object uom data s n code :
  nodes s !! "light" = Some n ->
  LITE_DRVS uom !! "uv" = Some code ->
  (forall m, data <> PDict m) ->
  map_fields uom data s = (s, inl TypeError).
Proof.
  intros Hn Hc Hd. unfold map_fields. unfold mbind at 1. unfold write_field.
  unfold mbind at 1. unfold get at 1. unfold mbind at 1. unfold lift at 1.
  unfold subscript at 1. rewrite Hn. unfold ok.
  unfold mbind at 1. unfold lift at 1. unfold subscript at 1. rewrite Hc.
  unfold ok. unfold mbind at 1. unfold lift at 1.
  destruct data; try reflexivity. exfalso. eapply Hd. reflexivity.
Qed.

(** X12: a poll that runs before any discovery finds no node under
    [light]: whatever the device sent, the lookup failure is logged as a
    parse failure and nothing is written. *)
Theorem longPoll_before_discovery uom json_loads net s status content data :
  ip s <> "" ->
  net (device_url s) = HttpResponse status content ->
  json_loads content = ok data ->
  nodes s !! "light" = None ->
  longPoll uom json_loads net s
  = (set_trace (trace s ++
                  (LogInfo "LongPoll" :: fetch_events s status) ++
                  [LogError "Failure while parsing WiFiLogger2 data. "
                     (Some (KeyError "light"))]) s,
     inr tt).
Proof.
  intros Hip Hnet Hjson Hn.
  apply (longPoll_parse_failure uom json_loads net s status content data);
    try assumption.
  intros s1 H1. apply map_fields_no_light_node. rewrite H1. exact Hn.
Qed.

(** A controller that has an address but has not discovered its nodes. *)
Definition configured_only : controller :=
  set_ip "192.168.1.20" (Controller_init config_sample).

Lemma longPoll_before_discovery_witness :
  let s := configured_only in
  let net := fun _ : string => HttpResponse 200 "" in
  let json_loads := fun _ : string => ok payload_sample in
  ip s <> "" /\ net (device_url s) = HttpResponse 200 "" /\
  json_loads "" = ok payload_sample /\ nodes s !! "light" = None /\
  longPoll uom_sample json_loads net s
  = (set_trace (trace s ++
                  (LogInfo "LongPoll" :: fetch_events s 200) ++
                  [LogError "Failure while parsing WiFiLogger2 data. "
                     (Some (KeyError "light"))]) s,
     inr tt).
Proof.
  cbv zeta.
  assert (Hip : ip configured_only <> "") by discriminate.
  split; [exact Hip |]. split; [reflexivity |]. split; [reflexivity |].
  split; [reflexivity |].
  apply (longPoll_before_discovery uom_sample (fun _ => ok payload_sample)
           (fun _ => HttpResponse 200 "") configured_only 200 ""
           payload_sample Hip eq_refl eq_refl eq_refl).
Defined.

(** X13: a body that parses to something other than a JSON object (an
    array, a number, a string, [null]) cannot be indexed by a field name:
    with the light node in place and its first driver code known, the
    [TypeError] of the first statement is logged as a parse failure and
    nothing is written. *)
Theorem longPoll_not_an_object uom json_loads net s status content data n code :
  ip s <> "" ->
  net (device_url s) = HttpResponse status content ->
  json_loads content = ok data ->
  (forall m, data <> PDict m) ->
  nodes s !! "light" = Some n ->
  LITE_DRVS uom !! "uv" = Some code ->
  longPoll uom json_loads net s
  = (set_trace (trace s ++
                  (LogInfo "LongPoll" :: fetch_events s status) ++
                  [LogError "Failure while parsing WiFiLogger2 data. "
                     (Some TypeError)]) s,
     inr tt).
Proof.
  intros Hip Hnet Hjson Hd Hn Hc.
  apply (longPoll_parse_failure uom json_loads net s status content data);
    try assumption.
  intros s1 H1. apply (map_fields_not_an_object uom data s1 n code);
    [rewrite H1; exact Hn | exact Hc | exact Hd].
Qed.

Lemma longPoll_not_an_object_witness :
  let s := started uom_sample polyinterface config_sample in
  let net := fun _ : string => HttpResponse 200 "[]" in
  let json_loads := fun _ : string => ok (PList []) in
  ip s <> "" /\ net (device_url s) = HttpResponse 200 "[]" /\
  json_loads "[]" = ok (PList []) /\
  (forall m, PList [] <> PDict m) /\
  (exists n, nodes s !! "light" = Some n) /\
  LITE_DRVS uom_sample !! "uv" = Some "ST" /\
  longPoll uom_sample json_loads net s
  = (set_trace (trace s ++
                  (LogInfo "LongPoll" :: fetch_events s 200) ++
                  [LogError "Failure while parsing WiFiLogger2 data. "
                     (Some TypeError)]) s,
     inr tt).
Proof.
  cbv zeta.
  assert (Hip : ip (started uom_sample polyinterface config_sample) <> "")
    by (vm_compute; discriminate).
  assert (Hd : forall m, PList [] <> PDict m) by (intros m; discriminate).
  assert (Hc : LITE_DRVS uom_sample !! "uv" = Some "ST")
    by (vm_compute; reflexivity).
  destruct ready_started as (_ & _ & _ & _ & _ & n & Hn & _).
  split; [exact Hip |]. split; [reflexivity |]. split; [reflexivity |].
  split; [exact Hd |]. split; [exists n; exact Hn |]. split; [exact Hc |].
  apply (longPoll_not_an_object uom_sample (fun _ => ok (PList []))
           (fun _ => HttpResponse 200 "[]")
           (started uom_sample polyinterface config_sample) 200 "[]"
           (PList []) n "ST" Hip eq_refl eq_refl Hd Hn Hc).
Defined.

(** ** Discovery: values and failures *)

Lemma class_drivers_init_zero c d :
  d ∈ class_drivers_init c -> drv_value d = PInt 0.
Proof.
  destruct c; cbn; intros H; try (apply elem_of_nil in H; contradiction).
  apply list_elem_of_singleton in H. subst d. reflexivity.
Qed.

(** The value of the last stored driver that has the code, if any. *)
Definition stored_value (stored : list driver) (code : string)
    : option pyvalue :=
  foldl (fun v existing =>
           if String.eqb code (drv_driver existing)
           then Some (drv_value existing) else v)
    None stored.

Lemma restore_value_spec stored d :
  drv_driver (restore_value stored d) = drv_driver d /\
  drv_uom (restore_value stored d) = drv_uom d /\
  drv_value (restore_value stored d)
  = default (drv_value d) (stored_value stored (drv_driver d)).
Proof.
  induction stored as [| e stored IH] using rev_ind; [repeat split |].
  unfold restore_value, stored_value in *. rewrite !foldl_app. cbn [foldl].
  destruct IH as (Hc & Hu & Hv). rewrite Hc.
  destruct (String.eqb (drv_driver d) (drv_driver e)); cbn;
    repeat split; assumption.
Qed.

(** How a driver of a fresh node and the driver [addNode] leaves in its
    place are related: the code and the unit are kept, and the value is
    the one the host has stored for the code under the node's address,
    when it has one. *)
Definition restored (h : host) (addr : string) (d0 d : driver) : Prop :=
  drv_driver d = drv_driver d0 /\ drv_uom d = drv_uom d0 /\
  drv_value d
  = match _nodes h !! addr with
    | Some stored => default (drv_value d0) (stored_value stored (drv_driver d0))
    | None => drv_value d0
    end.

Lemma restore_drivers_restored h addr l :
  Forall2 (restored h addr) l (restore_drivers h addr l).
Proof.
  unfold restore_drivers, restored.
  destruct (_nodes h !! addr) as [stored |].
  - induction l as [| d l IH]; cbn; constructor; [| exact IH].
    apply restore_value_spec.
  - induction l as [| d l IH]; constructor; [repeat split | exact IH].
Qed.

(** X14: the values a node has after discovery.  With the host's
    constructor copying the class-level list, every node registered by
    [discover] has the drivers of its class followed by one slot per
    enabled sub-measurement.  A driver for whose code the host has a
    stored value under the node's address has that value, the last such
    stored driver winning: values the host holds survive a rediscovery.
    Every other driver has its initial value, which is [0] for the slots;
    so a node the host does not know has the value [0] throughout. *)
Theorem discover_restores_stored_values uom h s :
  instance_copy h = true -> tables_ready uom -> lists_known s ->
  exists s',
    discover uom h s = (s', inr tt) /\
    forall p, p ∈ discover_plan ->
      exists n l,
        nodes s' !! p_addr p = Some n /\
        Forall2 (slot_for uom (p_drvs p uom)) (table_of (p_table p) s) l /\
        Forall2 (restored h (p_addr p))
          (class_drivers s (p_class p) ++ l)%list (drivers_of s' n) /\
        (class_drivers s = class_drivers_init ->
         _nodes h !! p_addr p = None ->
         forall d, d ∈ drivers_of s' n -> drv_value d = PInt 0).
Proof.
  intros Hcopy Hready Hknown.
  destruct (discover_lookup uom h s Hcopy Hready Hknown)
    as (s' & Hrun & Hbuilt & _ & _ & _).
  exists s'. split; [exact Hrun |].
  intros p Hp. destruct (Hbuilt p Hp) as (l & Hl & Hlook).
  exists (built_node h s p l), l. split; [exact Hlook |].
  pose proof (enabled_slots_slot_for _ _ _ _ Hl) as Hslots.
  split; [exact Hslots |].
  unfold drivers_of, built_node. cbn [node_drivers].
  split; [apply restore_drivers_restored |].
  intros Hcd Hnone d Hd. unfold restore_drivers in Hd. rewrite Hnone, Hcd in Hd.
  apply elem_of_app in Hd. destruct Hd as [Hd | Hd].
  - eapply class_drivers_init_zero, Hd.
  - apply list_elem_of_lookup in Hd. destruct Hd as [i Hi].
    destruct (Forall2_lookup_r _ _ _ _ _ Hslots Hi) as (entry & _ & _ & _ & Hv).
    exact Hv.
Qed.

(** A host that has two drivers of the temperature node stored. *)
Definition polyinterface_stored : host :=
  {| instance_copy := true; installprofile_ok := true;
     _nodes := {[ "temperature" := [Driver "ST" (PFloat 21.5) 17;
                                    Driver "GV0" (PFloat 9.5) 17] ]} |}.

Lemma discover_restores_stored_values_witness :
  let s := started uom_sample polyinterface_stored config_sample in
  instance_copy polyinterface_stored = true /\
  tables_ready uom_sample /\ lists_known s /\
  (exists s' n,
     discover uom_sample polyinterface_stored s = (s', inr tt) /\
     nodes s' !! "temperature" = Some n /\
     drivers_of s' n
     = [Driver "ST" (PFloat 21.5) 17; Driver "GV0" (PFloat 9.5) 17;
        Driver "GV1" (PInt 0) 17]) /\
  exists s',
    discover uom_sample polyinterface_stored s = (s', inr tt) /\
    forall p, p ∈ discover_plan ->
      exists n l,
        nodes s' !! p_addr p = Some n /\
        Forall2 (restored polyinterface_stored (p_addr p))
          (class_drivers s (p_class p) ++ l)%list (drivers_of s' n).
Proof.
  cbv zeta.
  assert (Hk : lists_known (started uom_sample polyinterface_stored config_sample))
    by (intros t; right; destruct t; vm_compute; reflexivity).
  split; [reflexivity |]. split; [exact tables_ready_sample |].
  split; [exact Hk |]. split.
  - eexists _, _. split; [vm_compute; reflexivity |].
    split; vm_compute; reflexivity.
  - destruct (discover_restores_stored_values uom_sample polyinterface_stored
                (started uom_sample polyinterface_stored config_sample)
                eq_refl tables_ready_sample Hk) as (s' & Hrun & Hall).
    exists s'. split; [exact Hrun |].
    intros p Hp. destruct (Hall p Hp) as (n & l & Hn & _ & Hr & _).
    exists n, l. split; [exact Hn | exact Hr].
Defined.

Lemma drivers_append_owned n l0 d s :
  node_drivers n = Some l0 ->
  drivers_append n d s = (s, inr (with_drivers n (l0 ++ [d]))).
Proof.
  intros Hn. unfold drivers_append, store_drivers, drivers_of.
  unfold mbind, get_state. rewrite Hn. reflexivity.
Qed.

Lemma append_enabled_raises uom drvs table e :
  enabled_slots uom drvs table = raise e ->
  forall n l0 s,
    node_drivers n = Some l0 ->
    append_enabled uom drvs table n s = (s, inl e).
Proof.
  induction table as [| [d u] table IH]; intros H n l0 s Hn; cbn in H;
    [discriminate |].
  cbn [append_enabled]. unfold mbind at 1. unfold lift at 1.
  unfold subscript in *.
  destruct (drvs !! d) as [code |];
    [| cbn in H; unfold raise in *; injection H as <-; reflexivity].
  cbn in H. unfold ok. unfold mbind at 1. unfold lift at 1.
  destruct (UOM uom !! u) as [z |];
    [| cbn in H; unfold raise in *; injection H as <-; reflexivity].
  cbn in H. unfold mbind at 1.
  rewrite (drivers_append_owned n l0 _ s Hn).
  destruct (enabled_slots uom drvs table) as [e' | rest] eqn:Hrest;
    [| discriminate].
  cbn in H. unfold raise in H. injection H as <-.
  eapply IH; reflexivity.
Qed.

Lemma discover_node_raises uom h p e s :
  instance_copy h = true ->
  plan_slots uom s p = raise e ->
  discover_node uom h (p_class p) (p_addr p) (p_name p)
    (table_of (p_table p)) (p_drvs p uom) s = (s, inl e).
Proof.
  intros Hcopy Hl. unfold plan_slots in Hl.
  unfold discover_node, Node_init. unfold mbind, get, mret.
  rewrite Hcopy.
  rewrite (append_enabled_raises uom _ _ e Hl _ (class_drivers s (p_class p)));
    reflexivity.
Qed.

Lemma run_plan_raises uom h pre p post e :
  instance_copy h = true ->
  forall s ls,
    Forall2 (fun p l => plan_slots uom s p = ok l) pre ls ->
    plan_slots uom s p = raise e ->
    exists s',
      run_plan uom h (pre ++ p :: post) s = (s', inl e) /\
      nodes s' = register_all (nodes s) (zip_with (built_node h s) pre ls) /\
      same_attrs s s' /\ class_drivers s' = class_drivers s /\
      trace s' = (trace s ++
                    map (fun n => AddNode n (default [] (node_drivers n)))
                      (zip_with (built_node h s) pre ls))%list.
Proof.
  intros Hcopy. induction pre as [| q pre IH]; intros s ls Hls Hp.
  - inversion Hls; subst. exists s. cbn [app zip_with register_all foldl map].
    rewrite app_nil_r. split; [| repeat split].
    destruct post as [| p' post']; cbn [run_plan].
    + apply discover_node_raises; assumption.
    + unfold mbind at 1. rewrite (discover_node_raises uom h p e s Hcopy Hp).
      reflexivity.
  - inversion Hls as [| ? l ? ls' Hl Hls']; subst.
    destruct (discover_node_spec uom h q l s Hl)
      as (s1 & n & ds & Hrun & Htr & Hn & Ha & Hb & Hcd).
    destruct Hb as (_ & _ & _ & _ & _ & Hb). destruct (Hb Hcopy) as [-> ->].
    specialize (Hcd Hcopy).
    destruct (IH s1 ls') as (s2 & Hrun2 & Hn2 & Ha2 & Hcd2 & Htr2).
    { eapply Forall2_impl; [exact Hls' |]. intros p' l' H'.
      rewrite (plan_slots_same uom s s1 p' Ha). exact H'. }
    { rewrite (plan_slots_same uom s s1 p Ha). exact Hp. }
    assert (Hbn : zip_with (built_node h s1) pre ls'
                  = zip_with (built_node h s) pre ls').
    { unfold built_node.
      assert (address s1 = address s /\ units s1 = units s) as [-> ->].
      { unfold same_attrs in Ha. destruct_and!. split; assumption. }
      rewrite Hcd. reflexivity. }
    rewrite Hbn in Hn2, Htr2.
    exists s2. split; [| split; [| split; [| split]]].
    + change (run_plan uom h ((q :: pre) ++ p :: post)%list)
        with (run_plan uom h (q :: (pre ++ p :: post)%list)).
      destruct (pre ++ p :: post)%list as [| r rest] eqn:Hrest.
      { destruct pre; discriminate. }
      change (run_plan uom h (q :: r :: rest))
        with (mbind (discover_node uom h (p_class q) (p_addr q) (p_name q)
                       (table_of (p_table q)) (p_drvs q uom))
                (fun _ => run_plan uom h (r :: rest))).
      unfold mbind at 1. rewrite Hrun. exact Hrun2.
    + rewrite Hn2, Hn. reflexivity.
    + exact (same_attrs_trans _ _ _ Ha Ha2).
    + congruence.
    + rewrite Htr2, Htr. cbn [zip_with map]. rewrite <- app_assoc. reflexivity.
Qed.

(** X15: discovery is not atomic.  When the tables of the blocks [pre]
    resolve and the next block names a sub-measurement or a unit that
    [uom] lacks, [discover] raises that [KeyError]: the nodes of [pre],
    each with the values the host has stored for it, are registered and
    handed to the host; the node of the failing block and of every later
    block is not. *)
Theorem discover_missing_key uom h pre p post e s ls :
  instance_copy h = true ->
  discover_plan = (pre ++ p :: post)%list ->
  Forall2 (fun p l => plan_slots uom s p = ok l) pre ls ->
  plan_slots uom s p = raise e ->
  exists s',
    discover uom h s = (s', inl e) /\
    nodes s' = register_all (nodes s) (zip_with (built_node h s) pre ls) /\
    same_attrs s s' /\
    new_events s s'
    = LogInfo "Creating nodes." ::
      map (fun n => AddNode n (default [] (node_drivers n)))
        (zip_with (built_node h s) pre ls).
Proof.
  intros Hcopy Hsplit Hls Hp.
  set (s0 := set_trace (trace s ++ [LogInfo "Creating nodes."]) s).
  assert (Ha0 : same_attrs s s0) by (repeat split).
  destruct (run_plan_raises uom h pre p post e Hcopy s0 ls)
    as (s' & Hrun & Hn & Ha & _ & Htr).
  { eapply Forall2_impl; [exact Hls |]. intros q l H.
    rewrite (plan_slots_same uom s s0 q Ha0). exact H. }
  { rewrite (plan_slots_same uom s s0 p Ha0). exact Hp. }
  exists s'. split; [| split; [| split]].
  - rewrite discover_plan_eq, Hsplit. unfold mbind at 1.
    unfold emit at 1. unfold modify at 1. fold s0. rewrite Hrun. reflexivity.
  - exact Hn.
  - exact (same_attrs_trans _ _ _ Ha0 Ha).
  - unfold new_events. rewrite Htr. subst s0. cbn [trace set_trace].
    rewrite <- app_assoc, drop_app_length. reflexivity.
Qed.

(** Tables in which the humidity driver map is empty. *)
Definition uom_no_humidity : uom_module :=
  {| UOM := UOM uom_sample; TEMP_DRVS := TEMP_DRVS uom_sample;
     HUMD_DRVS := ∅; PRES_DRVS := PRES_DRVS uom_sample;
     WIND_DRVS := WIND_DRVS uom_sample; RAIN_DRVS := RAIN_DRVS uom_sample;
     LITE_DRVS := LITE_DRVS uom_sample |}.

Lemma discover_missing_key_witness :
  let s := with_tables (Controller_init config_sample) in
  let pre := [Plan TemperatureNode "temperature" "Temperatures"
                T_temperature TEMP_DRVS] in
  let p := Plan HumidityNode "humidity" "Humidity" T_humidity HUMD_DRVS in
  let ls := [[Driver "ST" (PInt 0) 17; Driver "GV0" (PInt 0) 17;
              Driver "GV1" (PInt 0) 17]] in
  instance_copy polyinterface = true /\
  discover_plan = (pre ++ p :: drop 2 discover_plan)%list /\
  Forall2 (fun p l => plan_slots uom_no_humidity s p = ok l) pre ls /\
  plan_slots uom_no_humidity s p = raise (KeyError "main") /\
  exists s',
    discover uom_no_humidity polyinterface s = (s', inl (KeyError "main")) /\
    nodes s' = register_all (nodes s)
                 (zip_with (built_node polyinterface s) pre ls).
Proof.
  cbv zeta.
  assert (H1 : Forall2
                 (fun p l => plan_slots uom_no_humidity
                               (with_tables (Controller_init config_sample)) p
                             = ok l)
                 [Plan TemperatureNode "temperature" "Temperatures"
                    T_temperature TEMP_DRVS]
                 [[Driver "ST" (PInt 0) 17; Driver "GV0" (PInt 0) 17;
                   Driver "GV1" (PInt 0) 17]]).
  { constructor; [vm_compute; reflexivity | constructor]. }
  assert (H2 : plan_slots uom_no_humidity
                 (with_tables (Controller_init config_sample))
                 (Plan HumidityNode "humidity" "Humidity" T_humidity HUMD_DRVS)
               = raise (KeyError "main")) by (vm_compute; reflexivity).
  split; [reflexivity |]. split; [reflexivity |]. split; [exact H1 |].
  split; [exact H2 |].
  destruct (discover_missing_key uom_no_humidity polyinterface
              [Plan TemperatureNode "temperature" "Temperatures"
                 T_temperature TEMP_DRVS]
              (Plan HumidityNode "humidity" "Humidity" T_humidity HUMD_DRVS)
              (drop 2 discover_plan) (KeyError "main")
              (with_tables (Controller_init config_sample))
              [[Driver "ST" (PInt 0) 17; Driver "GV0" (PInt 0) 17;
                Driver "GV1" (PInt 0) 17]]
              eq_refl eq_refl H1 H2)
    as (s' & Hrun & Hn & _).
  exists s'. split; [exact Hrun | exact Hn].
Defined.

(** ** The tables of [setup_nodedefs] *)

Lemma odict_get_set_eq k v d : odict_get (odict_set k v d) k = ok v.
Proof.
  induction d as [| [k' v'] d IH]; cbn.
  - rewrite String.eqb_refl. reflexivity.
  - destruct (String.eqb_spec k k') as [-> | Hne]; cbn.
    + rewrite String.eqb_refl. reflexivity.
    + destruct (String.eqb_spec k k'); [contradiction | exact IH].
Qed.

Lemma odict_get_set_ne k k' v d :
  k <> k' -> odict_get (odict_set k v d) k' = odict_get d k'.
Proof.
  intros Hne. induction d as [| [k0 v0] d IH]; cbn.
  - destruct (String.eqb_spec k' k); [congruence | reflexivity].
  - destruct (String.eqb_spec k k0) as [-> | Hne0]; cbn.
    + destruct (String.eqb_spec k' k0); [congruence | reflexivity].
    + destruct (String.eqb_spec k' k0); [reflexivity | exact IH].
Qed.

(** The assignments [setup_nodedefs] makes to one table, in order. *)
Definition fill (t : table_id) (d : odict) : odict :=
  foldl (fun d (kv : string * string) => odict_set kv.1 kv.2 d) d (enabled t).

(** The controller after [setup_nodedefs], up to the trace. *)
Definition filled (s : controller) : controller :=
  set_light_list (fill T_light (light_list s))
    (set_rain_list (fill T_rain (rain_list s))
      (set_wind_list (fill T_wind (wind_list s))
        (set_pressure_list (fill T_pressure (pressure_list s))
          (set_humidity_list (fill T_humidity (humidity_list s))
            (set_temperature_list (fill T_temperature (temperature_list s))
               s))))).

Lemma setup_nodedefs_filled h u s :
  exists evs,
    setup_nodedefs h u s = (set_trace (trace s ++ evs) (filled s), inr tt).
Proof.
  destruct s as [adr i un tl hl pl wl rl ll lgl mc pc nd cd nt tr].
  unfold setup_nodedefs, installprofile. repeat munfold.
  cbn -[odict_set]. destruct (installprofile_ok h); cbn -[odict_set];
    rewrite ?set_trace_set_trace; cbn -[odict_set];
    rewrite <- ?app_assoc; eexists; reflexivity.
Qed.

Lemma setup_nodedefs_tables h u s t :
  table_of t (fst (setup_nodedefs h u s)) = fill t (table_of t s).
Proof.
  destruct (setup_nodedefs_filled h u s) as [evs ->].
  destruct s; destruct t; reflexivity.
Qed.

Lemma setup_nodedefs_rest h u s :
  let s' := fst (setup_nodedefs h u s) in
  snd (setup_nodedefs h u s) = inr tt /\
  lightning_list s' = lightning_list s /\ ip s' = ip s /\ units s' = units s /\
  myConfig s' = myConfig s /\ nodes s' = nodes s /\ notices s' = notices s.
Proof.
  destruct (setup_nodedefs_filled h u s) as [evs ->].
  destruct s; repeat split.
Qed.

Lemma fold_set_get_other (entries : list (string * string)) :
  forall d k,
    k ∉ map fst entries ->
    odict_get (foldl (fun d (kv : string * string) => odict_set kv.1 kv.2 d)
                 d entries) k
    = odict_get d k.
Proof.
  induction entries as [| [k0 v0] entries IH]; intros d k Hk; [reflexivity |].
  cbn in *. apply not_elem_of_cons in Hk. destruct Hk as [Hne Hk].
  rewrite (IH _ _ Hk). apply odict_get_set_ne. congruence.
Qed.

Lemma fold_set_get_in (entries : list (string * string)) :
  NoDup (map fst entries) ->
  forall d k v,
    (k, v) ∈ entries ->
    odict_get (foldl (fun d (kv : string * string) => odict_set kv.1 kv.2 d)
                 d entries) k
    = ok v.
Proof.
  induction entries as [| [k0 v0] entries IH]; intros Hnd d k v Hin.
  - apply elem_of_nil in Hin. contradiction.
  - cbn in *. apply NoDup_cons in Hnd. destruct Hnd as [Hk0 Hnd].
    apply elem_of_cons in Hin. destruct Hin as [Heq | Hin].
    + injection Heq as -> ->.
      rewrite (fold_set_get_other entries _ _ Hk0). apply odict_get_set_eq.
    + apply (IH Hnd _ _ _ Hin).
Qed.

Lemma enabled_keys_nodup t : NoDup (map fst (enabled t)).
Proof.
  destruct t; cbn; repeat (apply NoDup_cons; split);
    try apply NoDup_nil_2;
    rewrite ?not_elem_of_cons; repeat split; try discriminate;
    apply not_elem_of_nil.
Qed.

(** X16: [setup_nodedefs] always returns, a failed profile push
    included.  Whatever the six tables held, each then maps every
    sub-measurement the method names to its unit name, and every other
    key to what it mapped to before; [lightning_list] and the rest of the
    controller are not touched.  The [units] argument has no influence:
    the unit names are the imperial ones for every unit system. *)
Theorem setup_nodedefs_fills_tables h u s :
  let s' := fst (setup_nodedefs h u s) in
  snd (setup_nodedefs h u s) = inr tt /\
  (forall t k v,
     (k, v) ∈ enabled t -> odict_get (table_of t s') k = ok v) /\
  (forall t k,
     k ∉ map fst (enabled t) ->
     odict_get (table_of t s') k = odict_get (table_of t s) k) /\
  lightning_list s' = lightning_list s /\ ip s' = ip s /\ units s' = units s /\
  myConfig s' = myConfig s /\ nodes s' = nodes s /\ notices s' = notices s /\
  (forall u', setup_nodedefs h u' s = setup_nodedefs h u s).
Proof.
  cbv zeta.
  destruct (setup_nodedefs_rest h u s) as (Hr & Hlg & Hip & Hun & Hmc & Hnd & Hnt).
  split; [exact Hr |]. split; [| split].
  - intros t k v Hin. rewrite setup_nodedefs_tables.
    apply fold_set_get_in; [apply enabled_keys_nodup | exact Hin].
  - intros t k Hk. rewrite setup_nodedefs_tables.
    apply fold_set_get_other, Hk.
  - repeat (split; [assumption |]). reflexivity.
Qed.

(** ** Composite behaviour *)

(** X17: a changed block without an [IPAddress] entry switches polling
    off: the address becomes empty whatever it was, the address notice is
    the only notice, and every later poll only prints its one line. *)
Theorem process_config_without_address uom h cfg params s :
  customParams cfg = Some params -> params <> myConfig s ->
  params !! "IPAddress" = None ->
  tables_ready uom -> lists_known s ->
  exists s',
    process_config uom h cfg s = (s', inr tt) /\
    ip s' = "" /\ notices s' = [ip_notice] /\
    last (trace s') = Some (AddNotice ip_notice) /\
    forall json_loads net,
      longPoll uom json_loads net s'
      = (set_trace (trace s' ++ [Print " -  No IP/URL for WiFiLogger2."]) s',
         inr tt).
Proof.
  intros Hcfg Hne Hnone Hready Hknown.
  destruct (process_config_changed_spec uom h cfg params s Hcfg Hne Hready Hknown)
    as (s' & nds & Hrun & Hip & _ & _ & _ & _ & Hnt & Htr & _).
  rewrite Hnone in Hip. cbn in Hip.
  rewrite Hip in Hnt, Htr. cbn in Hnt, Htr.
  exists s'. split; [exact Hrun |]. split; [exact Hip |]. split; [exact Hnt |].
  split.
  - rewrite Htr.
    repeat (rewrite last_app || rewrite last_cons). reflexivity.
  - intros json_loads net. unfold longPoll. unfold mbind at 1. unfold get at 1.
    rewrite Hip. reflexivity.
Qed.

(** A block that names the unit system only. *)
Definition config_units_only : config :=
  {| customParams := Some (list_to_map [("Units", "metric")]) |}.

Lemma config_units_only_differs :
  (list_to_map [("Units", "metric")] : gmap string string)
  <> myConfig (started uom_sample polyinterface config_sample).
Proof.
  intros H. apply (f_equal (fun m : gmap string string => m !! "IPAddress")) in H.
  vm_compute in H. discriminate.
Qed.

Lemma process_config_without_address_witness :
  let s := started uom_sample polyinterface config_sample in
  let params : gmap string string := list_to_map [("Units", "metric")] in
  customParams config_units_only = Some params /\
  params <> myConfig s /\ params !! "IPAddress" = None /\
  tables_ready uom_sample /\ lists_known s /\
  ip s = "192.168.1.20" /\
  exists s',
    process_config uom_sample polyinterface config_units_only s = (s', inr tt) /\
    ip s' = "" /\ notices s' = [ip_notice].
Proof.
  cbv zeta. split; [reflexivity |]. split; [exact config_units_only_differs |].
  split; [reflexivity |]. split; [exact tables_ready_sample |].
  split; [exact lists_known_started |]. split; [vm_compute; reflexivity |].
  destruct (process_config_without_address uom_sample polyinterface
              config_units_only (list_to_map [("Units", "metric")])
              (started uom_sample polyinterface config_sample)
              eq_refl config_units_only_differs eq_refl tables_ready_sample
              lists_known_started)
    as (s' & Hrun & Hip & Hnt & _).
  exists s'. split; [exact Hrun |]. split; [exact Hip | exact Hnt].
Defined.

(** X18: a poll whose body parses to an object with all thirteen fields
    makes the thirteen writes of the mapping table, in its order, and
    logs no failure; this holds for every HTTP status, a status other
    than 200 only adding its two warning lines before the writes. *)
Theorem longPoll_full_payload uom json_loads net s status content m :
  ip s <> "" ->
  net (device_url s) = HttpResponse status content ->
  json_loads content = ok (PDict m) ->
  ready s -> tables_ready uom -> fields_present m mapping_table ->
  exists s' evs,
    longPoll uom json_loads net s = (s', inr tt) /\
    new_events s s' = LogInfo "LongPoll" :: (fetch_events s status ++ evs)%list /\
    Forall2 (row_write uom m) mapping_table evs /\
    length evs = 13%nat /\ ready s'.
Proof.
  intros Hip Hnet Hjson Hready Htables Hfields.
  pose proof (longPoll_object uom json_loads net s status content m
                Hip Hnet Hjson Hready) as Hpoll.
  destruct (expected_writes_complete uom m mapping_table
              (tables_ready_codes uom Htables) Hfields) as (evs & Hexp & Hall).
  rewrite Hexp in Hpoll. destruct Hpoll as (s' & Hrun & Htr & _ & Hready').
  exists s', evs. split; [exact Hrun |]. split; [| split; [exact Hall |]].
  - unfold new_events. rewrite Htr, drop_app_length, app_nil_r. reflexivity.
  - split; [| exact Hready'].
    apply Forall2_length in Hall. rewrite <- Hall. reflexivity.
Qed.

Lemma longPoll_full_payload_witness :
  let s := started uom_sample polyinterface config_sample in
  let net := fun _ : string => HttpResponse 404 "" in
  let json_loads := fun _ : string => ok payload_sample in
  ip s <> "" /\ net (device_url s) = HttpResponse 404 "" /\
  json_loads "" = ok (PDict sample_fields) /\
  ready s /\ tables_ready uom_sample /\
  fields_present sample_fields mapping_table /\
  exists (s' : controller) (evs : list event),
    longPoll uom_sample json_loads net s = (s', inr tt) /\
    length evs = 13%nat /\
    new_events s s' = LogInfo "LongPoll" :: (fetch_events s 404 ++ evs)%list.
Proof.
  cbv zeta.
  assert (Hip : ip (started uom_sample polyinterface config_sample) <> "")
    by (vm_compute; discriminate).
  split; [exact Hip |]. split; [reflexivity |]. split; [reflexivity |].
  split; [exact ready_started |]. split; [exact tables_ready_sample |].
  split; [exact fields_present_sample |].
  destruct (longPoll_full_payload uom_sample (fun _ => ok payload_sample)
              (fun _ => HttpResponse 404 "")
              (started uom_sample polyinterface config_sample) 404 ""
              sample_fields Hip eq_refl eq_refl ready_started
              tables_ready_sample fields_present_sample)
    as (s' & evs & Hrun & Hnew & _ & Hlen & _).
  exists s', evs. split; [exact Hrun |]. split; [exact Hlen | exact Hnew].
Defined.

(** X19: a poll whose object lacks a field makes the writes of the rows
    before the first absent field, in order, and then logs the lookup
    failure as a parse failure; no default is written for the absent
    field and the rows after it are not reached. *)
Theorem longPoll_missing_field uom json_loads net s status content m pre r post :
  ip s <> "" ->
  net (device_url s) = HttpResponse status content ->
  json_loads content = ok (PDict m) ->
  ready s -> tables_ready uom ->
  mapping_table = (pre ++ r :: post)%list ->
  fields_present m pre -> m !! m_field r = None ->
  exists s' evs,
    longPoll uom json_loads net s = (s', inr tt) /\
    new_events s s'
    = (LogInfo "LongPoll" :: fetch_events s status ++ evs ++
         [LogError "Failure while parsing WiFiLogger2 data. "
            (Some (KeyError (m_field r)))])%list /\
    Forall2 (row_write uom m) pre evs /\
    length evs = length pre /\ ready s'.
Proof.
  intros Hip Hnet Hjson Hready Htables Hsplit Hfields Hnone.
  pose proof (longPoll_object uom json_loads net s status content m
                Hip Hnet Hjson Hready) as Hpoll.
  destruct (expected_writes_missing uom m pre r post) as (evs & Hexp & Hall);
    [| exact Hfields | exact Hnone |].
  { pose proof (tables_ready_codes uom Htables) as Hc.
    unfold codes_ready in *. rewrite Hsplit in Hc.
    apply Forall_app in Hc. destruct Hc as [Hpre Hrest].
    apply Forall_app. split; [exact Hpre |].
    constructor; [| constructor]. apply Forall_cons_1 in Hrest. apply Hrest. }
  rewrite Hsplit, Hexp in Hpoll. destruct Hpoll as (s' & Hrun & Htr & _ & Hready').
  exists s', evs. split; [exact Hrun |]. split; [| split; [exact Hall |]].
  - unfold new_events. rewrite Htr, drop_app_length. reflexivity.
  - split; [| exact Hready'].
    apply Forall2_length in Hall. symmetry. exact Hall.
Qed.

Lemma longPoll_missing_field_witness :
  let s := started uom_sample polyinterface config_sample in
  let net := fun _ : string => HttpResponse 200 "" in
  let m := delete "dew" sample_fields in
  let json_loads := fun _ : string => ok (PDict m) in
  let pre := take 4 mapping_table in
  let r := Mapping "temperature" TEMP_DRVS "dewpoint" "dew" true in
  let post := drop 5 mapping_table in
  ip s <> "" /\ net (device_url s) = HttpResponse 200 "" /\
  json_loads "" = ok (PDict m) /\
  ready s /\ tables_ready uom_sample /\
  mapping_table = (pre ++ r :: post)%list /\
  fields_present m pre /\ m !! m_field r = None /\
  exists (s' : controller) (evs : list event),
    longPoll uom_sample json_loads net s = (s', inr tt) /\
    length evs = 4%nat /\
    new_events s s'
    = (LogInfo "LongPoll" :: fetch_events s 200 ++ evs ++
         [LogError "Failure while parsing WiFiLogger2 data. "
            (Some (KeyError "dew"))])%list.
Proof.
  cbv zeta.
  assert (Hip : ip (started uom_sample polyinterface config_sample) <> "")
    by (vm_compute; discriminate).
  assert (Hf : fields_present (delete "dew" sample_fields) (take 4 mapping_table)).
  { unfold fields_present, mapping_table. cbn [take].
    repeat constructor; cbn [m_field]; eexists; vm_compute; reflexivity. }
  assert (Hnone : delete "dew" sample_fields
                    !! m_field (Mapping "temperature" TEMP_DRVS "dewpoint" "dew" true)
                  = None) by (vm_compute; reflexivity).
  split; [exact Hip |]. split; [reflexivity |]. split; [reflexivity |].
  split; [exact ready_started |]. split; [exact tables_ready_sample |].
  split; [reflexivity |]. split; [exact Hf |]. split; [exact Hnone |].
  destruct (longPoll_missing_field uom_sample
              (fun _ => ok (PDict (delete "dew" sample_fields)))
              (fun _ => HttpResponse 200 "")
              (started uom_sample polyinterface config_sample) 200 ""
              (delete "dew" sample_fields) (take 4 mapping_table)
              (Mapping "temperature" TEMP_DRVS "dewpoint" "dew" true)
              (drop 5 mapping_table)
              Hip eq_refl eq_refl ready_started tables_ready_sample eq_refl
              Hf Hnone)
    as (s' & evs & Hrun & Hnew & _ & Hlen & _).
  exists s', evs. split; [exact Hrun |]. split; [exact Hlen | exact Hnew].
Defined.

(** ** The [REMOVE_NOTICES_ALL] command *)

(** [remove_notices_all(command)]; the command is not looked at. *)
Definition remove_notices_all : M unit :=
  emit (LogInfo "remove_notices_all:") ;;;
  removeNoticesAll.

(** X20: the [REMOVE_NOTICES_ALL] command clears every notice, the
    address notice of an unconfigured controller included, and touches
    nothing else.  Nothing brings the notice back while the
    configuration stays the same: a poll leaves the notices empty, and a
    configuration event without a block or with the cached block does
    nothing. *)
Theorem remove_notices_all_clears uom h json_loads net cfg s :
  let s' := fst (remove_notices_all s) in
  snd (remove_notices_all s) = inr tt /\
  notices s' = [] /\
  new_events s s' = [LogInfo "remove_notices_all:"; RemoveNoticesAll] /\
  ip s' = ip s /\ units s' = units s /\ myConfig s' = myConfig s /\
  nodes s' = nodes s /\ class_drivers s' = class_drivers s /\
  (forall t, table_of t s' = table_of t s) /\
  notices (fst (longPoll uom json_loads net s')) = [] /\
  (customParams cfg = None \/ customParams cfg = Some (myConfig s) ->
   process_config uom h cfg s' = (s', inr tt)).
Proof.
  cbv zeta.
  assert (Hrun : remove_notices_all s
                 = (set_notices []
                      (set_trace (trace s ++ [LogInfo "remove_notices_all:";
                                              RemoveNoticesAll]) s),
                    inr tt)).
  { destruct s as [adr i un tl hl pl wl rl ll lgl mc pc nd cd nt tr].
    unfold remove_notices_all, removeNoticesAll. repeat munfold. cbn.
    rewrite <- app_assoc. reflexivity. }
  rewrite Hrun. cbn [fst snd].
  split; [reflexivity |]. split; [reflexivity |]. split.
  { unfold new_events. cbn [trace set_notices set_trace].
    rewrite drop_app_length. reflexivity. }
  split; [reflexivity |]. split; [reflexivity |]. split; [reflexivity |].
  split; [reflexivity |]. split; [reflexivity |].
  split; [intros t; destruct t; reflexivity |]. split.
  - destruct (longPoll_keeps uom json_loads net
                (set_notices []
                   (set_trace (trace s ++ [LogInfo "remove_notices_all:";
                                           RemoveNoticesAll]) s)))
      as (Ha & _).
    unfold same_attrs in Ha. destruct_and!. assumption.
  - intros [Hcfg | Hcfg];
      [apply process_config_no_block | apply process_config_cached]; exact Hcfg.
Qed.

Lemma remove_notices_all_clears_witness :
  let s := fst (start uom_sample polyinterface
                  (Controller_init {| customParams := Some ∅ |})) in
  let s' := fst (remove_notices_all s) in
  let cfg := {| customParams := Some (myConfig s) |} in
  (customParams cfg = None \/ customParams cfg = Some (myConfig s)) /\
  ip s = "" /\ notices s = [ip_notice] /\
  process_config uom_sample polyinterface cfg s' = (s', inr tt).
Proof.
  cbv zeta. split; [right; reflexivity |]. split; [vm_compute; reflexivity |].
  split; [vm_compute; reflexivity |].
  apply (remove_notices_all_clears uom_sample polyinterface
           (fun _ => ok payload_sample) (fun _ => HttpResponse 200 "")).
  right. reflexivity.
Defined.

(** ** The derived calculations of [TemperatureNode]

    [Dewpoint] and [Windchill] are methods that no code of the plugin
    calls.  The functions of Python's [math] module they use are taken as
    given: a function of this development's own in their place would fix
    digits that belong to the C library. *)

Local Open Scope result_scope.

(** [a + b] on numbers.  Every [+] of the methods below has a [float]
    among its operands, so the concatenation of sequences cannot
    apply. *)
Definition py_add : pyvalue -> pyvalue -> result pyvalue :=
  py_arith Z.add PrimFloat.add.

(** An [int] against a [float], by exact value, as Python compares
    them. *)
Definition compare_int_float (z : Z) (g : float) : option comparison :=
  match Prim2SF g with
  | S754_nan => None
  | S754_infinity s => Some (if s then Gt else Lt)
  | S754_zero _ => Some (z ?= 0)
  | S754_finite s m e =>
      let v := if s then Zneg m else Zpos m in
      Some (if 0 <=? e then z ?= v * 2 ^ e else z * 2 ^ (- e) ?= v)
  end.

(** [a <= b] on numbers; NaN compares false. *)
Definition py_le (a b : pyvalue) : result bool :=
  match as_number a, as_number b with
  | Some (inl x), Some (inl y) => ok (x <=? y)
  | Some (inl x), Some (inr g) =>
      ok match compare_int_float x g with
         | Some Gt | None => false
         | Some _ => true
         end
  | Some (inr f), Some (inl y) =>
      ok match compare_int_float y f with
         | Some Lt | None => false
         | Some _ => true
         end
  | Some (inr f), Some (inr g) => ok (PrimFloat.leb f g)
  | _, _ => raise TypeError
  end.

(** [a >= b]. *)
Definition py_ge (a b : pyvalue) : result bool := py_le b a.

(** The [float] a number contributes to an operation with a [float]. *)
Definition float_operand (v : pyvalue) : result float :=
  match as_number v with
  | Some (inl z) => float_of_int z
  | Some (inr f) => ok f
  | None => raise TypeError
  end.

Section Derived.

(** [math.log] and [math.pow]. *)
Variable math_log : pyvalue -> result pyvalue.
Variable math_pow : pyvalue -> pyvalue -> result pyvalue.

(** [Dewpoint(t, h)]. *)
Definition Dewpoint (t h : pyvalue) : result pyvalue :=
  n <-- py_mul (PFloat 17.625) t ;;
  d <-- py_add (PFloat 243.04) t ;;
  b <-- py_truediv n d ;;
  rh <-- py_truediv h (PFloat 100.0) ;;
  c <-- math_log rh ;;
  cb <-- py_add c b ;;
  num <-- py_mul (PFloat 243.04) cb ;;
  u <-- py_sub (PFloat 17.625) c ;;
  den <-- py_sub u b ;;
  dewpt <-- py_truediv num den ;;
  py_round dewpt 1.

(** [Windchill(t, ws)]. *)
Definition Windchill (t ws : pyvalue) : result pyvalue :=
  t18 <-- py_mul t (PFloat 1.8) ;;
  tf <-- py_add t18 (PInt 32) ;;
  mph <-- py_truediv ws (PFloat 0.44704) ;;
  w1 <-- py_mul (PFloat 0.6215) tf ;;
  w2 <-- py_add (PFloat 35.74) w1 ;;
  p1 <-- math_pow mph (PFloat 0.16) ;;
  w3 <-- py_mul (PFloat 35.75) p1 ;;
  w4 <-- py_sub w2 w3 ;;
  w5 <-- py_mul (PFloat 0.4275) tf ;;
  p2 <-- math_pow mph (PFloat 0.16) ;;
  w6 <-- py_mul w5 p2 ;;
  wc <-- py_add w4 w6 ;;
  cold <-- py_le tf (PFloat 50.0) ;;
  windy <-- (if cold : bool then py_ge mph (PFloat 5.0) else ok false) ;;
  if windy : bool then
    d <-- py_sub wc (PInt 32) ;;
    q <-- py_truediv d (PFloat 1.8) ;;
    py_round q 1
  else ok t.

End Derived.

(** The wind chill in degrees Fahrenheit, from the temperature in
    Fahrenheit, and the value of [math.pow(mph, 0.16)]. *)
Definition wind_chill_f (tf p : float) : float :=
  (35.74 + 0.6215 * tf - 35.75 * p + 0.4275 * tf * p)%float.

Lemma py_mul_float_r v c :
  py_mul v (PFloat c) = (f <-- float_operand v ;; ok (PFloat (f * c)%float)).
Proof.
  unfold py_mul, py_arith, float_operand. cbn [as_number].
  destruct (as_number v) as [[z | f] |]; reflexivity.
Qed.

Lemma py_mul_float_l v c :
  py_mul (PFloat c) v = (f <-- float_operand v ;; ok (PFloat (c * f)%float)).
Proof.
  unfold py_mul, py_arith, float_operand. cbn [as_number].
  destruct (as_number v) as [[z | f] |]; reflexivity.
Qed.

Lemma py_add_float_l v c :
  py_add (PFloat c) v = (f <-- float_operand v ;; ok (PFloat (c + f)%float)).
Proof.
  unfold py_add, py_arith, float_operand. cbn [as_number].
  destruct (as_number v) as [[z | f] |]; reflexivity.
Qed.

Lemma py_truediv_float_r v c :
  py_truediv v (PFloat c)
  = (f <-- float_operand v ;;
     if PrimFloat.eqb c 0 then raise ZeroDivisionError
     else ok (PFloat (f / c)%float)).
Proof.
  unfold py_truediv, float_operand. cbn [as_number].
  destruct (as_number v) as [[z | f] |]; reflexivity.
Qed.

(** X21: on numbers, when [math.pow] returns a float, [Windchill] returns
    its first argument itself, not rounded and of the type it came in,
    unless the temperature in Fahrenheit is at most 50 and the speed in
    miles per hour at least 5; in that case it returns the formula's
    value, converted to Celsius and rounded to one decimal. *)
Theorem Windchill_range math_pow t ws x y p :
  float_operand t = ok x -> float_operand ws = ok y ->
  math_pow (PFloat (y / 0.44704)%float) (PFloat 0.16) = ok (PFloat p) ->
  let tf := (x * 1.8 + 32)%float in
  let mph := (y / 0.44704)%float in
  Windchill math_pow t ws
  = if PrimFloat.leb tf 50 && PrimFloat.leb 5 mph
    then ok (PFloat (round_float ((wind_chill_f tf p - 32) / 1.8) 1))
    else ok t.
Proof.
  intros Ht Hws Hpow. cbv zeta. unfold Windchill.
  rewrite py_mul_float_r, Ht. cbn [rbind ok].
  unfold py_add at 1, py_arith. cbn [as_number]. rewrite float_of_int_32.
  cbn [rbind ok].
  rewrite py_truediv_float_r, Hws. cbn [rbind ok].
  replace (PrimFloat.eqb 0.44704 0) with false by (vm_compute; reflexivity).
  unfold py_mul, py_add, py_sub, py_arith. cbn [as_number rbind ok].
  rewrite Hpow. cbn [rbind ok].
  unfold py_ge, py_le. cbn [as_number rbind ok].
  destruct (PrimFloat.leb (x * 1.8 + 32) 50); cbn [rbind ok andb]; [| reflexivity].
  destruct (PrimFloat.leb 5 (y / 0.44704)); cbn [rbind ok andb]; [| reflexivity].
  rewrite float_of_int_32. cbn [rbind ok].
  unfold py_truediv. cbn [as_number rbind ok].
  replace (PrimFloat.eqb 1.8 0) with false by (vm_compute; reflexivity).
  reflexivity.
Qed.

(** A [math.pow] for the examples: a domain error on a negative base, as
    for every exponent that is not an integer, and [1.3] otherwise. *)
Definition pow_sample (a b : pyvalue) : result pyvalue :=
  match a with
  | PFloat f => if PrimFloat.ltb f 0 then raise ValueError else ok (PFloat 1.3)
  | _ => raise TypeError
  end.

Lemma Windchill_range_witness :
  float_operand (PInt 20) = ok 20%float /\
  float_operand (PFloat 1.5) = ok 1.5%float /\
  pow_sample (PFloat (1.5 / 0.44704)%float) (PFloat 0.16) = ok (PFloat 1.3) /\
  Windchill pow_sample (PInt 20) (PFloat 1.5) = ok (PInt 20).
Proof.
  split; [vm_compute; reflexivity |]. split; [reflexivity |].
  split; [vm_compute; reflexivity |].
  apply (Windchill_range pow_sample (PInt 20) (PFloat 1.5) 20 1.5 1.3);
    vm_compute; reflexivity.
Defined.

(** X22: [Windchill] computes the power before it tests the range, so an
    error of [math.pow] is the outcome whatever the temperature: with a
    negative wind speed, where the power is a domain error, the method
    raises instead of returning its input. *)
Theorem Windchill_pow_error math_pow t ws x y e :
  float_operand t = ok x -> float_operand ws = ok y ->
  math_pow (PFloat (y / 0.44704)%float) (PFloat 0.16) = raise e ->
  Windchill math_pow t ws = raise e.
Proof.
  intros Ht Hws Hpow. unfold Windchill.
  rewrite py_mul_float_r, Ht. cbn [rbind ok].
  unfold py_add at 1, py_arith. cbn [as_number]. rewrite float_of_int_32.
  cbn [rbind ok].
  rewrite py_truediv_float_r, Hws. cbn [rbind ok].
  replace (PrimFloat.eqb 0.44704 0) with false by (vm_compute; reflexivity).
  unfold py_mul at 1, py_add at 1, py_arith. cbn [as_number rbind ok].
  rewrite Hpow. reflexivity.
Qed.

Lemma Windchill_pow_error_witness :
  float_operand (PInt 30) = ok 30%float /\
  float_operand (PInt (-1)) = ok (-1)%float /\
  pow_sample (PFloat (-1 / 0.44704)%float) (PFloat 0.16) = raise ValueError /\
  Windchill pow_sample (PInt 30) (PInt (-1)) = raise ValueError.
Proof.
  split; [vm_compute; reflexivity |]. split; [vm_compute; reflexivity |].
  split; [vm_compute; reflexivity |].
  apply (Windchill_pow_error pow_sample (PInt 30) (PInt (-1)) 30 (-1) ValueError);
    vm_compute; reflexivity.
Defined.

(** [Dewpoint] on numbers, once [math.log] has returned. *)
Lemma Dewpoint_float math_log t h x y c :
  float_operand t = ok x -> float_operand h = ok y ->
  PrimFloat.eqb (243.04 + x) 0 = false ->
  math_log (PFloat (y / 100)%float) = ok (PFloat c) ->
  Dewpoint math_log t h
  = let b := (17.625 * x / (243.04 + x))%float in
    let den := (17.625 - c - b)%float in
    if PrimFloat.eqb den 0 then raise ZeroDivisionError
    else ok (PFloat (round_float (243.04 * (c + b) / den) 1)).
Proof.
  intros Ht Hh Hden Hlog. cbv zeta. unfold Dewpoint.
  rewrite py_mul_float_l, py_add_float_l, Ht. cbn [rbind ok].
  unfold py_truediv at 1. cbn [as_number rbind ok]. rewrite Hden.
  rewrite py_truediv_float_r, Hh. cbn [rbind ok].
  replace (PrimFloat.eqb 100 0) with false by (vm_compute; reflexivity).
  cbn [rbind ok]. rewrite Hlog. cbn [rbind ok].
  unfold py_add, py_mul, py_sub, py_arith. cbn [as_number rbind ok].
  unfold py_truediv. cbn [as_number rbind ok].
  destruct (PrimFloat.eqb (17.625 - c - 17.625 * x / (243.04 + x)) 0);
    reflexivity.
Qed.

(** The binary64 nearest to the logarithm of one half. *)
Definition ln_half : float := (-0.6931471805599453)%float.

(** X23: [Dewpoint(20, 50)] is [9.3], for the arguments as [int]s and as
    [float]s, when [math.log(0.5)] returns the binary64 nearest to the
    logarithm or one of its two neighbours. *)
Theorem Dewpoint_sample math_log c :
  math_log (PFloat 0.5) = ok (PFloat c) ->
  c = ln_half \/ c = next_up ln_half \/ c = next_down ln_half ->
  Dewpoint math_log (PInt 20) (PInt 50) = ok (PFloat 9.3) /\
  Dewpoint math_log (PFloat 20) (PFloat 50) = ok (PFloat 9.3).
Proof.
  intros Hlog Hc.
  assert (H : forall t h,
             float_operand t = ok 20%float -> float_operand h = ok 50%float ->
             Dewpoint math_log t h = ok (PFloat 9.3)).
  { intros t h Ht Hh.
    rewrite (Dewpoint_float math_log t h 20 50 c Ht Hh eq_refl Hlog).
    destruct Hc as [-> | [-> | ->]]; vm_compute; reflexivity. }
  split; apply H; vm_compute; reflexivity.
Qed.

(** A [math.log] for the examples: a domain error up to zero, and the
    logarithm of one half elsewhere. *)
Definition log_sample (a : pyvalue) : result pyvalue :=
  match a with
  | PFloat f => if PrimFloat.leb f 0 then raise ValueError else ok (PFloat ln_half)
  | _ => raise TypeError
  end.

Lemma Dewpoint_sample_witness :
  log_sample (PFloat 0.5) = ok (PFloat ln_half) /\
  (ln_half = ln_half \/ ln_half = next_up ln_half \/
   ln_half = next_down ln_half) /\
  Dewpoint log_sample (PInt 20) (PInt 50) = ok (PFloat 9.3).
Proof.
  split; [reflexivity |]. split; [left; reflexivity |].
  apply (proj1 (Dewpoint_sample log_sample ln_half eq_refl
                  (or_introl eq_refl))).
Defined.

(** X24: the two ways [Dewpoint] fails on numbers.  At the temperature
    where [243.04 + t] is zero it raises [ZeroDivisionError], before the
    humidity is looked at; elsewhere an error of [math.log], as the
    domain error for a humidity of zero, is the outcome. *)
Theorem Dewpoint_errors math_log t h x :
  float_operand t = ok x ->
  (PrimFloat.eqb (243.04 + x) 0 = true ->
   Dewpoint math_log t h = raise ZeroDivisionError) /\
  (PrimFloat.eqb (243.04 + x) 0 = false ->
   forall y e,
     float_operand h = ok y ->
     math_log (PFloat (y / 100)%float) = raise e ->
     Dewpoint math_log t h = raise e).
Proof.
  intros Ht. split.
  - intros Hden. unfold Dewpoint.
    rewrite py_mul_float_l, py_add_float_l, Ht. cbn [rbind ok].
    unfold py_truediv at 1. cbn [as_number rbind ok]. rewrite Hden.
    reflexivity.
  - intros Hden y e Hh Hlog. unfold Dewpoint.
    rewrite py_mul_float_l, py_add_float_l, Ht. cbn [rbind ok].
    unfold py_truediv at 1. cbn [as_number rbind ok]. rewrite Hden.
    rewrite py_truediv_float_r, Hh. cbn [rbind ok].
    replace (PrimFloat.eqb 100 0) with false by (vm_compute; reflexivity).
    cbn [rbind ok]. rewrite Hlog. reflexivity.
Qed.

Lemma Dewpoint_errors_witness :
  float_operand (PFloat (-243.04)) = ok (-243.04)%float /\
  float_operand (PInt 20) = ok 20%float /\
  Dewpoint log_sample (PFloat (-243.04)) (PStr "n/a") = raise ZeroDivisionError /\
  Dewpoint log_sample (PInt 20) (PInt 0) = raise ValueError.
Proof.
  split; [reflexivity |]. split; [vm_compute; reflexivity |]. split.
  - apply (proj1 (Dewpoint_errors log_sample (PFloat (-243.04)) (PStr "n/a")
                    (-243.04) eq_refl)).
    vm_compute. reflexivity.
  - apply (proj2 (Dewpoint_errors log_sample (PInt 20) (PInt 0) 20
                    ltac:(vm_compute; reflexivity))
             ltac:(vm_compute; reflexivity) 0%float ValueError);
      vm_compute; reflexivity.
Defined.
